(** * A1 exploit-validation system: balance validator, price cache,
    pricing oracle, revenue normaliser, tool-call executor and
    Foundry execution tool

  The Python sources under [a1_system/] are embedded function by
  function.  Python [float] is IEEE binary64 and is modelled by Rocq's
  primitive floats; [str] is modelled by [string] (ASCII, one byte per
  character); [dict] by association lists where the iteration order is
  observable and by [gmap] otherwise; [None]-able values by [option];
  raised exceptions by the [outcome] type. *)

From Stdlib Require Import ZArith String Ascii List Bool Floats Lia.
From stdpp Require Import gmap strings pretty.
Import ListNotations.

Set Warnings "-inexact-float".
Local Open Scope string_scope.
Local Open Scope Z_scope.

(* ===================================================================== *)
(** * Part I: definitions                                                *)
(* ===================================================================== *)

(** ** Python built-ins used by the sources *)

Module Py.

(** An exception: its class, as far as an [except] clause of the
    sources can tell classes apart, and the text [str(e)] gives. *)
Inductive exn_class :=
| TimeoutError       (* asyncio.TimeoutError and its subclasses *)
| AttributeError
| KeyError
| OverflowError
| ValueError
| ZeroDivisionError
| OtherException.    (* any other subclass of Exception *)

Record exn := Exn { exn_cls : exn_class; exn_text : string }.

(** The result of running a piece of code that may raise. *)
Inductive outcome (A : Type) :=
| Ok (a : A)
| Raise (e : exn).
Arguments Ok {A} a.
Arguments Raise {A} e.

Definition bind {A B} (m : outcome A) (k : A -> outcome B) : outcome B :=
  match m with
  | Ok a => k a
  | Raise e => Raise e
  end.

(** [dict.get(key)] on an association list: the first binding. *)
Fixpoint dict_get {K V} (eqb : K -> K -> bool) (k : K) (d : list (K * V))
  : option V :=
  match d with
  | [] => None
  | (k', v) :: d' => if eqb k k' then Some v else dict_get eqb k d'
  end.

Definition get_or {V} (o : option V) (default : V) : V :=
  match o with Some v => v | None => default end.

(** [c.lower()] and [c.upper()] on one ASCII character. *)
Definition lower_ascii (c : ascii) : ascii :=
  let n := nat_of_ascii c in
  if (Nat.leb 65 n && Nat.leb n 90)%bool then ascii_of_nat (n + 32) else c.

Definition upper_ascii (c : ascii) : ascii :=
  let n := nat_of_ascii c in
  if (Nat.leb 97 n && Nat.leb n 122)%bool then ascii_of_nat (n - 32) else c.

Fixpoint map_string (f : ascii -> ascii) (s : string) : string :=
  match s with
  | EmptyString => EmptyString
  | String c s' => String (f c) (map_string f s')
  end.

(** [s.lower()], [s.upper()] *)
Definition lower (s : string) : string := map_string lower_ascii s.
Definition upper (s : string) : string := map_string upper_ascii s.

(** [s.startswith(p)] *)
Fixpoint startswith (p s : string) : bool :=
  match p, s with
  | EmptyString, _ => true
  | String a p', String b s' => if Ascii.eqb a b then startswith p' s' else false
  | String _ _, EmptyString => false
  end.

(** [sub in s] *)
Fixpoint contains (sub s : string) : bool :=
  if startswith sub s then true
  else match s with
       | EmptyString => false
       | String _ s' => contains sub s'
       end.

(** [s.replace(old, new)] for a non-empty [old]: occurrences are
    replaced from left to right and do not overlap.  [skip] counts the
    characters of the occurrence just replaced that are still to be
    dropped. *)
Fixpoint replace_from (old new : string) (skip : nat) (s : string) : string :=
  match s with
  | EmptyString => EmptyString
  | String c s' =>
      match skip with
      | S k => replace_from old new k s'
      | O =>
          if startswith old s
          then new ++ replace_from old new (String.length old - 1) s'
          else String c (replace_from old new 0 s')
      end
  end.

Definition replace (old new s : string) : string := replace_from old new 0 s.

(** [all(c in chars for c in s)] *)
Fixpoint all_in (chars : string) (s : string) : bool :=
  match s with
  | EmptyString => true
  | String c s' => contains (String c EmptyString) chars && all_in chars s'
  end.

(** Truthiness of an [Optional[str]]: [None] and [""] are falsy. *)
Definition truthy_optstr (o : option string) : bool :=
  match o with
  | Some (String _ _) => true
  | _ => false
  end.

(** Truthiness of an [Optional[int]]: [None] and [0] are falsy. *)
Definition truthy_optint (o : option Z) : bool :=
  match o with
  | Some n => negb (n =? 0)
  | None => false
  end.

(** Truthiness of a [float]: [0.0] and [-0.0] are falsy, NaN is truthy. *)
Definition truthy_float (x : float) : bool := negb (PrimFloat.eqb x 0%float).

(** Truthiness of an [Optional[float]]. *)
Definition truthy_optfloat (o : option float) : bool :=
  match o with
  | Some x => truthy_float x
  | None => false
  end.

(** [int(x)] on a float: truncation towards zero; [None] where Python
    raises (infinities and NaN). *)
Definition int_of_float (x : float) : option Z :=
  match Prim2SF x with
  | S754_zero _ => Some 0
  | S754_finite s m e =>
      let mag := if 0 <=? e then Z.pos m * 2 ^ e else Z.pos m / 2 ^ (- e) in
      Some (if s then - mag else mag)
  | _ => None
  end.

(** [s[n:]] *)
Fixpoint drop (n : nat) (s : string) : string :=
  match n, s with
  | O, _ => s
  | S n', String _ s' => drop n' s'
  | S _, EmptyString => EmptyString
  end.

(** [s[:n]] *)
Fixpoint take (n : nat) (s : string) : string :=
  match n, s with
  | S n', String c s' => String c (take n' s')
  | _, _ => EmptyString
  end.

(** The characters [\s] matches in a [str] pattern, within ASCII. *)
Definition is_space (c : ascii) : bool :=
  let n := nat_of_ascii c in
  (Nat.leb 9 n && Nat.leb n 13) || (Nat.leb 28 n && Nat.leb n 32).

(** The characters [\d] matches, within ASCII. *)
Definition is_digit (c : ascii) : bool :=
  let n := nat_of_ascii c in Nat.leb 48 n && Nat.leb n 57.

Fixpoint skip_spaces (s : string) : string :=
  match s with
  | String c s' => if is_space c then skip_spaces s' else s
  | EmptyString => EmptyString
  end.

Fixpoint take_digits (s : string) : string :=
  match s with
  | String c s' => if is_digit c then String c (take_digits s') else EmptyString
  | EmptyString => EmptyString
  end.

(** [int(s)] on a non-empty string of decimal digits (CPython's default
    limit of 4300 digits per conversion is not modelled). *)
Definition int_of_digits (s : string) : Z :=
  List.fold_left
    (fun acc c => 10 * acc + (Z.of_nat (nat_of_ascii c) - 48))
    (list_ascii_of_string s) 0.

(** The pattern [LIT\s*(\d+)] matched at the very start of [s]: the
    digits of group 1.  White space and digits are disjoint, so the
    greedy [\s*] never has to give anything back. *)
Definition match_uint_at (lit s : string) : option string :=
  if startswith lit s then
    match take_digits (skip_spaces (drop (String.length lit) s)) with
    | EmptyString => None
    | digits => Some digits
    end
  else None.

(** [re.search] for [LIT\s*(\d+)]: group 1 of the leftmost match. *)
Fixpoint search_uint (lit s : string) : option string :=
  match match_uint_at lit s with
  | Some digits => Some digits
  | None =>
      match s with
      | String _ s' => search_uint lit s'
      | EmptyString => None
      end
  end.

(** The pattern [LIT\s*(0x[a-fA-F0-9]{40})] at the very start of [s]. *)
Definition match_address_at (lit s : string) : option string :=
  if startswith lit s then
    let rest := skip_spaces (drop (String.length lit) s) in
    let hex := take 40 (drop 2 rest) in
    if startswith "0x" rest && Nat.eqb (String.length hex) 40
       && all_in "abcdefABCDEF0123456789" hex
    then Some ("0x" ++ hex)
    else None
  else None.

Fixpoint search_address (lit s : string) : option string :=
  match match_address_at lit s with
  | Some a => Some a
  | None =>
      match s with
      | String _ s' => search_address lit s'
      | EmptyString => None
      end
  end.

(** [a / b] on ints: the correctly rounded quotient as a float;
    [OverflowError] when it is too large for a float. *)
Definition int_truediv (a b : Z) : outcome float :=
  if b =? 0 then Raise (Exn ZeroDivisionError "division by zero")
  else if a =? 0 then Ok 0%float
  else
    let sign := xorb (a <? 0) (b <? 0) in
    match SFdiv prec emax (S754_finite sign (Z.to_pos (Z.abs a)) 0)
                          (S754_finite false (Z.to_pos (Z.abs b)) 0) with
    | S754_infinity _ =>
        Raise (Exn OverflowError "integer division result too large for a float")
    | q => Ok (SF2Prim q)
    end.

(** [int(time.time())]; the clock never reads an infinity or a NaN. *)
Definition int_time (now : float) : Z := get_or (int_of_float now) 0.

(** [str(n)] on an int. *)
Definition str_of_int (n : Z) : string := pretty n.

End Py.

(** ** pricing/tokens.py *)

Module Tokens.

Record TokenInfo := mkTokenInfo {
  address : string;
  symbol : string;
  decimals : Z;
  name : string;
  is_stablecoin : bool;
  is_wrapped_native : bool;
  coingecko_id : option string;
  chainlink_feed : option string
}.

Definition ETHEREUM_TOKENS : list (string * TokenInfo) :=
  [ ("ETH", mkTokenInfo "0x0000000000000000000000000000000000000000" "ETH" 18
              "Ethereum" false false (Some "ethereum")
              (Some "0x5f4eC3Df9cbd43714FE2740f5E3616155c5b8419"));
    ("WETH", mkTokenInfo "0xC02aaA39b223FE8D0A0e5C4F27eAD9083C756Cc2" "WETH" 18
              "Wrapped Ethereum" false true (Some "ethereum")
              (Some "0x5f4eC3Df9cbd43714FE2740f5E3616155c5b8419"));
    ("USDC", mkTokenInfo "0xA0b86a33E6441d00C9dab2B1DC7Be85c39Ad" "USDC" 6
              "USD Coin" true false (Some "usd-coin")
              (Some "0x8fFfFfd4AfB6115b954Bd326cbe7B4BA576818f6"));
    ("USDT", mkTokenInfo "0xdAC17F958D2ee523a2206206994597C13D831ec7" "USDT" 6
              "Tether USD" true false (Some "tether")
              (Some "0x3E7d1eAB13ad0104d2750B8863b489D65364e32D"));
    ("DAI", mkTokenInfo "0x6B175474E89094C44Da98b954EedeAC495271d0F" "DAI" 18
              "Dai Stablecoin" true false (Some "dai")
              (Some "0xAed0c38402d20D9df45C7C74C061f3f8a1e9e8D1"));
    ("WBTC", mkTokenInfo "0x2260FAC5E5542a773Aa44fBCfeDf7C193bc2C599" "WBTC" 8
              "Wrapped Bitcoin" false false (Some "wrapped-bitcoin")
              (Some "0xF4030086522a5bEEa4988F8cA5B36dbC97BeE88c"));
    ("UNI", mkTokenInfo "0x1f9840a85d5aF5bf1D1762F925BDADdC4201F984" "UNI" 18
              "Uniswap" false false (Some "uniswap")
              (Some "0x553303d460EE0afB37EdFf9bE42922D8FF63220e"));
    ("COMP", mkTokenInfo "0xc00e94Cb662C3520282E6f5717214004A7f26888" "COMP" 18
              "Compound" false false (Some "compound-governance-token")
              (Some "0xdbd020CAeF83eFd542f4De03e3cF0C28A4428bd5"));
    ("stETH", mkTokenInfo "0xae7ab96520DE3A18E5e111B5EaAb095312D7fE84" "stETH" 18
              "Lido Staked ETH" false false (Some "staked-ether")
              (Some "0xCfE54B5cD566aB89272946F602D76Ea879CAb4a8"));
    ("UERII", mkTokenInfo "0x418C24191aE947A78C99fDc0e45a1f96Afb254BE" "UERII" 6
              "UERII Token" false false (Some "uerii") None) ].

Definition BSC_TOKENS : list (string * TokenInfo) :=
  [ ("BNB", mkTokenInfo "0x0000000000000000000000000000000000000000" "BNB" 18
              "Binance Coin" false false (Some "binancecoin")
              (Some "0x0567F2323251f0Aab15c8dFb1967E4e8A7D42aeE"));
    ("WBNB", mkTokenInfo "0xbb4CdB9CBd36B01bD1cBaEBF2De08d9173bc095c" "WBNB" 18
              "Wrapped BNB" false true (Some "binancecoin")
              (Some "0x0567F2323251f0Aab15c8dFb1967E4e8A7D42aeE"));
    ("USDT", mkTokenInfo "0x55d398326f99059fF775485246999027B3197955" "USDT" 18
              "Tether USD" true false (Some "tether")
              (Some "0xB97Ad0E74fa7d920791E90258A6E2085088b4320"));
    ("BUSD", mkTokenInfo "0xe9e7CEA3DedcA5984780Bafc599bD69ADd087D56" "BUSD" 18
              "Binance USD" true false (Some "binance-usd")
              (Some "0xcBb98864Ef56E9042e7d2efef76141f15731B82f"));
    ("CAKE", mkTokenInfo "0x0E09FaBB73Bd3Ade0a17ECC321fD13a19e81cE82" "CAKE" 18
              "PancakeSwap Token" false false (Some "pancakeswap-token")
              (Some "0xB6064eD41d4f67e353768aA239cA86f4F73665a1")) ].

(** [TokenRegistry.TOKENS]: chain id, then symbol, in source order. *)
Definition TOKENS : list (Z * list (string * TokenInfo)) :=
  [ (1, ETHEREUM_TOKENS); (56, BSC_TOKENS) ].

(** [cls.TOKENS.get(chain_id, {})] *)
Definition chain_tokens (chain_id : Z) : list (string * TokenInfo) :=
  Py.get_or (Py.dict_get Z.eqb chain_id TOKENS) [].

Definition get_token_info (chain_id : Z) (sym : string) : option TokenInfo :=
  Py.dict_get String.eqb (Py.upper sym) (chain_tokens chain_id).

Definition get_token_by_address (chain_id : Z) (addr : string) : option TokenInfo :=
  let address_lower := Py.lower addr in
  List.find (fun ti => String.eqb (Py.lower (address ti)) address_lower)
            (List.map snd (chain_tokens chain_id)).

Definition get_base_currency (chain_id : Z) : string :=
  if chain_id =? 1 then "ETH"
  else if chain_id =? 56 then "BNB"
  else "ETH".

Definition is_native_token (chain_id : Z) (addr : string) : bool :=
  let a := Py.lower addr in
  String.eqb a "0x0000000000000000000000000000000000000000"
  || String.eqb a "0xeeeeeeeeeeeeeeeeeeeeeeeeeeeeeeeeeeeeeeee".

Definition get_native_token_info (chain_id : Z) : option TokenInfo :=
  get_token_info chain_id (get_base_currency chain_id).

End Tokens.

(** ** pricing/cache.py *)

Module Cache.

Record PriceCacheEntry := mkEntry {
  price_usd : float;
  timestamp : Z;
  block_number : option Z;
  chain_id : Z;
  token_symbol : string;
  source : string;
  confidence : float;
  cached_at : float
}.

(** A [PriceCache] object: its in-memory dictionary and the JSON files
    of its cache directory, one per chain id (a missing file reads as
    the empty dictionary, as [_load_disk_cache] has it; reads and writes
    of the files are taken to succeed).  [max_age_seconds] is
    [max_age_hours * 3600], an int that binary64 holds exactly. *)
Record PriceCache := mkCache {
  max_age_seconds : float;
  memory_cache : gmap string PriceCacheEntry;
  disk : gmap Z (gmap string PriceCacheEntry)
}.

(** [PriceCache()] with the default [max_age_hours = 24] on an empty
    cache directory. *)
Definition empty_cache : PriceCache := mkCache 86400%float ∅ ∅.

Definition _get_cache_key (cid : Z) (sym : string) (block : option Z) : string :=
  if Py.truthy_optint block
  then Py.str_of_int cid ++ "_" ++ sym ++ "_"
       ++ Py.str_of_int (Py.get_or block 0)
  else Py.str_of_int cid ++ "_" ++ sym ++ "_latest".

Definition _load_disk_cache (c : PriceCache) (cid : Z) : gmap string PriceCacheEntry :=
  default ∅ (disk c !! cid).

Definition _save_disk_cache (c : PriceCache) (cid : Z)
    (cache_data : gmap string PriceCacheEntry) : PriceCache :=
  mkCache (max_age_seconds c) (memory_cache c) (<[cid := cache_data]> (disk c)).

Definition set_memory (c : PriceCache) (m : gmap string PriceCacheEntry) : PriceCache :=
  mkCache (max_age_seconds c) m (disk c).

(** [time.time() - entry.cached_at < self.max_age_seconds] *)
Definition is_fresh (c : PriceCache) (now : float) (entry : PriceCacheEntry) : bool :=
  PrimFloat.ltb (PrimFloat.sub now (cached_at entry)) (max_age_seconds c).

(** The second half of [get_price]: the disk cache. *)
Definition get_price_disk (c : PriceCache) (now : float) (cid : Z) (cache_key : string)
  : option PriceCacheEntry * PriceCache :=
  let disk_cache := _load_disk_cache c cid in
  match disk_cache !! cache_key with
  | Some entry =>
      if is_fresh c now entry
      then (Some entry, set_memory c (<[cache_key := entry]> (memory_cache c)))
      else (None, _save_disk_cache c cid (delete cache_key disk_cache))
  | None => (None, c)
  end.

(** [get_price]; [now] is the value [time.time()] returns during the
    call.  The cache object is mutated: the new state is returned next
    to the result. *)
Definition get_price (c : PriceCache) (now : float) (cid : Z) (sym : string)
    (block : option Z) : option PriceCacheEntry * PriceCache :=
  let cache_key := _get_cache_key cid sym block in
  match memory_cache c !! cache_key with
  | Some entry =>
      if is_fresh c now entry
      then (Some entry, c)
      else get_price_disk (set_memory c (delete cache_key (memory_cache c)))
                          now cid cache_key
  | None => get_price_disk c now cid cache_key
  end.

(** [timestamp or int(time.time())] *)
Definition timestamp_or_now (ts : option Z) (now : float) : Z :=
  if Py.truthy_optint ts then Py.get_or ts 0 else Py.int_time now.

Definition set_price (c : PriceCache) (now : float) (cid : Z) (sym : string)
    (price : float) (src : string) (conf : float) (block : option Z)
    (ts : option Z) : PriceCacheEntry * PriceCache :=
  let cache_key := _get_cache_key cid sym block in
  let entry := mkEntry price (timestamp_or_now ts now) block cid sym src conf now in
  let c1 := set_memory c (<[cache_key := entry]> (memory_cache c)) in
  let disk_cache := _load_disk_cache c1 cid in
  (entry, _save_disk_cache c1 cid (<[cache_key := entry]> disk_cache)).

(** [clear_cache]: with a chain id that is not 0, the file of that
    chain is unlinked and the memory keys that start with
    [f"{chain_id}_"] are dropped; with [None], and with 0, which the test
    [if chain_id:] takes for absent, every file and every memory entry
    goes. *)
Definition clear_cache (c : PriceCache) (chain_id : option Z) : PriceCache :=
  if Py.truthy_optint chain_id then
    let cid := Py.get_or chain_id 0 in
    let key_prefix := Py.str_of_int cid ++ "_" in
    mkCache (max_age_seconds c)
      (filter (fun kv : string * PriceCacheEntry =>
                 Py.startswith key_prefix (fst kv) = false)
              (memory_cache c))
      (delete cid (disk c))
  else mkCache (max_age_seconds c) ∅ ∅.

(** The two tables of [get_block_timestamp_estimate]. *)
Definition BLOCK_TIMES : list (Z * Z) := [ (1, 12); (56, 3) ].

Definition CURRENT_BLOCKS : list (Z * Z) := [ (1, 21000000); (56, 45000000) ].

(** [get_block_timestamp_estimate]; [now] is what [time.time()]
    returns.  The result is declared optional but is always an int. *)
Definition get_block_timestamp_estimate (now : float) (cid block : Z) : option Z :=
  let block_time := Py.get_or (Py.dict_get Z.eqb cid BLOCK_TIMES) 12 in
  let current_block := Py.get_or (Py.dict_get Z.eqb cid CURRENT_BLOCKS) 21000000 in
  let current_time := Py.int_time now in
  let blocks_ago := current_block - block in
  let estimated_timestamp := current_time - blocks_ago * block_time in
  Some (Z.max estimated_timestamp 0).

End Cache.

(** ** pricing/clients/coingecko_client.py *)

Module CoinGecko.

(** [CoinGeckoClient.get_block_timestamp_estimate], with the same two
    tables as the cache's. *)
Definition get_block_timestamp_estimate (now : float) (cid block : Z) : Z :=
  let block_time := Py.get_or (Py.dict_get Z.eqb cid Cache.BLOCK_TIMES) 12 in
  let current_block :=
    Py.get_or (Py.dict_get Z.eqb cid Cache.CURRENT_BLOCKS) 21000000 in
  let current_time := Py.int_time now in
  let blocks_ago := current_block - block in
  let estimated_timestamp := current_time - blocks_ago * block_time in
  Z.max estimated_timestamp 1500000000.

End CoinGecko.

(** ** pricing/oracle.py *)

Module Oracle.

Record PriceResult := mkPrice {
  price_usd : float;
  confidence : float;
  source : string;
  timestamp : Z;
  block_number : option Z;
  token_symbol : string;
  chain_id : Z
}.

(** Code that runs against the oracle's [PriceCache] object: it reads
    and mutates the cache and returns or raises.  What was written to
    the cache before an exception stays written. *)
Definition M (A : Type) : Type :=
  Cache.PriceCache -> Py.outcome A * Cache.PriceCache.

Definition ret {A} (a : A) : M A := fun c => (Py.Ok a, c).

Definition raise {A} (e : Py.exn) : M A := fun c => (Py.Raise e, c).

Definition bind {A B} (m : M A) (k : A -> M B) : M B :=
  fun c =>
    match m c with
    | (Py.Ok a, c') => k a c'
    | (Py.Raise e, c') => (Py.Raise e, c')
    end.

(** [try: m  except Exception as e: h e] *)
Definition try_except {A} (m : M A) (h : Py.exn -> M A) : M A :=
  fun c =>
    match m c with
    | (Py.Ok a, c') => (Py.Ok a, c')
    | (Py.Raise e, c') => h e c'
    end.

(** A method of the cache object, which does not raise. *)
Definition on_cache {A} (f : Cache.PriceCache -> A * Cache.PriceCache) : M A :=
  fun c => let '(a, c') := f c in (Py.Ok a, c').

Notation "x <- m ;; k" := (bind m (fun x => k))
  (at level 100, m at next level, right associativity).

(** The three pricing clients, as the oracle sees them: each call
    answers [(price_usd, confidence)] or [None], or raises, and may use
    the cache it shares with the oracle.  Their network and chain access
    is not modelled: a value of this record is one behaviour of the
    outside world. *)
Record Clients := mkClients {
  chainlink_get_historical_price :
    string -> Z -> Z -> string -> M (option (float * float));
  chainlink_get_latest_price :
    string -> Z -> string -> M (option (float * float));
  dex_get_token_price_via_dex :
    string -> Z -> string -> Z -> M (option (float * float));
  coingecko_get_price_at_block :
    string -> Z -> Z -> string -> M (option (float * float));
  coingecko_get_current_price :
    string -> Z -> string -> M (option (float * float))
}.

(** [self.fallback_rates] *)
Definition fallback_rates : list (Z * list (string * float)) :=
  [ (1, [ ("ETH", 3200.0); ("WETH", 3200.0); ("USDC", 1.0); ("USDT", 1.0);
          ("DAI", 1.0); ("WBTC", 65000.0); ("UNI", 10.0); ("COMP", 50.0);
          ("stETH", 3200.0); ("UERII", 0.001) ]%float);
    (56, [ ("BNB", 650.0); ("WBNB", 650.0); ("USDT", 1.0); ("BUSD", 1.0);
           ("CAKE", 2.5) ]%float) ].

(** [PriceResult(price_usd, confidence, source, int(time.time()), ...)]
    from the pair a client answered. *)
Definition price_result_of (now : float) (answer : option (float * float))
    (src : string) (block : option Z) (sym : string) (cid : Z)
  : option PriceResult :=
  match answer with
  | Some (price_usd, confidence) =>
      Some (mkPrice price_usd confidence src (Py.int_time now) block sym cid)
  | None => None
  end.

Section WithClients.

(** The outside world during the call, and the clock reading
    [time.time()] returns during it. *)
Variable clients : Clients.
Variable now : float.

Definition _get_chainlink_price (ti : Tokens.TokenInfo) (cid : Z) (block : option Z)
  : M (option PriceResult) :=
  if negb (Py.truthy_optstr (Tokens.chainlink_feed ti)) then ret None
  else
    let feed := Py.get_or (Tokens.chainlink_feed ti) "" in
    try_except
      (result <- (if Py.truthy_optint block
                  then chainlink_get_historical_price clients feed cid
                         (Py.get_or block 0) (Tokens.symbol ti)
                  else chainlink_get_latest_price clients feed cid
                         (Tokens.symbol ti)) ;;
       ret (price_result_of now result "chainlink" block (Tokens.symbol ti) cid))
      (fun _ => ret None).

Definition _get_dex_price (ti : Tokens.TokenInfo) (cid : Z) (block : Z)
  : M (option PriceResult) :=
  try_except
    (result <- dex_get_token_price_via_dex clients (Tokens.address ti) cid
                 (Tokens.symbol ti) block ;;
     ret (price_result_of now result "dex" (Some block) (Tokens.symbol ti) cid))
    (fun _ => ret None).

Definition _get_coingecko_price (ti : Tokens.TokenInfo) (cid : Z) (block : option Z)
  : M (option PriceResult) :=
  if negb (Py.truthy_optstr (Tokens.coingecko_id ti)) then ret None
  else
    let cg_id := Py.get_or (Tokens.coingecko_id ti) "" in
    try_except
      (result <- (if Py.truthy_optint block
                  then coingecko_get_price_at_block clients cg_id cid
                         (Py.get_or block 0) (Tokens.symbol ti)
                  else coingecko_get_current_price clients cg_id cid
                         (Tokens.symbol ti)) ;;
       ret (price_result_of now result "coingecko" block (Tokens.symbol ti) cid))
      (fun _ => ret None).

Definition _get_fallback_price (ti : Tokens.TokenInfo) (cid : Z) (block : option Z)
  : M (option PriceResult) :=
  let chain_rates := Py.get_or (Py.dict_get Z.eqb cid fallback_rates) [] in
  let price_usd := Py.dict_get String.eqb (Tokens.symbol ti) chain_rates in
  if Py.truthy_optfloat price_usd then
    let p := Py.get_or price_usd 0%float in
    _ <- on_cache (fun c => Cache.set_price c now cid (Tokens.symbol ti) p
                              "fallback" 0.3%float block None) ;;
    ret (Some (mkPrice p 0.3%float "fallback" (Py.int_time now) block
                 (Tokens.symbol ti) cid))
  else ret None.

(** Lines 109-117 of [get_token_price]: [None] is the early
    [return None] for an unknown token; [Some None] is a native-token
    address on a chain whose base currency the registry does not hold,
    which leaves [token_info = None]. *)
Definition lookup_token_info (addr : string) (cid : Z)
  : option (option Tokens.TokenInfo) :=
  match Tokens.get_token_by_address cid addr with
  | Some ti => Some (Some ti)
  | None =>
      if Tokens.is_native_token cid addr
      then Some (Tokens.get_native_token_info cid)
      else None
  end.

(** Lines 132-169 of [get_token_price]: the four sources in priority
    order. *)
Definition price_from_sources (ti : Tokens.TokenInfo) (cid : Z) (block : option Z)
  : M (option PriceResult) :=
  r1 <- (if Py.truthy_optstr (Tokens.chainlink_feed ti)
         then _get_chainlink_price ti cid block else ret None) ;;
  match r1 with
  | Some r => ret (Some r)
  | None =>
      r2 <- (if Py.truthy_optint block
             then _get_dex_price ti cid (Py.get_or block 0) else ret None) ;;
      match r2 with
      | Some r => ret (Some r)
      | None =>
          r3 <- (if Py.truthy_optstr (Tokens.coingecko_id ti)
                 then _get_coingecko_price ti cid block else ret None) ;;
          match r3 with
          | Some r => ret (Some r)
          | None => _get_fallback_price ti cid block
          end
      end
  end.

Definition get_token_price (addr : string) (cid : Z) (block : option Z)
  : M (option PriceResult) :=
  match lookup_token_info addr cid with
  | None => ret None
  | Some None =>
      raise (Py.Exn Py.AttributeError
               "'NoneType' object has no attribute 'symbol'")
  | Some (Some ti) =>
      cached_price <- on_cache (fun c => Cache.get_price c now cid
                                           (Tokens.symbol ti) block) ;;
      match cached_price with
      | Some e =>
          ret (Some (mkPrice (Cache.price_usd e) (Cache.confidence e)
                       (Cache.source e) (Cache.timestamp e)
                       (Cache.block_number e) (Tokens.symbol ti) cid))
      | None => price_from_sources ti cid block
      end
  end.

Definition get_token_price_by_symbol (sym : string) (cid : Z) (block : option Z)
  : M (option PriceResult) :=
  match Tokens.get_token_info cid sym with
  | None => ret None
  | Some ti => get_token_price (Tokens.address ti) cid block
  end.

Definition convert_token_to_usd (addr : string) (amount : float) (cid : Z)
    (block : option Z) : M (option float) :=
  price_result <- get_token_price addr cid block ;;
  match price_result with
  | Some r => ret (Some (PrimFloat.mul amount (price_usd r)))
  | None => ret None
  end.

Definition get_base_currency_price (cid : Z) (block : option Z)
  : M (option PriceResult) :=
  get_token_price_by_symbol (Tokens.get_base_currency cid) cid block.

(** [x / y] on floats raises on a zero divisor. *)
Definition float_div (x y : float) : M float :=
  if PrimFloat.eqb y 0%float
  then raise (Py.Exn Py.ZeroDivisionError "float division by zero")
  else ret (PrimFloat.div x y).

Definition normalize_to_base_currency (addr : string) (amount : float) (cid : Z)
    (block : option Z) : M (option float) :=
  token_usd_value <- convert_token_to_usd addr amount cid block ;;
  if negb (Py.truthy_optfloat token_usd_value) then ret None
  else
    base_currency_price <- get_base_currency_price cid block ;;
    match base_currency_price with
    | None => ret None
    | Some bp =>
        q <- float_div (Py.get_or token_usd_value 0%float) (price_usd bp) ;;
        ret (Some q)
    end.

End WithClients.

(** A world in which no client has anything to say. *)
Definition silent_clients : Clients :=
  mkClients (fun _ _ _ _ => ret None) (fun _ _ _ => ret None)
            (fun _ _ _ _ => ret None) (fun _ _ _ _ => ret None)
            (fun _ _ _ => ret None).

(** A world in which every client answers, each with its own price. *)
Definition eager_clients : Clients :=
  mkClients (fun _ _ _ _ => ret (Some (3000, 0.95)%float))
            (fun _ _ _ => ret (Some (3001, 0.98)%float))
            (fun _ _ _ _ => ret (Some (2990, 0.8)%float))
            (fun _ _ _ _ => ret (Some (2980, 0.9)%float))
            (fun _ _ _ => ret (Some (2981, 0.95)%float)).

End Oracle.

(** ** pricing/balance_validator.py *)

Module BalanceValidator.

Record BalanceInvariantViolation := mkViolation {
  token_symbol : string;
  token_address : string;
  initial_balance : float;
  final_balance : float;
  violation_amount : float;
  chain_id : Z;
  violation_type : string
}.

(** One balance-change dictionary; a key that is absent is [None]. *)
Record balance_change_dict := mkChangeDict {
  token : option string;
  initial : option float;
  final : option float;
  net_change : option float
}.

(** [self.PAPER_INITIAL_BALANCES] *)
Definition PAPER_INITIAL_BALANCES : list (Z * list (string * float)) :=
  [ (1, [ ("ETH", 1e5); ("WETH", 1e5); ("USDC", 1e7); ("USDT", 1e7);
          ("DAI", 1e7) ]%float);
    (56, [ ("BNB", 1e5); ("WBNB", 1e5); ("USDT", 1e7); ("BUSD", 1e7) ]%float) ].

(** [token_info.address if token_info else ""] *)
Definition address_of (cid : Z) (sym : string) : string :=
  match Tokens.get_token_info cid sym with
  | Some ti => Tokens.address ti
  | None => ""
  end.

(** The body of the loop of [validate_balance_invariant]: the
    violations one change appends, in order. *)
Definition invariant_violations_of (cid : Z) (change : balance_change_dict)
  : list BalanceInvariantViolation :=
  let token_symbol := Py.get_or (token change) "UNKNOWN" in
  let initial_balance := Py.get_or (initial change) 0%float in
  let final_balance := Py.get_or (final change) 0%float in
  (if PrimFloat.ltb final_balance initial_balance
   then [ mkViolation token_symbol (address_of cid token_symbol)
            initial_balance final_balance
            (PrimFloat.sub initial_balance final_balance) cid "depletion" ]
   else [])
  ++
  (if PrimFloat.ltb final_balance 0%float
   then [ mkViolation token_symbol (address_of cid token_symbol)
            initial_balance final_balance
            (PrimFloat.abs final_balance) cid "negative_balance" ]
   else []).

Definition validate_balance_invariant
    (balance_changes : list balance_change_dict) (cid : Z)
  : bool * list BalanceInvariantViolation :=
  let violations := List.flat_map (invariant_violations_of cid) balance_changes in
  (Nat.eqb (List.length violations) 0, violations).

(** The body of the loop of [validate_paper_compliance] (the warning
    it logs on a deviating initial balance has no effect on the
    result). *)
Definition paper_violations_of (cid : Z) (paper_balances : list (string * float))
    (change : balance_change_dict) : list BalanceInvariantViolation :=
  let token_symbol := Py.get_or (token change) "UNKNOWN" in
  let final_balance := Py.get_or (final change) 0%float in
  match Py.dict_get String.eqb token_symbol paper_balances with
  | Some expected_initial =>
      if PrimFloat.ltb final_balance expected_initial
      then [ mkViolation token_symbol (address_of cid token_symbol)
               expected_initial final_balance
               (PrimFloat.sub expected_initial final_balance) cid
               "insufficient_funds" ]
      else []
  | None => []
  end.

Definition validate_paper_compliance
    (balance_changes : list balance_change_dict) (cid : Z)
  : bool * list BalanceInvariantViolation :=
  let paper_balances := Py.get_or (Py.dict_get Z.eqb cid PAPER_INITIAL_BALANCES) [] in
  let violations :=
    List.flat_map (paper_violations_of cid paper_balances) balance_changes in
  (Nat.eqb (List.length violations) 0, violations).

(** [all_violations] of [generate_compliance_report]: the violations of
    the basic pass followed by those of the paper-compliance pass. *)
Definition all_violations (balance_changes : list balance_change_dict) (cid : Z)
  : list BalanceInvariantViolation :=
  snd (validate_balance_invariant balance_changes cid)
  ++ snd (validate_paper_compliance balance_changes cid).

(** The part of the dictionary [generate_compliance_report] returns that
    is computed from the two passes; the suggestion texts, which format
    floats for the log, are left out. *)
Record compliance_report := mkReport {
  balance_invariant_enforced : bool;
  paper_methodology_compliant : bool;
  total_violations : nat;
  invariant_violations : list BalanceInvariantViolation;
  paper_compliance_violations : list BalanceInvariantViolation
}.

Definition generate_compliance_report
    (balance_changes : list balance_change_dict) (cid : Z) : compliance_report :=
  let '(invariant_valid, invariant_violations) :=
    validate_balance_invariant balance_changes cid in
  let '(paper_compliant, paper_violations) :=
    validate_paper_compliance balance_changes cid in
  mkReport invariant_valid paper_compliant
    (List.length (invariant_violations ++ paper_violations))
    invariant_violations paper_violations.

(** [change.get("net_change", final_balance - initial_balance)] *)
Definition net_change_of (change : balance_change_dict) : float :=
  Py.get_or (net_change change)
    (PrimFloat.sub (Py.get_or (final change) 0%float)
                   (Py.get_or (initial change) 0%float)).

(** [net_change < 0]: the token is being spent. *)
Definition is_spent (change : balance_change_dict) : bool :=
  PrimFloat.ltb (net_change_of change) 0%float.

(** [calculate_minimum_required_balances]: the dictionary it builds,
    read as a map from token symbols.  An assignment to a symbol that
    is already a key replaces its value. *)
Definition calculate_minimum_required_balances
    (balance_changes : list balance_change_dict) (cid : Z) : gmap string float :=
  List.fold_left
    (fun minimum_balances change =>
       let token_symbol := Py.get_or (token change) "UNKNOWN" in
       if is_spent change then
         let minimum_required :=
           PrimFloat.mul (PrimFloat.abs (net_change_of change)) 1.1%float in
         <[token_symbol := minimum_required]> minimum_balances
       else minimum_balances)
    balance_changes ∅.

(** The violation types the code writes (they are also the ones
    [get_enforcement_suggestions] dispatches on). *)
Definition VIOLATION_TYPES : list string :=
  [ "depletion"; "negative_balance"; "insufficient_funds" ].

(** The violation kinds as the specification lists them. *)
Definition SPEC_VIOLATION_KINDS : list string :=
  [ "depletion"; "negative_balance"; "insufficient_provisioning" ].

(** The input of the invariant-detection property. *)
Definition depleted_X : balance_change_dict :=
  mkChangeDict (Some "X") (Some 100%float) (Some 0%float) None.

(** An ETH balance that ends below the provisioned 100,000 ETH. *)
Definition drained_ETH : balance_change_dict :=
  mkChangeDict (Some "ETH") (Some 1e5%float) (Some 0%float) None.

End BalanceValidator.

(** ** tools/base.py *)

Module Tools.

(** [ToolResult]; the wall-clock field [execution_time] is left out.
    [data = None] stands for the empty dictionary of a failed run. *)
Record ToolResult (D : Type) := mkToolResult {
  success : bool;
  data : option D;
  error_message : option string;
  tool_name : string
}.
Arguments mkToolResult {D} _ _ _ _.
Arguments success {D} _.
Arguments data {D} _.
Arguments error_message {D} _.
Arguments tool_name {D} _.

End Tools.

(** ** tools/revenue_tool.py *)

Module Revenue.
Import Oracle.

Record BalanceChange := mkChange {
  token_address : string;
  token_symbol : string;
  initial_balance : float;
  final_balance : float;
  net_change : float;
  is_surplus : bool;
  value_eth : float;
  value_usd : float
}.

(** [RevenueNormalizerTool.INITIAL_BALANCES] *)
Definition INITIAL_BALANCES : list (Z * list (string * float)) :=
  [ (1, [ ("ETH", 1e5); ("WETH", 1e5); ("USDC", 1e7); ("USDT", 1e7) ]%float);
    (56, [ ("BNB", 1e5); ("WBNB", 1e5); ("USDT", 1e7); ("BUSD", 1e7) ]%float) ].

(** One element of [execution_data["balance_analysis"]["token_balances"]];
    an absent key is [None], numbers are floats. *)
Record token_data := mkTokenData {
  td_address : option string;
  td_symbol : option string;
  td_before : option float;
  td_after : option float
}.

(** The keys of [execution_result.data] the tool reads:
    [balance_analysis] is [None] when the key is absent and otherwise
    holds its [token_balances] list. *)
Record execution_data := mkExecData {
  balance_analysis : option (list token_data);
  eth_gained : option float;
  tokens_extracted : list (string * float)
}.

Record params := mkParams {
  execution_result : option execution_data;
  p_chain_id : option Z;
  p_block_number : option Z
}.

(** The dictionary [_convert_surplus_token] returns ([route] is always
    [None]). *)
Record surplus_conversion := mkConversion {
  sc_token : string;
  sc_amount : float;
  base_value : float;
  conversion_rate : float;
  sc_method : string
}.

(** The dictionary [_resolve_deficit_token] returns. *)
Record deficit_resolution := mkDeficit {
  dr_token : string;
  deficit_amount : float;
  acquisition_cost_base : float;
  dr_method : string
}.

(** The figures of [revenue_data]. *)
Record revenue_data := mkRevenue {
  revenue_base_currency : float;
  revenue_usd : float;
  base_currency : string;
  is_profitable : bool;
  profit_threshold_met : bool;
  direct_base_change : float;
  surplus_conversions : list surplus_conversion;
  deficit_resolutions : list deficit_resolution;
  total_surplus_value : float;
  base_currency_usd_rate : float;
  compliance : BalanceValidator.compliance_report
}.

(** [abs(x) > 1e-12] *)
Definition above_dust (x : float) : bool :=
  PrimFloat.ltb 1e-12%float (PrimFloat.abs x).

Definition _extract_balance_changes (d : execution_data) (cid : Z)
  : list BalanceChange :=
  match balance_analysis d with
  | None => []
  | Some token_balances =>
      List.flat_map
        (fun td =>
           match td_before td, td_after td with
           | Some initial, Some final =>
               let net := PrimFloat.sub final initial in
               if above_dust net
               then [ mkChange (Py.get_or (td_address td) "")
                        (Py.get_or (td_symbol td) "UNKNOWN")
                        initial final net (PrimFloat.ltb 0%float net)
                        0%float 0%float ]
               else []
           | _, _ => []
           end)
        token_balances
  end.

(** The base-currency part of [_legacy_balance_extraction];
    [self.INITIAL_BALANCES[chain_id][base_currency]] raises [KeyError]
    on a chain the table does not list. *)
Definition legacy_base_change (d : execution_data) (cid : Z)
  : Py.outcome (list BalanceChange) :=
  let eth_gained := Py.get_or (eth_gained d) 0%float in
  let base_currency := Tokens.get_base_currency cid in
  if above_dust eth_gained then
    match Py.dict_get Z.eqb cid INITIAL_BALANCES with
    | None => Py.Raise (Py.Exn Py.KeyError (Py.str_of_int cid))
    | Some balances =>
        match Py.dict_get String.eqb base_currency balances with
        | None => Py.Raise (Py.Exn Py.KeyError ("'" ++ base_currency ++ "'"))
        | Some initial_balance =>
            Py.Ok [ mkChange "0x0000000000000000000000000000000000000000"
                      base_currency initial_balance
                      (PrimFloat.add initial_balance eth_gained) eth_gained
                      (PrimFloat.ltb 0%float eth_gained) 0%float 0%float ]
        end
    end
  else Py.Ok [].

(** The token part of [_legacy_balance_extraction]. *)
Definition legacy_token_change (cid : Z) (item : string * float)
  : list BalanceChange :=
  let '(token_identifier, amount) := item in
  if above_dust amount then
    let '(token_address, token_symbol) :=
      if Py.startswith "0x" token_identifier
      then (token_identifier,
            match Tokens.get_token_by_address cid token_identifier with
            | Some ti => Tokens.symbol ti
            | None => "UNKNOWN"
            end)
      else (match Tokens.get_token_info cid token_identifier with
            | Some ti => Tokens.address ti
            | None => ""
            end,
            token_identifier) in
    [ mkChange token_address token_symbol 0%float amount amount
        (PrimFloat.ltb 0%float amount) 0%float 0%float ]
  else [].

Definition _legacy_balance_extraction (d : execution_data) (cid : Z)
  : Py.outcome (list BalanceChange) :=
  Py.bind (legacy_base_change d cid) (fun base =>
  Py.Ok (base ++ List.flat_map (legacy_token_change cid) (tokens_extracted d))%list).

Section WithClients.

Variable clients : Clients.
Variable now : float.

Definition _convert_surplus_token (change : BalanceChange) (base_currency : string)
    (cid : Z) (block : option Z) : M surplus_conversion :=
  base_value <- normalize_to_base_currency clients now (token_address change)
                  (net_change change) cid block ;;
  let base_value := Py.get_or base_value 0%float in
  let conversion_rate :=
    if PrimFloat.ltb 0%float (net_change change)
    then PrimFloat.div base_value (net_change change)
    else 0%float in
  ret (mkConversion (token_symbol change) (net_change change) base_value
         conversion_rate "unified_pricing_oracle").

Definition _resolve_deficit_token (change : BalanceChange) (base_currency : string)
    (cid : Z) (block : option Z) : M deficit_resolution :=
  let deficit_amount := PrimFloat.abs (net_change change) in
  acquisition_cost <- normalize_to_base_currency clients now
                        (token_address change) deficit_amount cid block ;;
  ret (mkDeficit (token_symbol change) deficit_amount
         (Py.get_or acquisition_cost 0%float) "unified_pricing_oracle").

(** The variables the loop of [execute] updates. *)
Record loop_state := mkLoop {
  base_currency_change : float;
  ls_total_surplus_value : float;
  ls_surplus_conversions : list surplus_conversion;
  ls_deficit_resolutions : list deficit_resolution
}.

Definition loop_init : loop_state := mkLoop 0%float 0%float [] [].

(** One iteration of the loop of [execute] (lines 135-156). *)
Definition loop_body (base_currency : string) (cid : Z) (block : option Z)
    (st : loop_state) (change : BalanceChange) : M loop_state :=
  if String.eqb (token_symbol change) base_currency then
    ret (mkLoop (PrimFloat.add (base_currency_change st) (net_change change))
           (ls_total_surplus_value st) (ls_surplus_conversions st)
           (ls_deficit_resolutions st))
  else if is_surplus change && PrimFloat.ltb 0%float (net_change change) then
    conversion <- _convert_surplus_token change base_currency cid block ;;
    ret (mkLoop (base_currency_change st)
           (PrimFloat.add (ls_total_surplus_value st) (base_value conversion))
           (ls_surplus_conversions st ++ [conversion])%list
           (ls_deficit_resolutions st))
  else if negb (is_surplus change) && PrimFloat.ltb (net_change change) 0%float then
    deficit <- _resolve_deficit_token change base_currency cid block ;;
    ret (mkLoop (base_currency_change st) (ls_total_surplus_value st)
           (ls_surplus_conversions st)
           (ls_deficit_resolutions st ++ [deficit])%list)
  else ret st.

Fixpoint reconcile_loop (base_currency : string) (cid : Z) (block : option Z)
    (balance_changes : list BalanceChange) (st : loop_state) : M loop_state :=
  match balance_changes with
  | [] => ret st
  | change :: rest =>
      st' <- loop_body base_currency cid block st change ;;
      reconcile_loop base_currency cid block rest st'
  end.

Definition change_dict (change : BalanceChange) : BalanceValidator.balance_change_dict :=
  BalanceValidator.mkChangeDict (Some (token_symbol change))
    (Some (initial_balance change)) (Some (final_balance change))
    (Some (net_change change)).

(** Steps 2 to 6 of [execute] (lines 127-218), on the balance changes
    step 1 extracted. *)
Definition reconcile (balance_changes : list BalanceChange) (cid : Z)
    (block : option Z) : M revenue_data :=
  let base_currency := Tokens.get_base_currency cid in
  st <- reconcile_loop base_currency cid block balance_changes loop_init ;;
  let total_base_currency_profit :=
    PrimFloat.add (base_currency_change st) (ls_total_surplus_value st) in
  base_currency_price <- get_base_currency_price clients now cid block ;;
  let usd_rate :=
    match base_currency_price with
    | Some bp => price_usd bp
    | None => 3200.0%float
    end in
  let total_usd_profit := PrimFloat.mul total_base_currency_profit usd_rate in
  let is_profitable :=
    PrimFloat.ltb 1.0%float total_usd_profit
    || PrimFloat.ltb 0.001%float total_base_currency_profit in
  let profit_threshold_met := PrimFloat.ltb 100.0%float total_usd_profit in
  let compliance_report :=
    BalanceValidator.generate_compliance_report
      (List.map change_dict balance_changes) cid in
  ret (mkRevenue total_base_currency_profit total_usd_profit base_currency
         is_profitable profit_threshold_met (base_currency_change st)
         (ls_surplus_conversions st) (ls_deficit_resolutions st)
         (ls_total_surplus_value st) usd_rate compliance_report).

(** Step 1 of [execute]: the structured extraction, and the legacy one
    when it finds nothing. *)
Definition extract (d : execution_data) (cid : Z) : M (list BalanceChange) :=
  match _extract_balance_changes d cid with
  | [] =>
      match _legacy_balance_extraction d cid with
      | Py.Ok l => ret l
      | Py.Raise e => raise e
      end
  | l => ret l
  end.

Definition execute (p : params)
  : Cache.PriceCache -> Tools.ToolResult revenue_data * Cache.PriceCache :=
  fun c =>
    match execution_result p with
    | None =>
        (Tools.mkToolResult false None
           (Some "No execution result provided for revenue analysis")
           "revenue_normalizer_tool", c)
    | Some execution_data =>
        let cid := Py.get_or (p_chain_id p) 1 in
        match (balance_changes <- extract execution_data cid ;;
               reconcile balance_changes cid (p_block_number p)) c with
        | (Py.Ok revenue, c') =>
            (Tools.mkToolResult true (Some revenue) None
               "revenue_normalizer_tool", c')
        | (Py.Raise e, c') =>
            (Tools.mkToolResult false None
               (Some ("Revenue analysis error: " ++ Py.exn_text e))
               "revenue_normalizer_tool", c')
        end
    end.

End WithClients.

(** The sum the loop accumulates: [0.0 + x1 + x2 + ...], left to right. *)
Definition float_sum (l : list float) : float :=
  List.fold_left PrimFloat.add l 0%float.

(** The run of the reconciliation-arithmetic property: on chain 1, ETH
    goes from 100,000 to 100,000.5 and USDC from 10,000,000 to
    10,000,640; no client answers, so USDC is priced by the static table
    at 1 USD and ETH at 3,200 USD, and 640 USDC convert to 0.2 ETH. *)
Definition scenario_data : execution_data :=
  mkExecData
    (Some [ mkTokenData (Some "0x0000000000000000000000000000000000000000")
              (Some "ETH") (Some 100000%float) (Some 100000.5%float);
            mkTokenData (Some "0xA0b86a33E6441d00C9dab2B1DC7Be85c39Ad")
              (Some "USDC") (Some 10000000%float) (Some 10000640%float) ])
    None [].

Definition scenario_params : params := mkParams (Some scenario_data) (Some 1) None.

(** A surplus of 5 units of a token the registry does not know. *)
Definition unknown_token : string := "0x1111111111111111111111111111111111111111".

Definition unknown_surplus : BalanceChange :=
  mkChange unknown_token "UNKNOWN" 0%float 5%float 5%float true 0%float 0%float.

End Revenue.

(** ** tool_calling.py *)

Module ToolCalling.

Inductive ToolCallStatus := PENDING | RUNNING | COMPLETED | FAILED | TIMEOUT.

(** The exceptions that are not subclasses of [Exception]:
    [asyncio.CancelledError], [KeyboardInterrupt], [SystemExit], and
    any other class derived from [BaseException] directly.  An
    [except Exception] clause does not catch them. *)
Inductive base_exn :=
| CancelledError
| KeyboardInterrupt
| SystemExit
| OtherBaseException.

(** A task that ends with [KeyboardInterrupt] or [SystemExit] raises it
    into the event loop, which stops; any other exception a task ends
    with is kept as the outcome of the task. *)
Definition stops_event_loop (b : base_exn) : bool :=
  match b with
  | KeyboardInterrupt | SystemExit => true
  | CancelledError | OtherBaseException => false
  end.

(** How an [await] ends: with a value, with an exception that is an
    [Exception], or with one that is not. *)
Inductive awaited (A : Type) :=
| Value (a : A)
| Error (e : Py.exn)
| Escape (b : base_exn).
Arguments Value {A} _.
Arguments Error {A} _.
Arguments Escape {A} _.

Section Executor.

(** The parameter dictionaries of tool calls and the data dictionaries
    of tool results, and the text an f-string gives for a float. *)
Variables Params Data : Type.
Variable repr_float : float -> string.

(** [ToolCall]; the wall-clock field [execution_time] is left out. *)
Record ToolCall := mkToolCall {
  id : string;
  name : string;
  parameters : Params;
  status : ToolCallStatus;
  result : option (Tools.ToolResult Data);
  error : option string
}.

(** How [tool.execute(parameters)] ends when nothing cuts it short: it
    returns a [ToolResult], as [BaseTool.execute] is declared to,
    raises an exception that is an [Exception], or raises one that is
    not. *)
Inductive completion :=
| Returns (r : Tools.ToolResult Data)
| Raises (e : Py.exn)
| RaisesBase (b : base_exn).

(** What [tool.execute(parameters)] does on the event loop that runs
    the batch: the seconds it takes, whether a timeout that expires
    before it is done ends it, and how it ends otherwise.  The event
    loop can cancel a coroutine only where it awaits: [cancellable] is
    false for a coroutine that runs to its end without awaiting once
    the timeout has expired, and for one that catches the cancellation
    and carries on; such a coroutine is taken to reach its end.  A
    cancellable coroutine may await for ever ([infinity]). *)
Record behaviour := mkBehaviour {
  duration : float;
  cancellable : bool;
  ending : completion
}.

(** A registered tool is a function [Params -> behaviour]: what it does
    depends on the parameters of the call only, a capability keeps no
    state between calls. *)
Record ToolCallExecutor := mkExecutor {
  registry : gmap string (Params -> behaviour);
  timeout : float
}.

(** [ToolRegistry]: the dictionary [self.tools], keyed by what
    [tool.get_name()] returns.  The executor holds the registry object
    itself, so it sees every later registration. *)
Definition register_tool (tools : gmap string (Params -> behaviour))
    (tool_name : string) (t : Params -> behaviour)
  : gmap string (Params -> behaviour) :=
  <[tool_name := t]> tools.

Definition unregister_tool (tools : gmap string (Params -> behaviour))
    (tool_name : string) : gmap string (Params -> behaviour) :=
  if bool_decide (is_Some (tools !! tool_name)) then delete tool_name tools
  else tools.

Definition get_tool (tools : gmap string (Params -> behaviour))
    (tool_name : string) : option (Params -> behaviour) :=
  tools !! tool_name.

(** [await asyncio.wait_for(coroutine, timeout)]: the coroutine's own
    ending when it is done before the timeout or cannot be cancelled,
    [asyncio.TimeoutError] otherwise (the coroutine is cancelled). *)
Definition wait_for (b : behaviour) (timeout : float)
  : awaited (Tools.ToolResult Data) :=
  if PrimFloat.ltb (duration b) timeout || negb (cancellable b) then
    match ending b with
    | Returns r => Value r
    | Raises e => Error e
    | RaisesBase x => Escape x
    end
  else Error (Py.Exn Py.TimeoutError "").

(** The [try] block of [execute_tool_call]. *)
Definition try_block (ex : ToolCallExecutor) (tool_call : ToolCall)
  : awaited (Tools.ToolResult Data) :=
  match registry ex !! name tool_call with
  | None =>
      Error (Py.Exn Py.ValueError
               ("Tool '" ++ name tool_call ++ "' not found in registry"))
  | Some t => wait_for (t (parameters tool_call)) (timeout ex)
  end.

Definition is_timeout_error (e : Py.exn) : bool :=
  match Py.exn_cls e with
  | Py.TimeoutError => true
  | _ => false
  end.

(** [execute_tool_call]: the record it is given, as it leaves it, and
    the exception it raises, if any.  The status is set to RUNNING
    before the [try] block; the two [except] clauses catch
    [asyncio.TimeoutError] and [Exception], so an exception that is not
    an [Exception] leaves the coroutine, and the record stays as it was
    when the [try] block began. *)
Definition execute_tool_call (ex : ToolCallExecutor) (tool_call : ToolCall)
  : ToolCall * option base_exn :=
  match try_block ex tool_call with
  | Value r =>
      (mkToolCall (id tool_call) (name tool_call) (parameters tool_call)
         COMPLETED (Some r) (error tool_call), None)
  | Error e =>
      if is_timeout_error e then
        (mkToolCall (id tool_call) (name tool_call) (parameters tool_call)
           TIMEOUT (result tool_call)
           (Some ("Tool call timed out after " ++ repr_float (timeout ex) ++ "s")),
         None)
      else
        (mkToolCall (id tool_call) (name tool_call) (parameters tool_call)
           FAILED (result tool_call) (Some (Py.exn_text e)), None)
  | Escape b =>
      (mkToolCall (id tool_call) (name tool_call) (parameters tool_call)
         RUNNING (result tool_call) (error tool_call), Some b)
  end.

(** What [asyncio.gather] with [return_exceptions=True] hands back for
    one coroutine: the record the coroutine returned, or the exception
    it ended with, which is an [Exception] or is not. *)
Inductive gathered :=
| Result (tool_call : ToolCall)
| ExceptionInstance (e : Py.exn)
| BaseExceptionInstance (b : base_exn).

Definition gathered_of (done : ToolCall * option base_exn) : gathered :=
  match done with
  | (tool_call, None) => Result tool_call
  | (_, Some b) => BaseExceptionInstance b
  end.

(** [asyncio.gather] over the tasks, with [return_exceptions=True]: every
    coroutine runs as a task of its own, and the results come in the
    order of the calls.  When a task ends with [KeyboardInterrupt] or
    [SystemExit] the event loop stops and [gather] hands back nothing;
    which of several such exceptions comes out of the loop depends on
    the timing and is not recorded. *)
Definition gather (ex : ToolCallExecutor) (tool_calls : list ToolCall)
  : option (list gathered) :=
  if existsb (fun tc => match snd (execute_tool_call ex tc) with
                        | Some b => stops_event_loop b
                        | None => false
                        end) tool_calls
  then None
  else Some (List.map (fun tc => gathered_of (execute_tool_call ex tc)) tool_calls).

(** The loop over [results] of the parallel branch, for the call at one
    position: [tool_call] is the record as its coroutine left it; the
    loop marks it failed when the result is an instance of
    [Exception], and leaves it alone otherwise. *)
Definition settle (tool_call : ToolCall) (res : gathered) : ToolCall :=
  match res with
  | ExceptionInstance e =>
      mkToolCall (id tool_call) (name tool_call) (parameters tool_call)
        FAILED (result tool_call) (Some (Py.exn_text e))
  | Result _ | BaseExceptionInstance _ => tool_call
  end.

Fixpoint settle_all (tool_calls : list ToolCall) (results : list gathered)
  : list ToolCall :=
  match tool_calls, results with
  | tc :: tcs, res :: rs => settle tc res :: settle_all tcs rs
  | _, _ => []
  end.

(** The sequential branch, [for tool_call in tool_calls: await
    self.execute_tool_call(tool_call)]: the records as the loop leaves
    them, and the exception that ends it, if any.  The calls after the
    one that raises are not started. *)
Fixpoint run_in_turn (ex : ToolCallExecutor) (tool_calls : list ToolCall)
  : list ToolCall * option base_exn :=
  match tool_calls with
  | [] => ([], None)
  | tc :: rest =>
      match execute_tool_call ex tc with
      | (done, Some b) => (done :: rest, Some b)
      | (done, None) =>
          let (rest', raised) := run_in_turn ex rest in (done :: rest', raised)
      end
  end.

(** How [execute_tool_calls] ends: it returns the list it was given,
    with the records as the calls left them; or it does not return,
    because the exception a call let through comes out of it (the
    sequential mode), the records being left as they are, or because
    a task ended with [KeyboardInterrupt] or [SystemExit] and the event
    loop stopped (the parallel mode). *)
Inductive batch_outcome :=
| Returned (tool_calls : list ToolCall)
| Raised (b : base_exn) (tool_calls : list ToolCall)
| LoopStopped.

Definition execute_tool_calls (ex : ToolCallExecutor) (tool_calls : list ToolCall)
    (parallel : bool) : batch_outcome :=
  match tool_calls with
  | [] => Returned []
  | _ =>
      if parallel then
        match gather ex tool_calls with
        | None => LoopStopped
        | Some results =>
            Returned
              (settle_all (List.map (fun tc => fst (execute_tool_call ex tc)) tool_calls)
                 results)
        end
      else
        match run_in_turn ex tool_calls with
        | (done, None) => Returned done
        | (done, Some b) => Raised b done
        end
  end.

End Executor.

Arguments mkToolCall {Params Data} _ _ _ _ _ _.
Arguments id {Params Data} _.
Arguments name {Params Data} _.
Arguments parameters {Params Data} _.
Arguments status {Params Data} _.
Arguments result {Params Data} _.
Arguments error {Params Data} _.
Arguments Returns {Data} _.
Arguments Raises {Data} _.
Arguments RaisesBase {Data} _.
Arguments mkBehaviour {Data} _ _ _.
Arguments duration {Data} _.
Arguments cancellable {Data} _.
Arguments ending {Data} _.
Arguments mkExecutor {Params Data} _ _.
Arguments registry {Params Data} _.
Arguments timeout {Params Data} _.
Arguments execute_tool_call {Params Data} _ _ _.
Arguments register_tool {Params Data} _ _ _.
Arguments unregister_tool {Params Data} _ _.
Arguments get_tool {Params Data} _ _.
Arguments Returned {Params Data} _.
Arguments Raised {Params Data} _ _.
Arguments LoopStopped {Params Data}.
Arguments execute_tool_calls {Params Data} _ _ _ _.

Abbreviation tool Params Data := (Params -> behaviour Data) (only parsing).

(** The batch of the concurrent-batch property: three tools under a
    timeout of 30 seconds.  "ok" returns after 1 second, "boom" raises
    after 2 seconds, "slow" would need 45 seconds and awaits all the
    while; "flaky" raises a timeout error of its own after 1 second. *)
Definition ok_result : Tools.ToolResult unit :=
  Tools.mkToolResult true (Some tt) None "ok".

Definition demo_registry : gmap string (tool unit unit) :=
  <["ok" := fun _ => mkBehaviour 1 true (Returns ok_result)]>
  (<["boom" := fun _ => mkBehaviour 2 true
                 (Raises (Py.Exn Py.OtherException "boom"))]>
  (<["slow" := fun _ => mkBehaviour 45 true (Returns ok_result)]>
  (<["flaky" := fun _ => mkBehaviour 1 true
                  (Raises (Py.Exn Py.TimeoutError "upstream timed out"))]> ∅))).

Definition demo_executor : ToolCallExecutor unit unit :=
  mkExecutor demo_registry 30.

Definition demo_repr (x : float) : string := "30.0".

Definition pending (call_id tool_name : string) : ToolCall unit unit :=
  mkToolCall call_id tool_name tt PENDING None None.

Definition demo_batch : list (ToolCall unit unit) :=
  [ pending "call_0" "ok"; pending "call_1" "boom"; pending "call_2" "slow" ].

(** Three more tools: "cancelled" raises [asyncio.CancelledError] after
    1 second, "quit" raises [SystemExit] after 1 second, and "busy"
    computes for 45 seconds without awaiting and then returns. *)
Definition escaping_registry : gmap string (tool unit unit) :=
  <["cancelled" := fun _ => mkBehaviour 1 true (RaisesBase CancelledError)]>
  (<["quit" := fun _ => mkBehaviour 1 true (RaisesBase SystemExit)]>
  (<["busy" := fun _ => mkBehaviour 45 false (Returns ok_result)]>
   demo_registry)).

Definition escaping_executor : ToolCallExecutor unit unit :=
  mkExecutor escaping_registry 30.

Definition cancelled_batch : list (ToolCall unit unit) :=
  [ pending "call_0" "ok"; pending "call_1" "cancelled"; pending "call_2" "boom" ].

Definition quit_batch : list (ToolCall unit unit) :=
  [ pending "call_0" "ok"; pending "call_1" "quit"; pending "call_2" "boom" ].

End ToolCalling.

(** ** Crypto.Hash.keccak

    [_to_checksum_address] hashes with the Keccak-256 of the
    pycryptodome library.  The library is not part of the repository;
    the function is defined here after the Keccak reference: the
    permutation Keccak-f[1600] on 25 lanes of 64 bits, rate 136 bytes,
    padding byte 0x01, the first 32 bytes of the state as digest. *)

Module Keccak.

Definition mask64 : Z := 2 ^ 64 - 1.

Definition rotl64 (x n : Z) : Z :=
  Z.land (Z.lor (Z.shiftl x n) (Z.shiftr x (64 - n))) mask64.

Definition not64 (x : Z) : Z := Z.lxor x mask64.

(** Lane [(x, y)] of a state held row by row. *)
Definition lane (st : list Z) (x y : nat) : Z := List.nth (x + 5 * y) st 0.

Definition RHO : list Z :=
  [ 0; 1; 62; 28; 27;
    36; 44; 6; 55; 20;
    3; 10; 43; 25; 39;
    41; 45; 15; 21; 8;
    18; 2; 61; 56; 14 ].

Definition RC : list Z :=
  [ 0x0000000000000001; 0x0000000000008082; 0x800000000000808A;
    0x8000000080008000; 0x000000000000808B; 0x0000000080000001;
    0x8000000080008081; 0x8000000000008009; 0x000000000000008A;
    0x0000000000000088; 0x0000000080008009; 0x000000008000000A;
    0x000000008000808B; 0x800000000000008B; 0x8000000000008089;
    0x8000000000008003; 0x8000000000008002; 0x8000000000000080;
    0x000000000000800A; 0x800000008000000A; 0x8000000080008081;
    0x8000000000008080; 0x0000000080000001; 0x8000000080008008 ].

Definition coords : list (nat * nat) :=
  List.flat_map (fun y => List.map (fun x => (x, y)) (List.seq 0 5)) (List.seq 0 5).

Definition theta (st : list Z) : list Z :=
  let C := List.map
             (fun x => List.fold_left Z.lxor
                         (List.map (fun y => lane st x y) (List.seq 0 5)) 0)
             (List.seq 0 5) in
  let D := List.map
             (fun x => Z.lxor (List.nth ((x + 4) mod 5) C 0)
                              (rotl64 (List.nth ((x + 1) mod 5) C 0) 1))
             (List.seq 0 5) in
  List.map (fun '(x, y) => Z.lxor (lane st x y) (List.nth x D 0)) coords.

(** Lane [(X, Y)] of the result is lane [(x, y)] rotated, where
    [(X, Y) = (y, 2x + 3y)]. *)
Definition rho_pi (st : list Z) : list Z :=
  List.map
    (fun '(X, Y) =>
       let x := ((X + 3 * Y) mod 5)%nat in
       let y := X in
       rotl64 (lane st x y) (List.nth (x + 5 * y) RHO 0))
    coords.

Definition chi (st : list Z) : list Z :=
  List.map
    (fun '(x, y) =>
       Z.lxor (lane st x y)
         (Z.land (not64 (lane st ((x + 1) mod 5) y))
                 (lane st ((x + 2) mod 5) y)))
    coords.

Definition iota (rc : Z) (st : list Z) : list Z :=
  match st with
  | a :: rest => Z.lxor a rc :: rest
  | [] => []
  end.

Definition keccak_round (st : list Z) (rc : Z) : list Z :=
  iota rc (chi (rho_pi (theta st))).

Definition keccak_f (st : list Z) : list Z := List.fold_left keccak_round RC st.

Definition RATE : nat := 136.

Definition bytes_of_string (s : string) : list Z :=
  List.map (fun c => Z.of_nat (nat_of_ascii c)) (list_ascii_of_string s).

Definition pad (msg : list Z) : list Z :=
  let q := (RATE - (List.length msg mod RATE))%nat in
  if Nat.eqb q 1 then (msg ++ [0x81])%list
  else (msg ++ [0x01] ++ List.repeat 0 (q - 2) ++ [0x80])%list.

(** Eight bytes, least significant first, as a lane. *)
Fixpoint lane_of_bytes (bs : list Z) : Z :=
  match bs with
  | [] => 0
  | b :: bs' => b + 256 * lane_of_bytes bs'
  end.

Fixpoint lanes_of_bytes (n : nat) (bs : list Z) : list Z :=
  match n with
  | O => []
  | S n' => lane_of_bytes (List.firstn 8 bs) :: lanes_of_bytes n' (List.skipn 8 bs)
  end.

Fixpoint xor_lanes (st blk : list Z) : list Z :=
  match st, blk with
  | a :: st', b :: blk' => Z.lxor a b :: xor_lanes st' blk'
  | _, [] => st
  | [], _ => []
  end.

Fixpoint absorb (blocks : nat) (bs : list Z) (st : list Z) : list Z :=
  match blocks with
  | O => st
  | S n => absorb n (List.skipn RATE bs)
             (keccak_f (xor_lanes st (lanes_of_bytes 17 (List.firstn RATE bs))))
  end.

Fixpoint bytes_of_lane (n : nat) (x : Z) : list Z :=
  match n with
  | O => []
  | S n' => (x mod 256) :: bytes_of_lane n' (x / 256)
  end.

Definition keccak256 (msg : list Z) : list Z :=
  let p := pad msg in
  let st := absorb (List.length p / RATE) p (List.repeat 0 25) in
  List.flat_map (bytes_of_lane 8) (List.firstn 4 st).

Definition hex_digit (n : Z) : ascii :=
  List.nth (Z.to_nat n) (list_ascii_of_string "0123456789abcdef") "0"%char.

(** [keccak.new(digest_bits=256)], [update(s.encode())], [hexdigest()] *)
Definition hexdigest (s : string) : string :=
  string_of_list_ascii
    (List.flat_map (fun b => [hex_digit (b / 16); hex_digit (b mod 16)])
       (keccak256 (bytes_of_string s))).

End Keccak.

(** ** tools/execution_tool.py *)

Module Execution.

(** *** Address checksumming *)

(** [int(h, 16)] for one lowercase hex digit. *)
Definition hex_value (h : ascii) : Z :=
  let n := Z.of_nat (nat_of_ascii h) in
  if (48 <=? n) && (n <=? 57) then n - 48
  else if (97 <=? n) && (n <=? 102) then n - 87
  else 0.

(** The loop of [_to_checksum_address] over [enumerate(address)], with
    [address_hash[i]] read alongside.  The digest has 64 characters and
    the address 40, so the digest never runs out; the last case only
    makes the function total. *)
Fixpoint apply_checksum (address address_hash : string) : string :=
  match address, address_hash with
  | EmptyString, _ => EmptyString
  | String char rest, String h hs =>
      String (if Py.contains (String char EmptyString) "0123456789" then char
              else if 8 <=? hex_value h then Py.upper_ascii char else char)
             (apply_checksum rest hs)
  | String char rest, EmptyString => String char rest
  end.

(** [address.lower().replace('0x', '')] *)
Definition normalise (address : string) : string :=
  Py.replace "0x" "" (Py.lower address).

(** The validity test of [_to_checksum_address], on the normalised
    address: 40 characters, all of them lowercase hex digits. *)
Definition is_valid_hex_address (address : string) : bool :=
  Nat.eqb (String.length address) 40 && Py.all_in "0123456789abcdef" address.

Definition _to_checksum_address (address : string) : string :=
  let address := normalise address in
  if negb (is_valid_hex_address address) then "0x" ++ address
  else "0x" ++ apply_checksum address (Keccak.hexdigest address).

(** The strings the pattern [0x[a-fA-F0-9]{40}] of
    [_checksum_all_addresses] matches in full. *)
Definition is_address_literal (a : string) : bool :=
  Py.startswith "0x" a && Nat.eqb (String.length a) 42
  && Py.all_in "abcdefABCDEF0123456789" (Py.drop 2 a).

(** The address pattern does not tell the letters A to F from a to f:
    two strings that agree once these six capitals are lowered have the
    same matches. *)
Definition fold_hex_case_ascii (c : ascii) : ascii :=
  if Py.contains (String c EmptyString) "ABCDEF" then Py.lower_ascii c else c.

Definition fold_hex_case (s : string) : string :=
  Py.map_string fold_hex_case_ascii s.

(** [re.sub(r'0x[a-fA-F0-9]{40}', checksum_match, code)]: the matches
    are taken from left to right and do not overlap; a match is 42
    characters long.  [skip] counts the characters of the match just
    replaced that are still to be passed over. *)
Fixpoint checksum_from (skip : nat) (code : string) : string :=
  match code with
  | EmptyString => EmptyString
  | String c rest =>
      match skip with
      | S k => checksum_from k rest
      | O =>
          if is_address_literal (Py.take 42 code)
          then _to_checksum_address (Py.take 42 code) ++ checksum_from 41 rest
          else String c (checksum_from 0 rest)
      end
  end.

Definition _checksum_all_addresses (code : string) : string :=
  checksum_from 0 code.

(** Lines 68-75 of [execute]: the placeholder is replaced by the
    checksummed target, then every address literal is checksummed. *)
Definition prepare_exploit_code (exploit_code target_address : string) : string :=
  let target_address := _to_checksum_address target_address in
  let exploit_code :=
    Py.replace "0xTARGET_CONTRACT_ADDRESS" target_address exploit_code in
  _checksum_all_addresses exploit_code.

(** *** Analysis of a harness run *)

(** The dictionary [_run_foundry_test] returns. *)
Record execution_result := mkExecResult {
  success : bool;
  compiled : bool;
  output : string;
  gas_used : Z;
  revert_reason : option string
}.

(** The dictionary [_analyze_execution_result] returns, without
    [analysis_notes] and [exploit_contract_address], which the flags do
    not depend on. *)
Record analysis := mkAnalysis {
  profitable : bool;
  exploit_executed_successfully : bool;
  eth_gained : float;
  tokens_extracted : list (string * Z)
}.

Definition eth_gained_patterns : list string :=
  [ "ETH_GAINED:"; "ETH gained:"; "ETH_EQUIVALENT:";
    "Total value extracted (ETH equivalent):" ].

Definition tokens_patterns : list string :=
  [ "TOKENS_MINTED_DETECTED:"; "TOKENS_EXTRACTED:"; "Tokens extracted:";
    "FINAL_TOKEN_BALANCE:" ].

(** [for pattern in patterns: match = re.search(pattern, output);
    if match: ...; break]: the number of the first pattern, in list
    order, that matches anywhere. *)
Fixpoint first_match (patterns : list string) (out : string) : option Z :=
  match patterns with
  | [] => None
  | lit :: rest =>
      match Py.search_uint lit out with
      | Some digits => Some (Py.int_of_digits digits)
      | None => first_match rest out
      end
  end.

(** [max(x, y)] on floats, as Python computes it: [y] when [y > x]. *)
Definition float_max (x y : float) : float :=
  if PrimFloat.ltb x y then y else x.

(** [sum(d.values()) if d else 0] *)
Definition total_tokens (d : list (string * Z)) : Z :=
  List.fold_left Z.add (List.map snd d) 0.

Definition _analyze_execution_result (er : execution_result)
  : Py.outcome analysis :=
  if negb (success er) then Py.Ok (mkAnalysis false false 0%float [])
  else
    let out := output er in
    (* 1. exploit execution success *)
    let executed1 := Py.contains "EXPLOIT_EXECUTED_SUCCESSFULLY: true" out in
    (* 2. profitability *)
    let profitable2 := Py.contains "EXPLOIT_PROFITABLE: true" out in
    (* 3. ETH gained *)
    Py.bind
      (match first_match eth_gained_patterns out with
       | Some eth_gained_wei =>
           Py.bind (Py.int_truediv eth_gained_wei (10 ^ 18)) (fun eth_gained =>
           Py.Ok (float_max 0%float eth_gained,
                  profitable2 || PrimFloat.ltb 0%float eth_gained))
       | None => Py.Ok (0%float, profitable2)
       end)
      (fun '(eth, profitable3) =>
    (* 4. tokens extracted *)
    let tokens :=
      match first_match tokens_patterns out with
      | Some amount =>
          [ (Py.get_or (Py.search_address "Target contract:" out) "unknown_token",
             amount) ]
      | None => []
      end in
    (* 5. storage changes *)
    let executed5 :=
      executed1 || Py.contains "EXPLOIT_CAUSED_STATE_CHANGES: true" out in
    (* 7. final success determination *)
    let executed7 :=
      executed5 || (0 <? total_tokens tokens) || PrimFloat.ltb 0%float eth
      || Py.contains "STORAGE_CHANGE_DETECTED" out in
    Py.Ok (mkAnalysis profitable3 executed7 eth tokens)).

(** A run in which the entry point completed and storage changed, but
    the forge process ended with a non-zero exit code. *)
Definition failed_run_with_signals : execution_result :=
  mkExecResult false true
    "EXPLOIT_EXECUTED_SUCCESSFULLY: true STORAGE_CHANGE_DETECTED: Owner changed ETH_GAINED: 5 TOKENS_EXTRACTED: 7"
    0 None.

(** A successful run whose only signal is one wei of ETH gained. *)
Definition run_with_one_wei : execution_result :=
  mkExecResult true true "EXPLOIT_EXECUTED_SUCCESSFULLY: false ETH_GAINED: 1" 0 None.

(** *** Running a candidate *)

(** The three endpoint settings of [Config] that [get_chain_config]
    hands out as [rpc_url]. *)
Record Config := mkConfig {
  ethereum_archive_url : option string;
  avalanche_rpc_url : option string;
  bsc_archive_url : option string
}.

(** [chain_config.get("rpc_url", "") if chain_config else ""] *)
Definition rpc_url_of (cfg : Config) (cid : Z) : option string :=
  if cid =? 1 then ethereum_archive_url cfg
  else if cid =? 43114 then avalanche_rpc_url cfg
  else if cid =? 56 then bsc_archive_url cfg
  else Some "".

(** [_create_foundry_config]; the connectivity probe it makes first
    only logs. *)
Definition _create_foundry_config (cfg : Config) (cid : Z) (block : option Z)
  : Py.outcome string :=
  let rpc_url := rpc_url_of cfg cid in
  if negb (Py.truthy_optstr rpc_url) then
    Py.Raise (Py.Exn Py.ValueError
                ("No RPC URL configured for chain " ++ Py.str_of_int cid))
  else
    let url := Py.get_or rpc_url "" in
    let nl := String (ascii_of_nat 10) EmptyString in
    let dq := String (ascii_of_nat 34) EmptyString in
    let config :=
      "[profile.default]" ++ nl ++ "src = " ++ dq ++ "src" ++ dq ++ nl
      ++ "out = " ++ dq ++ "out" ++ dq ++ nl
      ++ "libs = [" ++ dq ++ "lib" ++ dq ++ "]" ++ nl
      ++ "gas_limit = 30000000" ++ nl ++ "optimizer = true" ++ nl
      ++ "optimizer_runs = 200" ++ nl ++ "via_ir = true" ++ nl ++ nl
      ++ "[rpc_endpoints]" ++ nl ++ "mainnet = " ++ dq ++ url ++ dq ++ nl ++ nl
      ++ "[profile.default.fork]" ++ nl ++ "url = " ++ dq ++ url ++ dq ++ nl in
    Py.Ok (if Py.truthy_optint block
           then config ++ "block_number = " ++ Py.str_of_int (Py.get_or block 0) ++ nl
           else config).

(** What the operating system and the forge executable do during one
    run of the tool: whether [forge --version] works, the directory
    [tempfile.mkdtemp] creates, the exit code of [forge init], whether
    the three project files can be written, what [_run_foundry_test]
    returns, whether [shutil.rmtree] succeeds, and whether the [mkdir]
    of [_save_artifacts] does (the iteration directory exists and can
    be written to).  Each step may raise instead. *)
Record world := mkWorld {
  foundry_found : bool;
  mkdtemp : Py.outcome string;
  forge_init : Py.outcome Z;
  write_files : Py.outcome unit;
  run_foundry_test : Py.outcome execution_result;
  rmtree_works : bool;
  mkdir_works : bool
}.

(** The entries of [params] that [execute] reads and that bear on what
    follows.  [iteration_dir] is the [Path] the agent passes, held as
    the text [str] gives for it; it is [None] when the entry is
    absent. *)
Record params := mkParams {
  exploit_code : string;
  chain_id : Z;
  target_address : string;
  block_number : option Z;
  iteration_dir : option string
}.

(** [result_data] of [execute], without the raw trace and output. *)
Record result_data := mkResultData {
  execution_successful : bool;
  compilation_successful : bool;
  rd_exploit_executed_successfully : bool;
  rd_profitable : bool;
  rd_gas_used : Z;
  rd_eth_gained : float;
  rd_tokens_extracted : list (string * Z);
  rd_revert_reason : option string;
  temp_dir : string;
  rd_target_address : string
}.

(** Code that runs against the file system, here the set of the
    directories that exist.  Only the directories the tool itself
    creates and removes are followed: what the forge process puts
    inside the project directory, or writes on its own account
    elsewhere, is not recorded, and neither are files. *)
Definition FS (A : Type) : Type := gset string -> Py.outcome A * gset string.

Definition fs_ret {A} (a : A) : FS A := fun fs => (Py.Ok a, fs).

Definition fs_bind {A B} (m : FS A) (k : A -> FS B) : FS B :=
  fun fs =>
    match m fs with
    | (Py.Ok a, fs') => k a fs'
    | (Py.Raise e, fs') => (Py.Raise e, fs')
    end.

Definition fs_lift {A} (o : Py.outcome A) : FS A := fun fs => (o, fs).

(** [tempfile.mkdtemp]: the directory exists once the call returns. *)
Definition do_mkdtemp (w : world) : FS string :=
  fun fs =>
    match mkdtemp w with
    | Py.Ok dir => (Py.Ok dir, {[dir]} ∪ fs)
    | Py.Raise e => (Py.Raise e, fs)
    end.

(** The [try] block of [_create_foundry_project]. *)
Definition create_project_steps (cfg : Config) (w : world) (p : params)
  : FS (option string) :=
  fs_bind (do_mkdtemp w) (fun temp_dir =>
  fs_bind (fs_lift (forge_init w)) (fun returncode =>
  if negb (returncode =? 0) then fs_ret None
  else
    fs_bind (fs_lift (_create_foundry_config cfg (chain_id p) (block_number p)))
      (fun _ =>
    fs_bind (fs_lift (write_files w)) (fun _ =>
    fs_ret (Some temp_dir))))).

(** [_create_foundry_project]: any exception of the steps is logged and
    turned into [None]. *)
Definition _create_foundry_project (cfg : Config) (w : world) (p : params)
  : FS (option string) :=
  fun fs =>
    match create_project_steps cfg w p fs with
    | (Py.Ok r, fs') => (Py.Ok r, fs')
    | (Py.Raise _, fs') => (Py.Ok None, fs')
    end.

(** [_cleanup_temp_dir]: a failing [shutil.rmtree] is logged, not
    raised. *)
Definition _cleanup_temp_dir (w : world) (temp_dir : string) : FS unit :=
  fun fs =>
    if rmtree_works w then (Py.Ok tt, fs ∖ {[temp_dir]}) else (Py.Ok tt, fs).

(** [try: body  finally: cleanup] *)
Definition try_finally {A} (body : FS A) (cleanup : FS unit) : FS A :=
  fun fs =>
    match body fs with
    | (r, fs') =>
        match cleanup fs' with
        | (Py.Ok _, fs'') => (r, fs'')
        | (Py.Raise e, fs'') => (Py.Raise e, fs'')
        end
    end.

Definition failure (msg : string) : Tools.ToolResult result_data :=
  Tools.mkToolResult false None (Some msg) "concrete_execution_tool".

(** [str(iteration_dir / "foundry_project")], for the text of a
    [Path]: no separator is added after a root, and the current
    directory "." is dropped. *)
Definition foundry_dir (iteration_dir : string) : string :=
  if String.eqb iteration_dir "." then "foundry_project"
  else if String.eqb (Py.drop (String.length iteration_dir - 1) iteration_dir) "/"
       then iteration_dir ++ "foundry_project"
       else iteration_dir ++ "/foundry_project".

(** [_save_artifacts]: the directory [foundry_project] is made under
    the iteration directory, and two files of the project and the
    output of the run are copied there.  Whatever fails is logged, not
    raised; when the [mkdir] fails nothing is created. *)
Definition _save_artifacts (w : world) (temp_dir iteration_dir : string)
    (er : execution_result) : FS unit :=
  fun fs =>
    if mkdir_works w then (Py.Ok tt, {[foundry_dir iteration_dir]} ∪ fs)
    else (Py.Ok tt, fs).

(** The inner [try] block of [execute] (lines 110-159). *)
Definition run_and_analyse (w : world) (p : params) (target : string)
    (temp_dir : string) : FS (Tools.ToolResult result_data) :=
  fs_bind (fs_lift (run_foundry_test w)) (fun er =>
  fs_bind (fs_lift (_analyze_execution_result er)) (fun a =>
  fs_bind (match iteration_dir p with
           | Some dir => _save_artifacts w temp_dir dir er
           | None => fs_ret tt
           end) (fun _ =>
  fs_ret (Tools.mkToolResult true
            (Some (mkResultData (success er) (compiled er)
                     (exploit_executed_successfully a) (profitable a)
                     (gas_used er) (eth_gained a) (tokens_extracted a)
                     (revert_reason er) temp_dir target))
            None "concrete_execution_tool")))).

(** [execute]: the result, and the directories that exist afterwards.
    The call is taken to run to its end: it is not cancelled from
    outside while it awaits. *)
Definition execute (cfg : Config) (w : world) (p : params)
  : gset string -> Tools.ToolResult result_data * gset string :=
  fun fs =>
    let target := _to_checksum_address (target_address p) in
    if String.eqb (exploit_code p) "" || String.eqb target "" then
      (failure "Missing exploit_code or target_address", fs)
    else if negb (foundry_found w) then
      (failure "Foundry not found. Install with: curl -L https://foundry.paradigm.xyz | bash", fs)
    else
      match
        fs_bind (_create_foundry_project cfg w p) (fun temp_dir =>
        match temp_dir with
        | None => fs_ret (failure "Failed to create Foundry project")
        | Some dir =>
            try_finally (run_and_analyse w p target dir) (_cleanup_temp_dir w dir)
        end) fs
      with
      | (Py.Ok r, fs') => (r, fs')
      | (Py.Raise e, fs') => (failure ("Execution error: " ++ Py.exn_text e), fs')
      end.

(** A configuration with an Ethereum endpoint only, a target and a
    candidate. *)
Definition demo_config : Config :=
  mkConfig (Some "https://eth.example/archive") None None.

Definition demo_params : params :=
  mkParams "contract ExploitContract { function exploit() external {} }" 1
    "0x5aaeb6053f3e94c9b9a09f33669435e7ef1beaed" (Some 18000000) None.

(** The same call as the agent makes it, with the directory of the
    iteration. *)
Definition agent_params : params :=
  mkParams "contract ExploitContract { function exploit() external {} }" 1
    "0x5aaeb6053f3e94c9b9a09f33669435e7ef1beaed" (Some 18000000)
    (Some "/runs/run_1/iterations/iteration_1").

(** The same candidate on a chain the configuration has no endpoint
    for. *)
Definition no_rpc_params : params :=
  mkParams "contract ExploitContract { function exploit() external {} }" 137
    "0x5aaeb6053f3e94c9b9a09f33669435e7ef1beaed" (Some 18000000) None.

(** A world in which everything works and the run is profitable. *)
Definition good_world : world :=
  mkWorld true (Py.Ok "/tmp/a1_exploit_k3x9") (Py.Ok 0) (Py.Ok tt)
    (Py.Ok run_with_one_wei) true true.

(** The same world, except that [forge init] exits with code 1. *)
Definition init_fails_world : world :=
  mkWorld true (Py.Ok "/tmp/a1_exploit_k3x9") (Py.Ok 1) (Py.Ok tt)
    (Py.Ok run_with_one_wei) true true.

End Execution.

(* ===================================================================== *)
(** * Part II: properties                                                *)
(* ===================================================================== *)

(** ** Balance validator *)

Section BalanceValidatorFacts.
Import BalanceValidator.

Lemma no_token_named_X (cid : Z) : Tokens.get_token_info cid "X" = None.
Proof.
  unfold Tokens.get_token_info, Tokens.chain_tokens, Tokens.TOKENS.
  cbn [Py.dict_get].
  destruct (cid =? 1); [reflexivity|].
  destruct (cid =? 56); reflexivity.
Qed.

(** C1: on the balance changes [{token:"X", initial:100, final:0}] and
    any chain id, [validate_balance_invariant] returns [is_valid = False]
    and exactly one violation, of type "depletion", whose
    [violation_amount] is 100. *)
Theorem C1_depletion_detected (cid : Z) :
  exists v,
    validate_balance_invariant [depleted_X] cid = (false, [v])
    /\ violation_type v = "depletion"
    /\ violation_amount v = 100%float
    /\ token_symbol v = "X"
    /\ initial_balance v = 100%float
    /\ final_balance v = 0%float.
Proof.
  eexists. split.
  - unfold validate_balance_invariant, depleted_X. cbn [flat_map].
    unfold invariant_violations_of, address_of. cbn [token initial final Py.get_or].
    rewrite no_token_named_X.
    reflexivity.
  - repeat split; reflexivity.
Qed.

(** Each pass, change by change. *)
Lemma invariant_violation_types (cid : Z) (change : balance_change_dict)
    (v : BalanceInvariantViolation) :
  In v (invariant_violations_of cid change) ->
  violation_type v = "depletion" \/ violation_type v = "negative_balance".
Proof.
  unfold invariant_violations_of. intros Hin.
  apply in_app_or in Hin as [Hin | Hin].
  - destruct (PrimFloat.ltb _ _); [|contradiction].
    destruct Hin as [<- | []]. now left.
  - destruct (PrimFloat.ltb _ _); [|contradiction].
    destruct Hin as [<- | []]. now right.
Qed.

Lemma paper_violation_type (cid : Z) (paper : list (string * float))
    (change : balance_change_dict) (v : BalanceInvariantViolation) :
  In v (paper_violations_of cid paper change) ->
  violation_type v = "insufficient_funds".
Proof.
  unfold paper_violations_of. intros Hin.
  destruct (Py.dict_get _ _ _); [|contradiction].
  destruct (PrimFloat.ltb _ _); [|contradiction].
  now destruct Hin as [<- | []].
Qed.

(** C2, as stated, fails: on chain 1 the paper-compliance pass flags an
    ETH balance that ends below the provisioned amount with the type
    "insufficient_funds", which is not one of the three kinds the
    specification lists. *)
Lemma C2_counterexample :
  exists v,
    In v (snd (validate_paper_compliance [drained_ETH] 1))
    /\ violation_type v = "insufficient_funds"
    /\ ~ In (violation_type v) SPEC_VIOLATION_KINDS.
Proof.
  eexists. split; [left; reflexivity|]. split; [reflexivity|].
  cbn. intros [H | [H | [H | []]]]; discriminate H.
Qed.

(** C2 (amended): every violation produced by the basic invariant pass
    and by the paper-compliance pass has a violation type drawn from
    "depletion", "negative_balance", "insufficient_funds"; the basic pass
    produces only the first two and the paper pass only the third. *)
Theorem C2_violation_types (changes : list balance_change_dict) (cid : Z)
    (v : BalanceInvariantViolation) :
  (In v (snd (validate_balance_invariant changes cid)) ->
     violation_type v = "depletion" \/ violation_type v = "negative_balance")
  /\ (In v (snd (validate_paper_compliance changes cid)) ->
        violation_type v = "insufficient_funds")
  /\ (In v (all_violations changes cid) -> In (violation_type v) VIOLATION_TYPES).
Proof.
  assert (H1 : In v (snd (validate_balance_invariant changes cid)) ->
               violation_type v = "depletion"
               \/ violation_type v = "negative_balance").
  { cbn. intros Hin. apply in_flat_map in Hin as (c & _ & Hin).
    eapply invariant_violation_types; eassumption. }
  assert (H2 : In v (snd (validate_paper_compliance changes cid)) ->
               violation_type v = "insufficient_funds").
  { cbn. intros Hin. apply in_flat_map in Hin as (c & _ & Hin).
    eapply paper_violation_type; eassumption. }
  split; [exact H1|]. split; [exact H2|].
  unfold all_violations, VIOLATION_TYPES. intros Hin.
  apply in_app_or in Hin as [Hin | Hin].
  - destruct (H1 Hin) as [-> | ->]; cbn; auto.
  - rewrite (H2 Hin). cbn; auto.
Qed.

(** The amended C2 at a concrete input: both passes fire on a drained
    ETH balance on chain 1. *)
Lemma C2_violation_types_witness :
  In (mkViolation "ETH" "0x0000000000000000000000000000000000000000"
        1e5%float 0%float 1e5%float 1 "insufficient_funds")
     (all_violations [drained_ETH] 1)
  /\ In "insufficient_funds" VIOLATION_TYPES.
Proof.
  assert (Hin : In (mkViolation "ETH" "0x0000000000000000000000000000000000000000"
                      1e5%float 0%float 1e5%float 1 "insufficient_funds")
                   (all_violations [drained_ETH] 1)).
  { vm_compute. right. left. reflexivity. }
  split; [exact Hin|].
  exact (proj2 (proj2 (C2_violation_types [drained_ETH] 1 _)) Hin).
Defined.

End BalanceValidatorFacts.

(** ** Price cache *)

Section CacheFacts.
Import Cache.

Lemma cache_key_block_zero (cid : Z) (sym : string) :
  _get_cache_key cid sym (Some 0) = _get_cache_key cid sym None.
Proof. reflexivity. Qed.

Lemma get_price_after_set (c : PriceCache) (t0 t1 : float) (cid : Z) (sym src : string)
    (price conf : float) (b b' : option Z) (ts : option Z) :
  _get_cache_key cid sym b' = _get_cache_key cid sym b ->
  PrimFloat.ltb (PrimFloat.sub t1 t0) (max_age_seconds c) = true ->
  let '(entry, c') := set_price c t0 cid sym price src conf b ts in
  fst (get_price c' t1 cid sym b') = Some entry.
Proof.
  intros Hkey Hfresh. unfold set_price, get_price. rewrite Hkey.
  unfold _save_disk_cache, set_memory, is_fresh.
  cbn [memory_cache max_age_seconds fst].
  rewrite lookup_insert_eq.
  cbn [cached_at]. rewrite Hfresh.
  reflexivity.
Qed.

(** C10: block number 0 is keyed like "latest".  The cache key is the
    same; [get_price] at block 0 and at no block are the same lookup on
    every cache state; [set_price] at block 0 writes the entry of the
    "latest" key in memory and on disk; and while that entry is fresh,
    a price stored at block 0 is what a "latest" lookup returns and a
    price stored as "latest" is what a lookup at block 0 returns. *)
Theorem C10_block_zero_is_latest (c : PriceCache) (t0 t1 : float) (cid : Z)
    (sym src : string) (price conf : float) (ts : option Z) :
  PrimFloat.ltb (PrimFloat.sub t1 t0) (max_age_seconds c) = true ->
  _get_cache_key cid sym (Some 0) = _get_cache_key cid sym None
  /\ get_price c t1 cid sym (Some 0) = get_price c t1 cid sym None
  /\ (let '(entry, c') := set_price c t0 cid sym price src conf (Some 0) ts in
      block_number entry = Some 0
      /\ memory_cache c' !! _get_cache_key cid sym None = Some entry
      /\ _load_disk_cache c' cid !! _get_cache_key cid sym None = Some entry
      /\ fst (get_price c' t1 cid sym None) = Some entry)
  /\ (let '(entry, c') := set_price c t0 cid sym price src conf None ts in
      block_number entry = None
      /\ fst (get_price c' t1 cid sym (Some 0)) = Some entry).
Proof.
  intros Hfresh.
  split; [reflexivity|]. split; [reflexivity|]. split.
  - pose proof (get_price_after_set c t0 t1 cid sym src price conf
                  (Some 0) None ts eq_refl Hfresh) as Hget.
    unfold set_price in *. cbn [block_number].
    split; [reflexivity|]. split; [|split; [|exact Hget]].
    + cbn [memory_cache _save_disk_cache set_memory].
      rewrite cache_key_block_zero. apply lookup_insert_eq.
    + unfold _load_disk_cache at 1. cbn [disk _save_disk_cache].
      rewrite lookup_insert_eq. cbn [default].
      rewrite cache_key_block_zero. apply lookup_insert_eq.
  - pose proof (get_price_after_set c t0 t1 cid sym src price conf
                  None (Some 0) ts eq_refl Hfresh) as Hget.
    unfold set_price in *. cbn [block_number].
    split; [reflexivity | exact Hget].
Qed.

(** C10 at a concrete input: ETH on chain 1, stored at block 0 at time
    1000 and looked up as "latest" ten seconds later in a fresh cache. *)
Lemma C10_block_zero_is_latest_witness :
  PrimFloat.ltb (PrimFloat.sub 1010 1000) (max_age_seconds empty_cache) = true
  /\ _get_cache_key 1 "ETH" (Some 0) = "1_ETH_latest"
  /\ fst (get_price
            (snd (set_price empty_cache 1000 1 "ETH" 3200 "dex" 0.8 (Some 0) None))
            1010 1 "ETH" None)
     = Some (mkEntry 3200 1000 (Some 0) 1 "ETH" "dex" 0.8 1000).
Proof.
  assert (Hfresh : PrimFloat.ltb (PrimFloat.sub 1010 1000)
                     (max_age_seconds empty_cache) = true) by reflexivity.
  split; [exact Hfresh|]. split; [reflexivity|].
  pose proof (C10_block_zero_is_latest empty_cache 1000 1010 1 "ETH" "dex"
                3200 0.8 None Hfresh) as (_ & _ & H & _).
  unfold set_price in H. cbn [snd set_price].
  destruct H as (_ & _ & _ & H). exact H.
Defined.

End CacheFacts.

(** ** Pricing oracle *)

Section OracleFacts.
Import Oracle.

Variable clients : Clients.
Variable now : float.

Lemma price_result_of_source (answer : option (float * float)) (src : string)
    (block : option Z) (sym : string) (cid : Z) (r : PriceResult) :
  price_result_of now answer src block sym cid = Some r -> source r = src.
Proof.
  destruct answer as [[p conf]|]; cbn; [|discriminate].
  intros [= <-]. reflexivity.
Qed.

(** A price that comes out of the Chainlink tier is labelled
    "chainlink", and the token has a feed. *)
Lemma chainlink_price_source (ti : Tokens.TokenInfo) (cid : Z) (block : option Z)
    (c c' : Cache.PriceCache) (r : PriceResult) :
  _get_chainlink_price clients now ti cid block c = (Py.Ok (Some r), c') ->
  source r = "chainlink" /\ Py.truthy_optstr (Tokens.chainlink_feed ti) = true.
Proof.
  unfold _get_chainlink_price.
  destruct (Py.truthy_optstr (Tokens.chainlink_feed ti)); cbn [negb].
  2:{ cbv [ret]. intros [= ]. }
  unfold try_except, bind, ret.
  match goal with |- context [match ?call c with _ => _ end] =>
    destruct (call c) as [[answer | e] c1] end.
  - intros [= Hr <-]. split; [|reflexivity].
    eapply price_result_of_source; eassumption.
  - intros [= ].
Qed.

(** C5: when [get_token_price] finds no valid cache entry and goes
    through the sources, and the Chainlink tier returns a price, that
    price is what [get_token_price] returns and its source is
    "chainlink", whatever the DEX, CoinGecko and fallback tiers would
    have answered. *)
Theorem C5_chainlink_takes_precedence (addr : string) (cid : Z) (block : option Z)
    (ti : Tokens.TokenInfo) (c c1 c2 : Cache.PriceCache) (r : PriceResult) :
  lookup_token_info addr cid = Some (Some ti) ->
  Cache.get_price c now cid (Tokens.symbol ti) block = (None, c1) ->
  _get_chainlink_price clients now ti cid block c1 = (Py.Ok (Some r), c2) ->
  get_token_price clients now addr cid block c = (Py.Ok (Some r), c2)
  /\ source r = "chainlink".
Proof.
  intros Htok Hmiss Hfeed.
  destruct (chainlink_price_source _ _ _ _ _ _ Hfeed) as [Hsrc Hhas].
  split; [|exact Hsrc].
  unfold get_token_price. rewrite Htok.
  unfold bind at 1, on_cache. rewrite Hmiss.
  unfold price_from_sources. rewrite Hhas.
  unfold bind at 1. rewrite Hfeed. reflexivity.
Qed.

Lemma bind_Ok_inv {A B} (m : M A) (k : A -> M B) (c c' : Cache.PriceCache) (b : B) :
  bind m k c = (Py.Ok b, c') ->
  exists a c1, m c = (Py.Ok a, c1) /\ k a c1 = (Py.Ok b, c').
Proof.
  unfold bind. destruct (m c) as [[a | e] c1]; [|discriminate].
  intros H. exists a, c1. split; [reflexivity | exact H].
Qed.

(** A tier whose client call sits in [try/except Exception] does not
    raise. *)
Lemma try_except_returns {A} (m : M (option A)) (c : Cache.PriceCache) :
  exists r c', try_except m (fun _ => ret None) c = (Py.Ok r, c').
Proof.
  unfold try_except, ret. destruct (m c) as [[a | e] c1]; eauto.
Qed.

Lemma chainlink_price_returns ti cid block c :
  exists r c', _get_chainlink_price clients now ti cid block c = (Py.Ok r, c').
Proof.
  unfold _get_chainlink_price.
  destruct (negb _); [cbv [ret]; eauto | apply try_except_returns].
Qed.

Lemma dex_price_returns ti cid block c :
  exists r c', _get_dex_price clients now ti cid block c = (Py.Ok r, c').
Proof. apply try_except_returns. Qed.

Lemma coingecko_price_returns ti cid block c :
  exists r c', _get_coingecko_price clients now ti cid block c = (Py.Ok r, c').
Proof.
  unfold _get_coingecko_price.
  destruct (negb _); [cbv [ret]; eauto | apply try_except_returns].
Qed.

Lemma fallback_price_returns ti cid block c :
  exists r c', _get_fallback_price now ti cid block c = (Py.Ok r, c').
Proof.
  unfold _get_fallback_price.
  destruct (Py.truthy_optfloat _); cbv [bind on_cache ret]; [|eauto].
  destruct (Cache.set_price _ _ _ _ _ _ _ _ _). eauto.
Qed.

(** Either one of the three client tiers answers, or the result is
    that of the static table. *)
Lemma price_from_sources_cases ti cid block c :
  (exists r c', price_from_sources clients now ti cid block c = (Py.Ok (Some r), c'))
  \/ (exists c3, price_from_sources clients now ti cid block c
                 = _get_fallback_price now ti cid block c3).
Proof.
  unfold price_from_sources, bind.
  assert (T1 : exists r c',
             (if Py.truthy_optstr (Tokens.chainlink_feed ti)
              then _get_chainlink_price clients now ti cid block
              else ret None) c = (Py.Ok r, c')).
  { destruct (Py.truthy_optstr _);
      [apply chainlink_price_returns | cbv [ret]; eauto]. }
  destruct T1 as (r1 & c1 & ->). destruct r1; [left; cbv [ret]; eauto|].
  assert (T2 : exists r c',
             (if Py.truthy_optint block
              then _get_dex_price clients now ti cid (Py.get_or block 0)
              else ret None) c1 = (Py.Ok r, c')).
  { destruct (Py.truthy_optint _);
      [apply dex_price_returns | cbv [ret]; eauto]. }
  destruct T2 as (r2 & c2 & ->). destruct r2; [left; cbv [ret]; eauto|].
  assert (T3 : exists r c',
             (if Py.truthy_optstr (Tokens.coingecko_id ti)
              then _get_coingecko_price clients now ti cid block
              else ret None) c2 = (Py.Ok r, c')).
  { destruct (Py.truthy_optstr _);
      [apply coingecko_price_returns | cbv [ret]; eauto]. }
  destruct T3 as (r3 & c3 & ->). destruct r3; [left; cbv [ret]; eauto|].
  right. eauto.
Qed.

Lemma price_from_sources_returns ti cid block c :
  exists r c', price_from_sources clients now ti cid block c = (Py.Ok r, c').
Proof.
  destruct (price_from_sources_cases ti cid block c)
    as [(r & c' & ->) | (c3 & ->)]; [eauto|].
  apply fallback_price_returns.
Qed.

Lemma dict_get_In {V} (k : string) (d : list (string * V)) (v : V) :
  Py.dict_get String.eqb k d = Some v -> In v (map snd d).
Proof.
  induction d as [|[k' v'] d IH]; cbn; [discriminate|].
  destruct (String.eqb k k'); [intros [= ->]; now left|].
  intros H. right. now apply IH.
Qed.

(** Every token of the registry has a non-zero rate in the static
    table of its chain. *)
Lemma registered_token_has_fallback (cid : Z) (ti : Tokens.TokenInfo) :
  In ti (map snd (Tokens.chain_tokens cid)) ->
  Py.truthy_optfloat
    (Py.dict_get String.eqb (Tokens.symbol ti)
       (Py.get_or (Py.dict_get Z.eqb cid fallback_rates) [])) = true.
Proof.
  unfold Tokens.chain_tokens, Tokens.TOKENS, fallback_rates.
  cbn [Py.dict_get].
  destruct (cid =? 1).
  { cbn [Py.get_or]. intros Hin. cbn in Hin.
    repeat (destruct Hin as [<- | Hin]; [reflexivity|]). contradiction. }
  destruct (cid =? 56).
  { cbn [Py.get_or]. intros Hin. cbn in Hin.
    repeat (destruct Hin as [<- | Hin]; [reflexivity|]). contradiction. }
  cbn. contradiction.
Qed.

Lemma lookup_token_info_registered (addr : string) (cid : Z) (ti : Tokens.TokenInfo) :
  lookup_token_info addr cid = Some (Some ti) ->
  In ti (map snd (Tokens.chain_tokens cid)).
Proof.
  unfold lookup_token_info, Tokens.get_token_by_address.
  destruct (find _ _) as [ti'|] eqn:Hfind.
  - intros [= <-]. now apply find_some in Hfind as [Hin _].
  - destruct (Tokens.is_native_token cid addr); [|discriminate].
    intros [= H]. unfold Tokens.get_native_token_info, Tokens.get_token_info in H.
    now apply dict_get_In in H.
Qed.

Lemma fallback_price_found (cid : Z) (ti : Tokens.TokenInfo) (block : option Z)
    (c : Cache.PriceCache) :
  In ti (map snd (Tokens.chain_tokens cid)) ->
  exists r c', _get_fallback_price now ti cid block c = (Py.Ok (Some r), c').
Proof.
  intros Hin. unfold _get_fallback_price.
  rewrite (registered_token_has_fallback cid ti Hin).
  cbv [bind on_cache ret]. destruct (Cache.set_price _ _ _ _ _ _ _ _ _). eauto.
Qed.

(** [get_token_price] comes back without a price only for a token the
    registry does not know, and then it leaves the cache alone: for a
    registered token the static table always answers. *)
Lemma unpriced_is_unregistered (addr : string) (cid : Z) (block : option Z)
    (c c' : Cache.PriceCache) :
  get_token_price clients now addr cid block c = (Py.Ok None, c') ->
  lookup_token_info addr cid = None /\ c' = c.
Proof.
  unfold get_token_price.
  destruct (lookup_token_info addr cid) as [[ti|]|] eqn:Hlook.
  - pose proof (lookup_token_info_registered _ _ _ Hlook) as Hin.
    unfold bind at 1, on_cache.
    destruct (Cache.get_price _ _ _ _ _) as [[e|] c1]; [cbv [ret]; discriminate|].
    destruct (price_from_sources_cases ti cid block c1)
      as [(r & c2 & ->) | (c3 & ->)]; [discriminate|].
    destruct (fallback_price_found cid ti block c3 Hin) as (r & c4 & ->).
    discriminate.
  - cbv [raise]. discriminate.
  - cbv [ret]. intros [= <-]. split; reflexivity.
Qed.

(** A token found by symbol is found again by its address. *)
Lemma token_found_by_address (cid : Z) (sym : string) (ti : Tokens.TokenInfo) :
  Tokens.get_token_info cid sym = Some ti ->
  exists ti', Tokens.get_token_by_address cid (Tokens.address ti) = Some ti'.
Proof.
  unfold Tokens.get_token_info, Tokens.get_token_by_address.
  generalize (Tokens.chain_tokens cid) as l. intros l Hget.
  apply dict_get_In in Hget as Hin.
  destruct (find _ (map snd l)) as [ti'|] eqn:Hfind; [eauto|].
  pose proof (find_none _ _ Hfind ti Hin) as Hno. cbn in Hno.
  now rewrite String.eqb_refl in Hno.
Qed.

Lemma base_currency_price_returns (cid : Z) (block : option Z) (c : Cache.PriceCache) :
  exists r c', get_base_currency_price clients now cid block c = (Py.Ok r, c').
Proof.
  unfold get_base_currency_price, get_token_price_by_symbol.
  destruct (Tokens.get_token_info cid _) as [ti|] eqn:Hinfo; [|cbv [ret]; eauto].
  destruct (token_found_by_address _ _ _ Hinfo) as [ti' Hfound].
  unfold get_token_price, lookup_token_info. rewrite Hfound.
  unfold bind, on_cache.
  destruct (Cache.get_price _ _ _ _ _) as [[e|] c1]; [cbv [ret]; eauto|].
  apply price_from_sources_returns.
Qed.

End OracleFacts.

(** C5 at a concrete input: WETH on chain 1 at block 18,000,000 with an
    empty cache, in a world where Chainlink, the DEX and CoinGecko all
    answer. *)
Lemma C5_chainlink_takes_precedence_witness :
  exists r c2,
    Oracle.get_token_price Oracle.eager_clients 1700000000
      "0xC02aaA39b223FE8D0A0e5C4F27eAD9083C756Cc2" 1 (Some 18000000)
      Cache.empty_cache = (Py.Ok (Some r), c2)
    /\ Oracle.source r = "chainlink"
    /\ Oracle.price_usd r = 3000%float.
Proof.
  pose (ti := Tokens.mkTokenInfo "0xC02aaA39b223FE8D0A0e5C4F27eAD9083C756Cc2"
                "WETH" 18 "Wrapped Ethereum" false true (Some "ethereum")
                (Some "0x5f4eC3Df9cbd43714FE2740f5E3616155c5b8419")).
  pose (r := Oracle.mkPrice 3000 0.95 "chainlink" 1700000000
               (Some 18000000) "WETH" 1).
  exists r, Cache.empty_cache.
  destruct (C5_chainlink_takes_precedence Oracle.eager_clients 1700000000
              "0xC02aaA39b223FE8D0A0e5C4F27eAD9083C756Cc2" 1 (Some 18000000)
              ti Cache.empty_cache Cache.empty_cache Cache.empty_cache r)
    as [Hget Hsrc].
  - reflexivity.
  - reflexivity.
  - reflexivity.
  - split; [exact Hget|]. split; [exact Hsrc | reflexivity].
Defined.

(** ** Revenue normaliser *)

Section RevenueFacts.
Import Oracle Revenue.

Variable clients : Clients.
Variable now : float.

(** What one iteration of the loop does to the accumulators. *)
Lemma loop_body_effect (base : string) (cid : Z) (block : option Z)
    (st st' : loop_state) (change : BalanceChange) (c c' : Cache.PriceCache) :
  loop_body clients now base cid block st change c = (Py.Ok st', c') ->
  base_currency_change st'
  = fold_left PrimFloat.add
      (map net_change
         (List.filter (fun ch => String.eqb (token_symbol ch) base) [change]))
      (base_currency_change st)
  /\ exists new,
       ls_surplus_conversions st' = (ls_surplus_conversions st ++ new)%list
       /\ ls_total_surplus_value st'
          = fold_left PrimFloat.add (map base_value new)
              (ls_total_surplus_value st).
Proof.
  unfold loop_body. cbn [List.filter].
  destruct (String.eqb (token_symbol change) base).
  - cbv [ret]. intros [= <- <-]. cbn. split; [reflexivity|].
    exists []. now rewrite app_nil_r.
  - destruct (is_surplus change && _).
    + intros H. apply bind_Ok_inv in H as (conv & c1 & _ & H).
      cbv [ret] in H. injection H as <- <-. cbn. split; [reflexivity|].
      exists [conv]. split; reflexivity.
    + destruct (negb (is_surplus change) && _).
      * intros H. apply bind_Ok_inv in H as (d & c1 & _ & H).
        cbv [ret] in H. injection H as <- <-. cbn. split; [reflexivity|].
        exists []. now rewrite app_nil_r.
      * cbv [ret]. intros [= <- <-]. cbn. split; [reflexivity|].
        exists []. now rewrite app_nil_r.
Qed.

Lemma reconcile_loop_effect (base : string) (cid : Z) (block : option Z)
    (changes : list BalanceChange) :
  forall (st st' : loop_state) (c c' : Cache.PriceCache),
    reconcile_loop clients now base cid block changes st c = (Py.Ok st', c') ->
    base_currency_change st'
    = fold_left PrimFloat.add
        (map net_change
           (List.filter (fun ch => String.eqb (token_symbol ch) base) changes))
        (base_currency_change st)
    /\ exists new,
         ls_surplus_conversions st' = (ls_surplus_conversions st ++ new)%list
         /\ ls_total_surplus_value st'
            = fold_left PrimFloat.add (map base_value new)
                (ls_total_surplus_value st).
Proof.
  induction changes as [|change rest IH]; intros st st' c c' Hrun.
  - cbv [reconcile_loop ret] in Hrun. injection Hrun as <- <-.
    split; [reflexivity|]. exists []. now rewrite app_nil_r.
  - cbn [reconcile_loop] in Hrun.
    apply bind_Ok_inv in Hrun as (st1 & c1 & Hbody & Hrest).
    apply loop_body_effect in Hbody as (Hb1 & new1 & Hc1 & Ht1).
    apply IH in Hrest as (Hb2 & new2 & Hc2 & Ht2).
    split.
    + rewrite Hb2, Hb1. cbn [List.filter].
      destruct (String.eqb (token_symbol change) base); reflexivity.
    + exists (new1 ++ new2)%list. split.
      * rewrite Hc2, Hc1. now rewrite app_assoc.
      * rewrite Ht2, Ht1. now rewrite map_app, fold_left_app.
Qed.

(** C8: the total economic performance [reconcile] reports is the
    direct base-currency delta plus the sum of the surplus conversions:
    [revenue_base_currency = direct_base_change + total_surplus_value],
    where the first summand adds up the net changes of the
    base-currency entries and the second the base values of the
    recorded surplus conversions.  In particular, in the run with a
    direct change of +0.5 ETH and 640 USDC of surplus worth 0.2 ETH,
    [execute] reports 0.5 and 0.2 and a total within 1e-9 of 0.7. *)
Theorem C8_total_is_direct_plus_surplus :
  (forall (changes : list BalanceChange) (cid : Z) (block : option Z)
          (c c' : Cache.PriceCache) (d : revenue_data),
      reconcile clients now changes cid block c = (Py.Ok d, c') ->
      revenue_base_currency d
      = PrimFloat.add (direct_base_change d) (total_surplus_value d)
      /\ direct_base_change d
         = float_sum
             (map net_change
                (List.filter (fun ch => String.eqb (token_symbol ch)
                                     (Tokens.get_base_currency cid)) changes))
      /\ total_surplus_value d
         = float_sum (map base_value (surplus_conversions d)))
  /\ (exists d c',
        execute silent_clients 1700000000 scenario_params Cache.empty_cache
        = (Tools.mkToolResult true (Some d) None "revenue_normalizer_tool", c')
        /\ direct_base_change d = 0.5%float
        /\ map base_value (surplus_conversions d) = [0.2%float]
        /\ PrimFloat.leb
             (PrimFloat.abs (PrimFloat.sub (revenue_base_currency d) 0.7))
             1e-9 = true).
Proof.
  split.
  - intros changes cid block c c' d Hrun. unfold reconcile in Hrun.
    apply bind_Ok_inv in Hrun as (st & c1 & Hloop & Hrest).
    apply bind_Ok_inv in Hrest as (bp & c2 & _ & Hret).
    cbv [ret] in Hret. injection Hret as <- <-.
    cbn [revenue_base_currency direct_base_change total_surplus_value
         surplus_conversions].
    apply reconcile_loop_effect in Hloop as (Hb & new & Hc & Ht).
    cbn in Hc. subst new. split; [reflexivity|]. split; assumption.
  - eexists. eexists. split; [vm_compute; reflexivity|].
    cbn [direct_base_change surplus_conversions revenue_base_currency map
         base_value].
    repeat split; reflexivity.
Qed.

End RevenueFacts.

(** C8 at a concrete input: the general equalities hold of what
    [reconcile] returns on the two balance changes of the 0.5 + 0.2
    run. *)
Lemma C8_total_is_direct_plus_surplus_witness :
  exists d c',
    Revenue.reconcile Oracle.silent_clients 1700000000
      (Revenue._extract_balance_changes Revenue.scenario_data 1) 1 None
      Cache.empty_cache = (Py.Ok d, c')
    /\ Revenue.revenue_base_currency d
       = PrimFloat.add (Revenue.direct_base_change d)
           (Revenue.total_surplus_value d).
Proof.
  destruct (Revenue.reconcile Oracle.silent_clients 1700000000
              (Revenue._extract_balance_changes Revenue.scenario_data 1) 1 None
              Cache.empty_cache) as [[d | e] c'] eqn:Hrun.
  - exists d, c'. split; [reflexivity|].
    exact (proj1 (proj1 (C8_total_is_direct_plus_surplus
                           Oracle.silent_clients 1700000000)
                    _ _ _ _ _ _ Hrun)).
  - vm_compute in Hrun. discriminate Hrun.
Defined.

(** ** Pricing degradation *)

Section DegradationFacts.
Import Oracle Revenue.

Variable clients : Clients.
Variable now : float.

(** C3, as stated, fails: for a token no tier knows (it is not in the
    registry, so it has no feed, no CoinGecko id and no fallback rate),
    [convert_token_to_usd] returns [None], which is not the number 0. *)
Lemma C3_counterexample :
  fst (convert_token_to_usd silent_clients 1700000000 unknown_token 5 1 None
         Cache.empty_cache) = Py.Ok None
  /\ fst (convert_token_to_usd silent_clients 1700000000 unknown_token 5 1 None
            Cache.empty_cache) <> Py.Ok (Some 0%float).
Proof.
  split; [reflexivity|]. cbn. discriminate.
Qed.

(** C3 (amended): when [get_token_price] yields no price for a token,
    [convert_token_to_usd] returns [None], neither 0 nor an error, and so
    does [normalize_to_base_currency]; [_convert_surplus_token] turns
    that into a conversion whose [base_value] is 0.0; and the
    reconciliation of a surplus of that token completes, the asset
    adding zero to the total. *)
Theorem C3_unpriced_token_is_None_and_counts_zero (addr : string) (amount : float)
    (cid : Z) (block : option Z) (c c' : Cache.PriceCache) :
  get_token_price clients now addr cid block c = (Py.Ok None, c') ->
  convert_token_to_usd clients now addr amount cid block c = (Py.Ok None, c')
  /\ normalize_to_base_currency clients now addr amount cid block c
     = (Py.Ok None, c')
  /\ (forall (change : BalanceChange) (base : string),
        token_address change = addr -> net_change change = amount ->
        exists conv,
          _convert_surplus_token clients now change base cid block c
          = (Py.Ok conv, c')
          /\ base_value conv = 0%float)
  /\ (forall change : BalanceChange,
        token_address change = addr -> net_change change = amount ->
        String.eqb (token_symbol change) (Tokens.get_base_currency cid) = false ->
        is_surplus change = true ->
        PrimFloat.ltb 0%float (net_change change) = true ->
        exists d c'',
          reconcile clients now [change] cid block c = (Py.Ok d, c'')
          /\ map base_value (surplus_conversions d) = [0%float]
          /\ total_surplus_value d = 0%float
          /\ revenue_base_currency d = 0%float).
Proof.
  intros Hnone.
  assert (Hconv : convert_token_to_usd clients now addr amount cid block c
                  = (Py.Ok None, c')).
  { unfold convert_token_to_usd, bind. now rewrite Hnone. }
  assert (Hnorm : normalize_to_base_currency clients now addr amount cid block c
                  = (Py.Ok None, c')).
  { unfold normalize_to_base_currency, bind. now rewrite Hconv. }
  assert (Hsur : forall (change : BalanceChange) (base : string),
             token_address change = addr -> net_change change = amount ->
             exists conv,
               _convert_surplus_token clients now change base cid block c
               = (Py.Ok conv, c')
               /\ base_value conv = 0%float).
  { intros change base Haddr Hnet. unfold _convert_surplus_token, bind.
    rewrite Haddr, Hnet, Hnorm. cbv [ret]. eexists. split; reflexivity. }
  split; [exact Hconv|]. split; [exact Hnorm|]. split; [exact Hsur|].
  intros change Haddr Hnet Hsym Hsurplus Hpos.
  destruct (Hsur change (Tokens.get_base_currency cid) Haddr Hnet)
    as (conv & Hc & Hzero).
  destruct (base_currency_price_returns clients now cid block c')
    as (bp & c'' & Hbp).
  unfold reconcile. cbn [reconcile_loop]. unfold loop_body.
  rewrite Hsym, Hsurplus, Hpos. cbn [andb].
  unfold bind at 1. unfold bind at 1. unfold bind at 1. rewrite Hc.
  cbv [ret]. unfold bind. rewrite Hbp.
  eexists. eexists. split; [reflexivity|].
  cbn [surplus_conversions total_surplus_value revenue_base_currency
       ls_surplus_conversions ls_total_surplus_value base_currency_change
       loop_init app map].
  rewrite Hzero. repeat split; reflexivity.
Qed.

End DegradationFacts.

(** The amended C3 at a concrete input: 5 units of an unregistered
    token on chain 1, with no client answering. *)
Lemma C3_unpriced_token_is_None_and_counts_zero_witness :
  Oracle.get_token_price Oracle.silent_clients 1700000000 Revenue.unknown_token
    1 None Cache.empty_cache = (Py.Ok None, Cache.empty_cache)
  /\ Oracle.convert_token_to_usd Oracle.silent_clients 1700000000
       Revenue.unknown_token 5 1 None Cache.empty_cache
     = (Py.Ok None, Cache.empty_cache)
  /\ exists d c'',
       Revenue.reconcile Oracle.silent_clients 1700000000
         [Revenue.unknown_surplus] 1 None Cache.empty_cache = (Py.Ok d, c'')
       /\ Revenue.total_surplus_value d = 0%float.
Proof.
  assert (Hnone : Oracle.get_token_price Oracle.silent_clients 1700000000
                    Revenue.unknown_token 1 None Cache.empty_cache
                  = (Py.Ok None, Cache.empty_cache)) by reflexivity.
  destruct (C3_unpriced_token_is_None_and_counts_zero Oracle.silent_clients
              1700000000 Revenue.unknown_token 5 1 None Cache.empty_cache
              Cache.empty_cache Hnone) as (Hconv & _ & _ & Hrec).
  split; [exact Hnone|]. split; [exact Hconv|].
  destruct (Hrec Revenue.unknown_surplus eq_refl eq_refl eq_refl eq_refl eq_refl)
    as (d & c'' & Hrun & _ & Htot & _).
  exists d, c''. split; [exact Hrun | exact Htot].
Defined.

(** ** Tool-call executor *)

Section FloatFacts.

Lemma SFcompare_Lt_Gt (x y : spec_float) :
  SFcompare x y = Some Lt -> SFcompare y x = Some Gt.
Proof.
  destruct x as [sx|sx| |sx mx ex], y as [sy|sy| |sy my ey]; cbn;
    try discriminate;
    try (destruct sx; cbn; congruence);
    try (destruct sy; cbn; congruence);
    try (destruct sx, sy; cbn; congruence).
  destruct sx, sy; try congruence;
    rewrite (Z.compare_antisym ey ex);
    destruct (ey ?= ex)%Z; cbn; try congruence;
    change (PosDef.Pos.compare_cont Eq mx my) with (mx ?= my)%positive;
    change (PosDef.Pos.compare_cont Eq my mx) with (my ?= mx)%positive;
    rewrite (Pos.compare_antisym my mx);
    destruct (my ?= mx)%positive; cbn; congruence.
Qed.

(** [x < y] on floats excludes [y < x]. *)
Lemma float_ltb_asym (x y : float) :
  PrimFloat.ltb x y = true -> PrimFloat.ltb y x = false.
Proof.
  rewrite !ltb_spec. unfold SFltb.
  destruct (SFcompare (Prim2SF x) (Prim2SF y)) as [[]|] eqn:H; try discriminate.
  intros _. now rewrite (SFcompare_Lt_Gt _ _ H).
Qed.

End FloatFacts.

Section ToolCallingFacts.
Import ToolCalling.

Variables Params Data : Type.
Variable repr_float : float -> string.
Variable ex : ToolCallExecutor Params Data.

Lemma settle_all_gathered (calls : list (ToolCall Params Data)) :
  settle_all Params Data
    (map (fun tc => fst (execute_tool_call repr_float ex tc)) calls)
    (map (fun tc => gathered_of Params Data (execute_tool_call repr_float ex tc)) calls)
  = map (fun tc => fst (execute_tool_call repr_float ex tc)) calls.
Proof.
  induction calls as [|tc calls IH]; [reflexivity|].
  cbn [map settle_all]. rewrite IH. f_equal.
  now destruct (execute_tool_call repr_float ex tc) as [done [b|]].
Qed.

(** [gather] hands the results back exactly when no task stops the
    event loop. *)
Lemma gather_cases (calls : list (ToolCall Params Data)) :
  (Forall (fun tc => forall b, snd (execute_tool_call repr_float ex tc) = Some b ->
                               stops_event_loop b = false) calls
   /\ gather Params Data repr_float ex calls
      = Some (map (fun tc => gathered_of Params Data
                               (execute_tool_call repr_float ex tc)) calls))
  \/ (Exists (fun tc => exists b, snd (execute_tool_call repr_float ex tc) = Some b
                                  /\ stops_event_loop b = true) calls
      /\ gather Params Data repr_float ex calls = None).
Proof.
  unfold gather.
  destruct (existsb _ calls) eqn:Hstop.
  - right. split; [|reflexivity].
    apply existsb_exists in Hstop as (tc & Hin & Htc).
    apply Exists_exists. exists tc. split; [now apply list_elem_of_In|].
    destruct (snd (execute_tool_call repr_float ex tc)) as [b|]; [eauto|discriminate].
  - left. split; [|reflexivity].
    apply Forall_forall. intros tc Hin%list_elem_of_In b Hb.
    destruct (stops_event_loop b) eqn:Hs; [|reflexivity].
    assert (Hex : existsb (fun tc => match snd (execute_tool_call repr_float ex tc) with
                                     | Some b => stops_event_loop b
                                     | None => false
                                     end) calls = true).
    { apply existsb_exists. exists tc. split; [exact Hin|]. now rewrite Hb. }
    congruence.
Qed.

(** The sequential loop goes through when no call lets an exception
    through, and stops at the first call that does. *)
Lemma run_in_turn_cases (calls : list (ToolCall Params Data)) :
  (Forall (fun tc => snd (execute_tool_call repr_float ex tc) = None) calls
   /\ run_in_turn Params Data repr_float ex calls
      = (map (fun tc => fst (execute_tool_call repr_float ex tc)) calls, None))
  \/ (exists before tc after b,
        calls = (before ++ tc :: after)%list
        /\ Forall (fun tc => snd (execute_tool_call repr_float ex tc) = None) before
        /\ snd (execute_tool_call repr_float ex tc) = Some b
        /\ run_in_turn Params Data repr_float ex calls
           = ((map (fun tc => fst (execute_tool_call repr_float ex tc)) before
               ++ fst (execute_tool_call repr_float ex tc) :: after)%list, Some b)).
Proof.
  induction calls as [|tc calls IH].
  - left. split; [constructor|reflexivity].
  - cbn [run_in_turn map].
    destruct (execute_tool_call repr_float ex tc) as [done [b|]] eqn:Htc.
    + right. exists [], tc, calls, b. rewrite Htc. repeat split. constructor.
    + destruct IH as [[Hall Hrun] | (before & tc' & after & b & -> & Hall & Hb & Hrun)].
      * left. rewrite Hrun. split; [|reflexivity].
        constructor; [now rewrite Htc|exact Hall].
      * right. exists (tc :: before), tc', after, b. rewrite Hrun.
        cbn [map app fst]. rewrite Htc. repeat split; [|exact Hb].
        constructor; [now rewrite Htc|exact Hall].
Qed.

(** A parallel batch in which no call stops the event loop returns, and
    every record is the one its call leaves on its own. *)
Lemma parallel_batch_returns (calls : list (ToolCall Params Data)) :
  Forall (fun tc => forall b, snd (execute_tool_call repr_float ex tc) = Some b ->
                              stops_event_loop b = false) calls ->
  execute_tool_calls repr_float ex calls true
  = Returned (map (fun tc => fst (execute_tool_call repr_float ex tc)) calls).
Proof.
  intros Hall. destruct calls as [|tc calls]; [reflexivity|].
  unfold execute_tool_calls.
  destruct (gather_cases (tc :: calls)) as [[_ ->] | [Hex _]].
  - now rewrite settle_all_gathered.
  - exfalso. apply Exists_exists in Hex as (tc' & Hin & b & Hb & Hs).
    rewrite Forall_forall in Hall. specialize (Hall tc' Hin b Hb). congruence.
Qed.

(** A sequential batch in which no call lets an exception through
    returns, and every record is the one its call leaves on its own. *)
Lemma sequential_batch_returns (calls : list (ToolCall Params Data)) :
  Forall (fun tc => snd (execute_tool_call repr_float ex tc) = None) calls ->
  execute_tool_calls repr_float ex calls false
  = Returned (map (fun tc => fst (execute_tool_call repr_float ex tc)) calls).
Proof.
  intros Hall. destruct calls as [|tc calls]; [reflexivity|].
  unfold execute_tool_calls.
  destruct (run_in_turn_cases (tc :: calls))
    as [[_ ->] | (before & tc' & after & b & Hcalls & _ & Hb & _)];
    [reflexivity|].
  exfalso. rewrite Forall_forall in Hall.
  assert (Hin : tc' ∈ tc :: calls).
  { rewrite Hcalls. apply elem_of_app. right. apply elem_of_cons. now left. }
  specialize (Hall tc' Hin). congruence.
Qed.

(** A batch, parallel or sequential, in which no call lets an exception
    through runs each call on its own. *)
Lemma execute_tool_calls_map (calls : list (ToolCall Params Data)) (parallel : bool) :
  Forall (fun tc => snd (execute_tool_call repr_float ex tc) = None) calls ->
  execute_tool_calls repr_float ex calls parallel
  = Returned (map (fun tc => fst (execute_tool_call repr_float ex tc)) calls).
Proof.
  intros Hall. destruct parallel; [|now apply sequential_batch_returns].
  apply parallel_batch_returns.
  eapply Forall_impl; [exact Hall|]. cbn. intros tc -> b Hb. discriminate Hb.
Qed.

Lemma raised_call_fails (tc : ToolCall Params Data) (t : tool Params Data) (e : Py.exn) :
  registry ex !! name tc = Some t ->
  ending (t (parameters tc)) = Raises e ->
  PrimFloat.ltb (duration (t (parameters tc))) (timeout ex) = true ->
  Py.exn_cls e <> Py.TimeoutError ->
  status (fst (execute_tool_call repr_float ex tc)) = FAILED
  /\ error (fst (execute_tool_call repr_float ex tc)) = Some (Py.exn_text e)
  /\ snd (execute_tool_call repr_float ex tc) = None.
Proof.
  intros Hreg Hend Hfast Hcls.
  unfold execute_tool_call, try_block, wait_for.
  rewrite Hreg, Hfast, Hend. cbn [orb].
  unfold is_timeout_error. destruct (Py.exn_cls e); try contradiction;
    repeat split; reflexivity.
Qed.

Lemma late_call_times_out (tc : ToolCall Params Data) (t : tool Params Data) :
  registry ex !! name tc = Some t ->
  PrimFloat.ltb (timeout ex) (duration (t (parameters tc))) = true ->
  cancellable (t (parameters tc)) = true ->
  status (fst (execute_tool_call repr_float ex tc)) = TIMEOUT
  /\ snd (execute_tool_call repr_float ex tc) = None.
Proof.
  intros Hreg Hslow Hcan. apply float_ltb_asym in Hslow.
  unfold execute_tool_call, try_block, wait_for.
  rewrite Hreg, Hslow, Hcan. split; reflexivity.
Qed.

Lemma returned_call_completes (tc : ToolCall Params Data) (t : tool Params Data)
    (r : Tools.ToolResult Data) :
  registry ex !! name tc = Some t ->
  ending (t (parameters tc)) = Returns r ->
  PrimFloat.ltb (duration (t (parameters tc))) (timeout ex) = true ->
  status (fst (execute_tool_call repr_float ex tc)) = COMPLETED
  /\ result (fst (execute_tool_call repr_float ex tc)) = Some r
  /\ snd (execute_tool_call repr_float ex tc) = None.
Proof.
  intros Hreg Hend Hfast.
  unfold execute_tool_call, try_block, wait_for.
  rewrite Hreg, Hfast, Hend. repeat split; reflexivity.
Qed.

Lemma escaped_call_left_running (tc : ToolCall Params Data) (t : tool Params Data)
    (b : base_exn) :
  registry ex !! name tc = Some t ->
  ending (t (parameters tc)) = RaisesBase b ->
  PrimFloat.ltb (duration (t (parameters tc))) (timeout ex) = true ->
  status (fst (execute_tool_call repr_float ex tc)) = RUNNING
  /\ snd (execute_tool_call repr_float ex tc) = Some b.
Proof.
  intros Hreg Hend Hfast.
  unfold execute_tool_call, try_block, wait_for.
  rewrite Hreg, Hfast, Hend. split; reflexivity.
Qed.

(** A call lets an exception through only when its capability ends
    with one that is not an [Exception]; its record is then left
    RUNNING. *)
Lemma raising_call_cases (tc : ToolCall Params Data) (b : base_exn) :
  snd (execute_tool_call repr_float ex tc) = Some b ->
  status (fst (execute_tool_call repr_float ex tc)) = RUNNING
  /\ exists t, registry ex !! name tc = Some t
               /\ ending (t (parameters tc)) = RaisesBase b.
Proof.
  unfold execute_tool_call, try_block, wait_for.
  destruct (registry ex !! name tc) as [t|]; [|discriminate].
  destruct (_ || _); [|discriminate].
  destruct (ending (t (parameters tc))) as [r|e|x] eqn:Hend.
  - discriminate.
  - destruct (is_timeout_error e); discriminate.
  - cbn [fst snd status]. intros [= ->]. eauto.
Qed.

End ToolCallingFacts.




(** ** Execution tool: address checksumming *)

Section ChecksumFacts.
Import Execution.

(** Membership of one character in a string of characters. *)
Lemma contains_char (c : ascii) (chars : string) :
  Py.contains (String c EmptyString) chars = true ->
  In c (list_ascii_of_string chars).
Proof.
  induction chars as [|d chars IH]; cbn; [discriminate|].
  destruct (Ascii.eqb_spec c d) as [->|Hne]; [now left|].
  intros H. right. apply IH. exact H.
Qed.

Lemma lower_hex_char (c : ascii) :
  Py.contains (String c EmptyString) "0123456789abcdef" = true ->
  Py.lower_ascii c = c /\ Py.lower_ascii (Py.upper_ascii c) = c
  /\ Ascii.eqb c "x" = false.
Proof.
  intros H. apply contains_char in H. cbn in H.
  repeat (destruct H as [<- | H]; [repeat split; reflexivity|]).
  contradiction.
Qed.

Lemma lower_apply_checksum (s : string) :
  Py.all_in "0123456789abcdef" s = true ->
  forall h, Py.lower (apply_checksum s h) = s.
Proof.
  induction s as [|c s IH]; intros Hall h; [reflexivity|].
  cbn [Py.all_in] in Hall. apply andb_prop in Hall as [Hc Hs].
  destruct (lower_hex_char c Hc) as (Hl & Hlu & _).
  destruct h as [|x h]; cbn [apply_checksum].
  - change (Py.lower (String c s)) with (String (Py.lower_ascii c) (Py.lower s)).
    rewrite Hl. f_equal.
    specialize (IH Hs EmptyString). destruct s; [reflexivity|exact IH].
  - change (Py.lower (String ?a ?b)) with (String (Py.lower_ascii a) (Py.lower b)).
    rewrite (IH Hs h). f_equal.
    destruct (Py.contains _ "0123456789"); [exact Hl|].
    destruct (8 <=? hex_value x)%Z; [exact Hlu | exact Hl].
Qed.

(** A string of hex digits has no occurrence of "0x" to replace. *)
Lemma replace_0x_hex (s : string) :
  Py.all_in "0123456789abcdef" s = true ->
  Py.replace_from "0x" "" 0 s = s.
Proof.
  induction s as [|c s IH]; intros Hall; [reflexivity|].
  cbn [Py.all_in] in Hall. apply andb_prop in Hall as [Hc Hs].
  cbn [Py.replace_from].
  assert (Hno : Py.startswith "0x" (String c s) = false).
  { cbn [Py.startswith]. destruct (Ascii.eqb "0" c); [|reflexivity].
    destruct s as [|d s]; [reflexivity|].
    cbn [Py.all_in] in Hs. apply andb_prop in Hs as [Hd _].
    destruct (lower_hex_char d Hd) as (_ & _ & Hx).
    rewrite Ascii.eqb_sym, Hx. reflexivity. }
  rewrite Hno. f_equal. apply IH. exact Hs.
Qed.

Lemma length_apply_checksum (s h : string) :
  String.length (apply_checksum s h) = String.length s.
Proof.
  revert h. induction s as [|c s IH]; intros h; [reflexivity|].
  destruct h; cbn; [reflexivity|]. now rewrite IH.
Qed.

(** Checksumming a valid address leaves its normal form as it is. *)
Lemma normalise_checksummed (s : string) :
  is_valid_hex_address s = true ->
  normalise ("0x" ++ apply_checksum s (Keccak.hexdigest s)) = s.
Proof.
  unfold is_valid_hex_address. intros H. apply andb_prop in H as [_ Hall].
  unfold normalise, Py.replace.
  change (Py.lower ("0x" ++ ?t)) with (String "0" (String "x" (Py.lower t))).
  rewrite (lower_apply_checksum s Hall).
  cbn. now apply replace_0x_hex.
Qed.

(** C9: address checksumming is idempotent.  For every address string
    [a], that is every string [_to_checksum_address] accepts as a valid
    address (40 hex digits once lowercased and stripped of "0x"; every
    match of the pattern 0x[a-fA-F0-9]{40} is one),
    [Checksum(Checksum(a)) = Checksum(a)]. *)
Theorem C9_checksum_idempotent (a : string) :
  is_valid_hex_address (normalise a) = true ->
  _to_checksum_address (_to_checksum_address a) = _to_checksum_address a.
Proof.
  intros Hvalid. unfold _to_checksum_address at 2. rewrite Hvalid. cbn [negb].
  unfold _to_checksum_address.
  rewrite (normalise_checksummed _ Hvalid), Hvalid. reflexivity.
Qed.

Lemma length_lower (s : string) : String.length (Py.lower s) = String.length s.
Proof.
  unfold Py.lower. induction s as [|c s IH]; [reflexivity|].
  cbn. now rewrite IH.
Qed.

Lemma lower_mixed_hex (s : string) :
  Py.all_in "abcdefABCDEF0123456789" s = true ->
  Py.all_in "0123456789abcdef" (Py.lower s) = true.
Proof.
  induction s as [|c s IH]; intros Hall; [reflexivity|].
  cbn [Py.all_in] in Hall. apply andb_prop in Hall as [Hc Hs].
  change (Py.lower (String c s)) with (String (Py.lower_ascii c) (Py.lower s)).
  cbn [Py.all_in]. rewrite (IH Hs), andb_true_r.
  apply contains_char in Hc. cbn in Hc.
  repeat (destruct Hc as [<- | Hc]; [reflexivity|]).
  contradiction.
Qed.

(** What the address pattern matches is a valid address for
    [_to_checksum_address]. *)
Lemma address_literal_is_valid (a : string) :
  is_address_literal a = true -> is_valid_hex_address (normalise a) = true.
Proof.
  unfold is_address_literal. intros H.
  apply andb_prop in H as [H Hall]. apply andb_prop in H as [Hpre Hlen].
  destruct a as [|c0 a]; [discriminate Hpre|].
  cbn [Py.startswith] in Hpre.
  destruct (Ascii.eqb_spec "0" c0) as [<-|]; [|discriminate].
  destruct a as [|c1 h]; [discriminate Hpre|].
  destruct (Ascii.eqb_spec "x" c1) as [<-|]; [|discriminate].
  cbn [Py.drop] in Hall. cbn [String.length] in Hlen.
  apply Nat.eqb_eq in Hlen. injection Hlen as Hlen.
  pose proof (lower_mixed_hex h Hall) as Hlow.
  unfold normalise, Py.replace.
  change (Py.lower (String "0" (String "x" h)))
    with (String "0" (String "x" (Py.lower h))).
  cbn [Py.replace_from Py.startswith Ascii.eqb Bool.eqb String.length Nat.sub
       append].
  rewrite (replace_0x_hex _ Hlow).
  change (is_valid_hex_address (Py.lower h) = true).
  unfold is_valid_hex_address. rewrite length_lower, Hlen, Hlow. reflexivity.
Qed.

(** Without an occurrence of [old] there is nothing to replace. *)
Lemma replace_no_occurrence (old new s : string) :
  Py.contains old s = false -> Py.replace_from old new 0 s = s.
Proof.
  induction s as [|c s IH]; intros Hno; [reflexivity|].
  cbn [Py.contains] in Hno. cbn [Py.replace_from].
  destruct (Py.startswith old (String c s)); [discriminate|].
  f_equal. now apply IH.
Qed.

Lemma lower_ascii_idem (c : ascii) : Py.lower_ascii (Py.lower_ascii c) = Py.lower_ascii c.
Proof. destruct c as [[] [] [] [] [] [] [] []]; reflexivity. Qed.

Lemma lower_idem (s : string) : Py.lower (Py.lower s) = Py.lower s.
Proof.
  unfold Py.lower. induction s as [|c s IH]; [reflexivity|].
  cbn. now rewrite lower_ascii_idem, IH.
Qed.

(** Deleting occurrences keeps a lowercase string lowercase. *)
Lemma lower_replace_from (old : string) (s : string) :
  Py.lower s = s ->
  forall k, Py.lower (Py.replace_from old "" k s) = Py.replace_from old "" k s.
Proof.
  induction s as [|c s IH]; intros Hlow k; [reflexivity|].
  change (Py.lower (String c s)) with (String (Py.lower_ascii c) (Py.lower s)) in Hlow.
  injection Hlow as Hc Hs.
  cbn [Py.replace_from]. destruct k as [|k]; [|now apply IH].
  destruct (Py.startswith old (String c s)).
  - cbn [append]. now apply IH.
  - change (Py.lower (String ?a ?b)) with (String (Py.lower_ascii a) (Py.lower b)).
    now rewrite Hc, IH.
Qed.

Lemma normalise_lower (a : string) : Py.lower (normalise a) = normalise a.
Proof. apply lower_replace_from, lower_idem. Qed.

(** Idempotence extends to every string whose normal form has no "0x"
    left in it, whether the function takes it for an address or not. *)
Lemma checksum_idempotent_without_0x (a : string) :
  Py.contains "0x" (normalise a) = false ->
  _to_checksum_address (_to_checksum_address a) = _to_checksum_address a.
Proof.
  intros Hno.
  destruct (is_valid_hex_address (normalise a)) eqn:Hvalid.
  - unfold _to_checksum_address at 2. rewrite Hvalid. cbn [negb].
    unfold _to_checksum_address.
    now rewrite (normalise_checksummed _ Hvalid), Hvalid.
  - assert (Hnorm : normalise ("0x" ++ normalise a) = normalise a).
    { unfold normalise at 1, Py.replace.
      change (Py.lower ("0x" ++ ?t)) with (String "0" (String "x" (Py.lower t))).
      rewrite normalise_lower. cbn.
      now apply replace_no_occurrence. }
    unfold _to_checksum_address at 2. rewrite Hvalid. cbn [negb].
    unfold _to_checksum_address. now rewrite Hnorm, Hvalid.
Qed.
(** With a "0x" left in the normal form the function is not
    idempotent: removing "0x" from "00xx" leaves "0x", which the next
    pass removes. *)
Remark checksum_of_non_address :
  _to_checksum_address "00xx" = "0x0x"
  /\ _to_checksum_address (_to_checksum_address "00xx") = "0x".
Proof. split; reflexivity. Qed.

(** C9 at a concrete input: a test address of EIP-55. *)
Lemma C9_checksum_idempotent_witness :
  is_valid_hex_address (normalise "0x5aaeb6053f3e94c9b9a09f33669435e7ef1beaed") = true
  /\ _to_checksum_address "0x5aaeb6053f3e94c9b9a09f33669435e7ef1beaed"
     = "0x5aAeb6053F3E94C9b9A09f33669435E7Ef1BeAed"
  /\ _to_checksum_address
       (_to_checksum_address "0x5aaeb6053f3e94c9b9a09f33669435e7ef1beaed")
     = _to_checksum_address "0x5aaeb6053f3e94c9b9a09f33669435e7ef1beaed".
Proof.
  split; [reflexivity|]. split; [vm_compute; reflexivity|].
  apply C9_checksum_idempotent. reflexivity.
Defined.
End ChecksumFacts.

(** ** Execution tool: analysis of a run *)

Section AnalysisFacts.
Import Execution.

(** The flag of a run whose process succeeded, in terms of the output
    and of the analysis itself. *)
Lemma analysis_flag (er : execution_result) (a : analysis) :
  success er = true ->
  _analyze_execution_result er = Py.Ok a ->
  exploit_executed_successfully a
  = Py.contains "EXPLOIT_EXECUTED_SUCCESSFULLY: true" (output er)
    || Py.contains "EXPLOIT_CAUSED_STATE_CHANGES: true" (output er)
    || (0 <? total_tokens (tokens_extracted a))
    || PrimFloat.ltb 0%float (eth_gained a)
    || Py.contains "STORAGE_CHANGE_DETECTED" (output er).
Proof.
  intros Hok. unfold _analyze_execution_result. rewrite Hok. cbn [negb].
  destruct (first_match eth_gained_patterns (output er)) as [wei|].
  - destruct (Py.int_truediv wei (10 ^ 18)) as [eth|e]; cbn [Py.bind];
      [|discriminate].
    intros [= <-]. reflexivity.
  - cbn [Py.bind]. intros [= <-]. reflexivity.
Qed.




End AnalysisFacts.

(** ** Execution tool: the temporary project directory *)

Section CleanupFacts.
Import Execution.

Lemma checksum_address_not_empty (a : string) :
  String.eqb (_to_checksum_address a) "" = false.
Proof. unfold _to_checksum_address. now destruct (negb _). Qed.

(** Whatever happens after [mkdtemp], [_create_foundry_project] leaves
    the directory where it is. *)
Lemma create_project_leaves_dir (cfg : Config) (w : world) (p : params)
    (fs fs' : gset string) (r : Py.outcome (option string)) (dir : string) :
  mkdtemp w = Py.Ok dir ->
  _create_foundry_project cfg w p fs = (r, fs') ->
  fs' = {[dir]} ∪ fs.
Proof.
  unfold _create_foundry_project, create_project_steps, fs_bind, do_mkdtemp,
    fs_lift, fs_ret.
  intros ->.
  destruct (forge_init w) as [code|e]; [|intros H; now inversion H].
  destruct (negb (code =? 0)); [intros H; now inversion H|].
  destruct (_create_foundry_config _ _ _); [|intros H; now inversion H].
  destruct (write_files w); intros H; now inversion H.
Qed.

(** Once the project exists, [execute] removes it on every path
    (success, failure or exception of the run), as long as
    [shutil.rmtree] itself works. *)
Lemma execute_cleans_up (cfg : Config) (w : world) (p : params)
    (fs fs1 : gset string) (dir : string) :
  String.eqb (exploit_code p) "" = false ->
  foundry_found w = true ->
  _create_foundry_project cfg w p fs = (Py.Ok (Some dir), fs1) ->
  rmtree_works w = true ->
  dir ∉ snd (execute cfg w p fs).
Proof.
  intros Hcode Hforge Hcreate Hrm. unfold execute.
  rewrite Hcode, checksum_address_not_empty, Hforge. cbn [orb negb].
  unfold fs_bind at 1. rewrite Hcreate.
  unfold try_finally, run_and_analyse, fs_bind, fs_lift, fs_ret,
    _cleanup_temp_dir.
  rewrite Hrm.
  assert (Hgone : forall s : gset string, dir ∉ s ∖ {[dir]}).
  { intros s [_ Hn]%elem_of_difference. apply Hn. now apply elem_of_singleton. }
  destruct (run_foundry_test w) as [er|e]; cbn [snd]; [|apply Hgone].
  destruct (_analyze_execution_result er); cbn [snd]; [|apply Hgone].
  unfold _save_artifacts.
  destruct (iteration_dir p); [destruct (mkdir_works w)|]; cbn [snd]; apply Hgone.
Qed.

(** When creation fails after [mkdtemp], the directory is still there
    when [execute] returns. *)
Lemma creation_failure_leaks (cfg : Config) (w : world) (p : params)
    (fs fs1 : gset string) (dir : string) :
  String.eqb (exploit_code p) "" = false ->
  foundry_found w = true ->
  mkdtemp w = Py.Ok dir ->
  _create_foundry_project cfg w p fs = (Py.Ok None, fs1) ->
  execute cfg w p fs
  = (failure "Failed to create Foundry project", {[dir]} ∪ fs).
Proof.
  intros Hcode Hforge Hdir Hcreate. unfold execute.
  rewrite Hcode, checksum_address_not_empty, Hforge. cbn [orb negb].
  unfold fs_bind. rewrite Hcreate. cbv [fs_ret].
  now rewrite (create_project_leaves_dir _ _ _ _ _ _ _ Hdir Hcreate).
Qed.

(** C4 fails on the code: when [forge init] exits with a non-zero
    code, and likewise when the chain has no RPC endpoint configured,
    [execute] returns "Failed to create Foundry project" and the
    directory [mkdtemp] created still exists; when creation succeeds the
    same run removes it. *)
Theorem C4_temp_dir_left_behind :
  execute demo_config init_fails_world demo_params ∅
  = (failure "Failed to create Foundry project", {["/tmp/a1_exploit_k3x9"]})
  /\ execute demo_config good_world no_rpc_params ∅
     = (failure "Failed to create Foundry project", {["/tmp/a1_exploit_k3x9"]})
  /\ snd (execute demo_config good_world demo_params ∅) = ∅.
Proof.
  split; [|split].
  - rewrite (creation_failure_leaks demo_config init_fails_world demo_params
               ∅ ({["/tmp/a1_exploit_k3x9"]} ∪ ∅) "/tmp/a1_exploit_k3x9");
      reflexivity.
  - rewrite (creation_failure_leaks demo_config good_world no_rpc_params
               ∅ ({["/tmp/a1_exploit_k3x9"]} ∪ ∅) "/tmp/a1_exploit_k3x9");
      reflexivity.
  - vm_compute. reflexivity.
Qed.

End CleanupFacts.

(* ===================================================================== *)
(** * Part III: further properties of the pricing layer                  *)
(* ===================================================================== *)

(** ** Token registry *)

Section TokenRegistryFacts.
Import Tokens.

Lemma chain_tokens_cases (cid : Z) :
  chain_tokens cid = ETHEREUM_TOKENS \/ chain_tokens cid = BSC_TOKENS
  \/ chain_tokens cid = [].
Proof.
  unfold chain_tokens, TOKENS. cbn [Py.dict_get].
  destruct (cid =? 1); [now left|].
  destruct (cid =? 56); [right; now left|]. right. now right.
Qed.

(** Within one chain no two tokens share an address, so the scan of
    [get_token_by_address] stops at the token itself, whatever the
    letter case of the address it is given. *)
Lemma registered_token_by_address (cid : Z) (a : string) (ti : TokenInfo) :
  In ti (map snd (chain_tokens cid)) ->
  Py.lower a = Py.lower (address ti) ->
  get_token_by_address cid a = Some ti.
Proof.
  unfold get_token_by_address. intros Hin Hcase. rewrite Hcase.
  destruct (chain_tokens_cases cid) as [E | [E | E]]; rewrite E in *; cbn in Hin;
    repeat (destruct Hin as [<- | Hin]; [reflexivity|]); contradiction.
Qed.

(** Round trip through the registry: a token found by symbol is found
    again, as the same record, by its address in any letter case. *)
Theorem symbol_then_address_round_trip (cid : Z) (sym a : string) (ti : TokenInfo) :
  get_token_info cid sym = Some ti ->
  Py.lower a = Py.lower (address ti) ->
  get_token_by_address cid a = Some ti.
Proof.
  unfold get_token_info. intros Hget Hcase. apply dict_get_In in Hget.
  now apply registered_token_by_address.
Qed.

(** The round trip for ["weth"] on chain 1 and the address of WETH in
    capitals. *)
Lemma symbol_then_address_round_trip_witness :
  get_token_info 1 "weth" <> None
  /\ get_token_by_address 1 "0XC02AAA39B223FE8D0A0E5C4F27EAD9083C756CC2"
     = get_token_info 1 "weth".
Proof.
  split; [discriminate|].
  destruct (get_token_info 1 "weth") as [ti|] eqn:Hget; [|discriminate Hget].
  apply (symbol_then_address_round_trip 1 "weth" _ ti Hget).
  vm_compute in Hget. injection Hget as <-. reflexivity.
Defined.

Lemma upper_ascii_not_lowercase_s (c : ascii) : Py.upper_ascii c <> "s"%char.
Proof. destruct c as [[] [] [] [] [] [] [] []]; discriminate. Qed.

Lemma upper_not_stETH (s : string) : Py.upper s <> "stETH".
Proof.
  destruct s as [|c s]; [discriminate|].
  unfold Py.upper. cbn. intros [= H _]. now apply upper_ascii_not_lowercase_s in H.
Qed.

(** [get_token_info] upper-cases the symbol it is given, and the key of
    Lido's staked ETH is written ["stETH"]: no symbol reaches that
    entry, on any chain, although its address does; so a price asked
    for by symbol ["stETH"] comes back as [None] without touching the
    cache. *)
Theorem stETH_unreachable_by_symbol (cid : Z) (sym : string) :
  (forall ti, get_token_info cid sym = Some ti -> symbol ti <> "stETH")
  /\ (exists ti,
        get_token_by_address 1 "0xae7ab96520DE3A18E5e111B5EaAb095312D7fE84" = Some ti
        /\ symbol ti = "stETH")
  /\ forall clients now block c,
       Oracle.get_token_price_by_symbol clients now "stETH" 1 block c
       = (Py.Ok None, c).
Proof.
  split; [|split; [eexists; split; reflexivity|reflexivity]].
  unfold get_token_info. intros ti.
  pose proof (upper_not_stETH sym) as Hne. revert Hne.
  generalize (Py.upper sym) as k. intros k Hne.
  destruct (chain_tokens_cases cid) as [-> | [-> | ->]];
    cbn [Py.dict_get ETHEREUM_TOKENS BSC_TOKENS];
    repeat match goal with
    | |- context [String.eqb k ?key] =>
        destruct (String.eqb_spec k key);
        [first [contradiction | intros [= <-]; discriminate]|]
    end; discriminate.
Qed.

End TokenRegistryFacts.

(** ** Price cache *)

Section CacheStateFacts.
Import Cache.

Ltac string_cons :=
  repeat match goal with
  | |- context [String ?a ?p ++ ?s] =>
      change (String a p ++ s) with (String a (p ++ s))
  | |- context [EmptyString ++ ?s] => change (EmptyString ++ s) with s
  end.

Lemma startswith_app (p s : string) : Py.startswith p (p ++ s) = true.
Proof.
  induction p as [|a p IH]; string_cons; cbn [Py.startswith]; [reflexivity|].
  now rewrite Ascii.eqb_refl.
Qed.

Lemma string_app_assoc (a b c : string) : (a ++ b) ++ c = a ++ b ++ c.
Proof. induction a as [|x a IH]; string_cons; [reflexivity|]. now rewrite IH. Qed.

(** Every cache key starts with the chain id and an underscore. *)
Lemma cache_key_prefix (cid : Z) (sym : string) (block : option Z) :
  exists rest, _get_cache_key cid sym block = (Py.str_of_int cid ++ "_") ++ rest.
Proof.
  unfold _get_cache_key. destruct (Py.truthy_optint block);
    eexists; rewrite string_app_assoc; reflexivity.
Qed.

Lemma pretty_N_go_no_underscore (x : N) (s : string) :
  ~ In "_"%char (list_ascii_of_string s) ->
  ~ In "_"%char (list_ascii_of_string (pretty_N_go x s)).
Proof.
  revert s. induction (N.lt_wf_0 x) as [x _ IH]. intros s Hs.
  destruct (N.eq_dec x 0%N) as [->|Hx]; [now rewrite pretty_N_go_0|].
  rewrite pretty_N_go_step by lia. apply IH.
  - apply N.div_lt; lia.
  - cbn. intros [Hc | Hin]; [|now apply Hs].
    revert Hc. unfold pretty_N_char. repeat case_match; discriminate.
Qed.

(** The decimal numeral of an int holds no underscore. *)
Lemma str_of_int_no_underscore (n : Z) :
  ~ In "_"%char (list_ascii_of_string (Py.str_of_int n)).
Proof.
  assert (HN : forall p : positive,
             ~ In "_"%char (list_ascii_of_string (pretty (N.pos p)))).
  { intros p. unfold pretty, pretty_N. case_decide; [discriminate|].
    apply pretty_N_go_no_underscore. cbn. tauto. }
  unfold Py.str_of_int, pretty, pretty_Z. destruct n as [|p|p].
  - cbn. intros [H|[]]. discriminate.
  - apply HN.
  - cbn. intros [H|H]; [discriminate|]. now apply (HN p).
Qed.

Lemma prefix_up_to_underscore (p q r : string) :
  ~ In "_"%char (list_ascii_of_string p) ->
  ~ In "_"%char (list_ascii_of_string q) ->
  Py.startswith (p ++ "_") ((q ++ "_") ++ r) = true -> p = q.
Proof.
  revert q. induction p as [|a p IH]; intros [|b q] Hp Hq; string_cons;
    cbn [Py.startswith list_ascii_of_string In] in *.
  - reflexivity.
  - destruct (Ascii.eqb_spec "_"%char b) as [<-|]; [|discriminate].
    exfalso. apply Hq. now left.
  - destruct (Ascii.eqb_spec a "_"%char) as [->|]; [|discriminate].
    exfalso. apply Hp. now left.
  - destruct (Ascii.eqb_spec a b) as [->|]; [|discriminate].
    intros H. f_equal. apply IH; [| |exact H].
    + intros Hin. apply Hp. now right.
    + intros Hin. apply Hq. now right.
Qed.

(** The key prefix of one chain is no prefix of a key of another chain:
    ["1_"] does not start ["11_ETH_latest"]. *)
Lemma cache_key_other_chain (cid cid' : Z) (sym : string) (block : option Z) :
  cid' <> cid ->
  Py.startswith (Py.str_of_int cid ++ "_") (_get_cache_key cid' sym block) = false.
Proof.
  intros Hne. destruct (cache_key_prefix cid' sym block) as [rest ->].
  destruct (Py.startswith _ _) eqn:Hs; [|reflexivity].
  apply prefix_up_to_underscore in Hs; auto using str_of_int_no_underscore.
  apply (inj pretty) in Hs. congruence.
Qed.

(** The two ways [get_price] ends, and what it leaves behind. *)
Lemma get_price_cases (c : PriceCache) (now : float) (cid : Z) (sym : string)
    (block : option Z) :
  let key := _get_cache_key cid sym block in
  match get_price c now cid sym block with
  | (Some e, c') =>
      is_fresh c now e = true
      /\ (memory_cache c !! key = Some e \/ _load_disk_cache c cid !! key = Some e)
      /\ memory_cache c' !! key = Some e
      /\ disk c' = disk c
  | (None, c') =>
      memory_cache c' !! key = None /\ _load_disk_cache c' cid !! key = None
  end
  /\ max_age_seconds (snd (get_price c now cid sym block)) = max_age_seconds c.
Proof.
  intros key. unfold get_price, get_price_disk. fold key.
  destruct (memory_cache c !! key) as [e|] eqn:Hm.
  - destruct (is_fresh c now e) eqn:Hf; [now auto|].
    unfold _load_disk_cache. cbn [disk set_memory memory_cache].
    destruct (default ∅ (disk c !! cid) !! key) as [d|] eqn:Hd.
    + change (is_fresh (set_memory c (delete key (memory_cache c))) now d)
        with (is_fresh c now d).
      destruct (is_fresh c now d) eqn:Hdf.
      * cbn [memory_cache set_memory disk snd max_age_seconds].
        rewrite lookup_insert_eq. now auto 6.
      * cbn [memory_cache _save_disk_cache set_memory disk snd max_age_seconds].
        rewrite lookup_delete_eq, lookup_insert_eq. cbn [default id].
        rewrite ?lookup_delete_eq. auto.
    + cbn [memory_cache disk set_memory snd max_age_seconds].
      rewrite lookup_delete_eq, Hd. auto.
  - unfold _load_disk_cache.
    destruct (default ∅ (disk c !! cid) !! key) as [d|] eqn:Hd.
    + destruct (is_fresh c now d) eqn:Hdf.
      * cbn [memory_cache set_memory disk snd max_age_seconds].
        rewrite lookup_insert_eq. now auto 6.
      * cbn [memory_cache _save_disk_cache disk snd max_age_seconds].
        rewrite Hm, lookup_insert_eq. cbn [default id].
        rewrite ?lookup_delete_eq. auto.
    + rewrite Hm, Hd. auto.
Qed.

(** What [get_price] answers depends on the cache through the maximum
    age, the memory entry of the key and the disk entry of the key
    only. *)
Lemma get_price_local (c1 c2 : PriceCache) (now : float) (cid : Z) (sym : string)
    (block : option Z) :
  max_age_seconds c1 = max_age_seconds c2 ->
  memory_cache c1 !! _get_cache_key cid sym block
  = memory_cache c2 !! _get_cache_key cid sym block ->
  _load_disk_cache c1 cid !! _get_cache_key cid sym block
  = _load_disk_cache c2 cid !! _get_cache_key cid sym block ->
  fst (get_price c1 now cid sym block) = fst (get_price c2 now cid sym block).
Proof.
  intros Hage Hm Hd. unfold get_price, get_price_disk, is_fresh.
  change (_load_disk_cache (set_memory c1 ?m) cid) with (_load_disk_cache c1 cid).
  change (_load_disk_cache (set_memory c2 ?m) cid) with (_load_disk_cache c2 cid).
  cbn [max_age_seconds set_memory]. rewrite Hage, Hm, Hd.
  destruct (memory_cache c2 !! _) as [m|].
  - destruct (PrimFloat.ltb _ _); [reflexivity|].
    destruct (_load_disk_cache c2 cid !! _) as [d|]; [|reflexivity].
    now destruct (PrimFloat.ltb _ _).
  - destruct (_load_disk_cache c2 cid !! _) as [d|]; [|reflexivity].
    now destruct (PrimFloat.ltb _ _).
Qed.

(** [get_price] never hands out an expired entry: what it returns is
    younger than the maximum age at the time of the call, it was stored
    under the key in memory or on disk, and a hit writes nothing to
    disk. *)
Theorem get_price_never_stale (c c' : PriceCache) (now : float) (cid : Z)
    (sym : string) (block : option Z) (e : PriceCacheEntry) :
  get_price c now cid sym block = (Some e, c') ->
  is_fresh c now e = true
  /\ (memory_cache c !! _get_cache_key cid sym block = Some e
      \/ _load_disk_cache c cid !! _get_cache_key cid sym block = Some e)
  /\ disk c' = disk c.
Proof.
  intros Hget. pose proof (get_price_cases c now cid sym block) as [Hcase _].
  rewrite Hget in Hcase. tauto.
Qed.

(** An ETH price stored at time 1000 and read back at time 1010. *)
Lemma get_price_never_stale_witness :
  let c1 := snd (set_price empty_cache 1000 1 "ETH" 3200 "dex" 0.8 None None) in
  is_fresh c1 1010 (mkEntry 3200 1000 None 1 "ETH" "dex" 0.8 1000) = true.
Proof.
  intros c1.
  apply (get_price_never_stale c1 c1 1010 1 "ETH" None). reflexivity.
Defined.

(** A miss evicts: once [get_price] has answered [None] for a key, the
    key is gone from memory and from disk, and the same lookup misses at
    any later or earlier clock reading and leaves the cache as it is. *)
Theorem get_price_miss_is_permanent (c c' : PriceCache) (now now' : float) (cid : Z)
    (sym : string) (block : option Z) :
  get_price c now cid sym block = (None, c') ->
  memory_cache c' !! _get_cache_key cid sym block = None
  /\ _load_disk_cache c' cid !! _get_cache_key cid sym block = None
  /\ get_price c' now' cid sym block = (None, c').
Proof.
  intros Hget. pose proof (get_price_cases c now cid sym block) as [Hcase _].
  rewrite Hget in Hcase. destruct Hcase as [Hm Hd].
  split; [exact Hm|]. split; [exact Hd|].
  unfold get_price, get_price_disk. now rewrite Hm, Hd.
Qed.

(** An ETH price stored at time 1000 has expired at time 90000 (the
    maximum age is 86400 seconds); the lookup at 90000 evicts it, and a
    lookup with the clock set back to 1010 misses too. *)
Lemma get_price_miss_is_permanent_witness :
  let c1 := snd (set_price empty_cache 1000 1 "ETH" 3200 "dex" 0.8 None None) in
  let c2 := snd (get_price c1 90000 1 "ETH" None) in
  get_price c1 90000 1 "ETH" None = (None, c2)
  /\ get_price c2 1010 1 "ETH" None = (None, c2).
Proof.
  intros c1 c2.
  assert (H : get_price c1 90000 1 "ETH" None = (None, c2)) by reflexivity.
  split; [exact H|].
  exact (proj2 (proj2 (get_price_miss_is_permanent c1 c2 90000 1010 1 "ETH" None H))).
Defined.

(** A hit repeats: while the entry is fresh, asking again returns the
    same entry and changes nothing. *)
Theorem get_price_hit_repeats (c c' : PriceCache) (now now' : float) (cid : Z)
    (sym : string) (block : option Z) (e : PriceCacheEntry) :
  get_price c now cid sym block = (Some e, c') ->
  is_fresh c now' e = true ->
  get_price c' now' cid sym block = (Some e, c').
Proof.
  intros Hget Hfresh.
  pose proof (get_price_cases c now cid sym block) as [Hcase Hage].
  rewrite Hget in Hcase, Hage. cbn [snd] in Hage.
  destruct Hcase as (_ & _ & Hm & _).
  unfold get_price. rewrite Hm.
  unfold is_fresh in *. now rewrite Hage, Hfresh.
Qed.

Lemma get_price_hit_repeats_witness :
  let c1 := snd (set_price empty_cache 1000 1 "ETH" 3200 "dex" 0.8 None None) in
  get_price c1 1020 1 "ETH" None
  = (Some (mkEntry 3200 1000 None 1 "ETH" "dex" 0.8 1000), c1).
Proof.
  intros c1.
  apply (get_price_hit_repeats c1 c1 1010 1020 1 "ETH" None); reflexivity.
Defined.

(** What [set_price] stored survives the loss of the memory cache (a new
    process on the same cache directory): the lookup finds the entry on
    disk, returns it and puts it back into memory. *)
Theorem set_price_survives_restart (c : PriceCache) (t0 t1 : float) (cid : Z)
    (sym src : string) (price conf : float) (block ts : option Z) :
  PrimFloat.ltb (PrimFloat.sub t1 t0) (max_age_seconds c) = true ->
  let '(entry, c') := set_price c t0 cid sym price src conf block ts in
  get_price (set_memory c' ∅) t1 cid sym block
  = (Some entry,
     set_memory c' {[ _get_cache_key cid sym block := entry ]}).
Proof.
  intros Hfresh. unfold set_price, get_price, get_price_disk, _load_disk_cache.
  cbn [memory_cache set_memory _save_disk_cache disk max_age_seconds].
  rewrite lookup_empty, !lookup_insert_eq. cbn [default id].
  rewrite lookup_insert_eq. unfold is_fresh.
  cbn [cached_at max_age_seconds set_memory _save_disk_cache].
  rewrite Hfresh. reflexivity.
Qed.

Lemma set_price_survives_restart_witness :
  let c' := snd (set_price empty_cache 1000 1 "ETH" 3200 "dex" 0.8 None None) in
  fst (get_price (set_memory c' ∅) 1010 1 "ETH" None)
  = Some (mkEntry 3200 1000 None 1 "ETH" "dex" 0.8 1000).
Proof.
  intros c'.
  pose proof (set_price_survives_restart empty_cache 1000 1010 1 "ETH" "dex"
                3200 0.8 None None eq_refl) as H.
  unfold set_price in H. unfold c', set_price. cbn [snd].
  now rewrite H.
Defined.

(** [set_price] is local: a lookup under any other key answers as it
    did before the write. *)
Theorem set_price_leaves_other_keys (c : PriceCache) (t0 t1 : float) (cid cid' : Z)
    (sym sym' src : string) (price conf : float) (block block' ts : option Z) :
  _get_cache_key cid' sym' block' <> _get_cache_key cid sym block ->
  fst (get_price (snd (set_price c t0 cid sym price src conf block ts))
                 t1 cid' sym' block')
  = fst (get_price c t1 cid' sym' block').
Proof.
  intros Hne. apply get_price_local; unfold set_price, _load_disk_cache;
    cbn [snd memory_cache set_memory _save_disk_cache disk max_age_seconds].
  - reflexivity.
  - now rewrite lookup_insert_ne by congruence.
  - destruct (Z.eq_dec cid cid') as [->|Hc].
    + rewrite lookup_insert_eq. cbn [default id].
      now rewrite lookup_insert_ne by congruence.
    + now rewrite lookup_insert_ne by congruence.
Qed.

(** A price stored for ETH at block 5 does not answer a lookup of the
    latest ETH price. *)
Lemma set_price_leaves_other_keys_witness :
  fst (get_price (snd (set_price empty_cache 1000 1 "ETH" 3200 "dex" 0.8 (Some 5) None))
                 1010 1 "ETH" None) = None.
Proof.
  rewrite (set_price_leaves_other_keys empty_cache 1000 1010 1 1 "ETH" "ETH" "dex"
             3200 0.8 (Some 5) None None); [reflexivity|].
  vm_compute. discriminate.
Defined.

(** The scope of [clear_cache].  With a chain id it forgets that chain
    and nothing else: afterwards every lookup on the chain misses, and a
    lookup on any other chain answers as before; chain 1 does not take
    chain 11 with it, although ["1_"] and ["11_"] start alike.  The
    argument is tested with [if chain_id:], so chain id 0 clears every
    chain, as no argument does. *)
Theorem clear_cache_scope (c : PriceCache) (cid : Z) :
  cid <> 0 ->
  (forall now sym block,
     get_price (clear_cache c (Some cid)) now cid sym block
     = (None, clear_cache c (Some cid)))
  /\ (forall cid' now sym block,
        cid' <> cid ->
        fst (get_price (clear_cache c (Some cid)) now cid' sym block)
        = fst (get_price c now cid' sym block))
  /\ clear_cache c (Some 0) = clear_cache c None
  /\ (forall cid' now sym block,
        get_price (clear_cache c None) now cid' sym block
        = (None, clear_cache c None)).
Proof.
  intros Hcid. apply Z.eqb_neq in Hcid.
  unfold clear_cache, Py.truthy_optint. rewrite Hcid. cbn [negb Py.get_or].
  split; [|split; [|split; [reflexivity|]]].
  - intros now sym block. unfold get_price, get_price_disk, _load_disk_cache.
    cbn [memory_cache disk].
    rewrite (proj2 (map_lookup_filter_None _ _ _)).
    + now rewrite lookup_delete_eq.
    + right. intros e _. cbn [fst].
      destruct (cache_key_prefix cid sym block) as [rest ->].
      now rewrite startswith_app.
  - intros cid' now sym block Hne.
    apply get_price_local; unfold _load_disk_cache;
      cbn [memory_cache disk max_age_seconds].
    + reflexivity.
    + apply option_eq. intros e. rewrite map_lookup_filter_Some. cbn [fst].
      pose proof (cache_key_other_chain cid cid' sym block Hne). tauto.
    + now rewrite lookup_delete_ne by congruence.
  - intros cid' now sym block.
    unfold get_price, get_price_disk, _load_disk_cache.
    cbn [memory_cache disk]. now rewrite !lookup_empty.
Qed.

(** ETH prices stored for chains 1 and 11; chain 1 is cleared. *)
Lemma clear_cache_scope_witness :
  let c1 := snd (set_price empty_cache 1000 1 "ETH" 3200 "dex" 0.8 None None) in
  let c2 := snd (set_price c1 1000 11 "ETH" 5 "dex" 0.8 None None) in
  fst (get_price (clear_cache c2 (Some 1)) 1010 1 "ETH" None) = None
  /\ fst (get_price (clear_cache c2 (Some 1)) 1010 11 "ETH" None)
     = Some (mkEntry 5 1000 None 11 "ETH" "dex" 0.8 1000).
Proof.
  intros c1 c2.
  destruct (clear_cache_scope c2 1 ltac:(discriminate)) as (Hgone & Hkept & _).
  split.
  - now rewrite Hgone.
  - rewrite Hkept by discriminate. reflexivity.
Defined.

Lemma block_time_cases (cid : Z) :
  0 < Py.get_or (Py.dict_get Z.eqb cid BLOCK_TIMES) 12.
Proof.
  unfold BLOCK_TIMES. cbn [Py.dict_get].
  destruct (cid =? 1); [cbn; lia|]. destruct (cid =? 56); cbn; lia.
Qed.

(** The two block-timestamp estimators, the cache's and the CoinGecko
    client's: both always answer, both grow with the block number, the
    cache's is never negative, and the client's is the cache's raised to
    1,500,000,000 (September 2017) where it falls below. *)
Theorem block_timestamp_estimates (now : float) (cid b b' : Z) :
  b <= b' ->
  exists t t',
    get_block_timestamp_estimate now cid b = Some t
    /\ get_block_timestamp_estimate now cid b' = Some t'
    /\ 0 <= t <= t'
    /\ CoinGecko.get_block_timestamp_estimate now cid b = Z.max t 1500000000
    /\ CoinGecko.get_block_timestamp_estimate now cid b
       <= CoinGecko.get_block_timestamp_estimate now cid b'.
Proof.
  intros Hb. unfold get_block_timestamp_estimate, CoinGecko.get_block_timestamp_estimate.
  pose proof (block_time_cases cid) as Hbt.
  set (bt := Py.get_or (Py.dict_get Z.eqb cid BLOCK_TIMES) 12) in *.
  set (cb := Py.get_or (Py.dict_get Z.eqb cid CURRENT_BLOCKS) 21000000).
  cbv zeta. do 2 eexists. split; [reflexivity|]. split; [reflexivity|].
  assert ((cb - b') * bt <= (cb - b) * bt) by nia. lia.
Qed.

(** Ethereum blocks 1,000 and 20,000,000 seen from time 1,700,000,000. *)
Lemma block_timestamp_estimates_witness :
  get_block_timestamp_estimate 1700000000 1 20000000 = Some 1688000000
  /\ CoinGecko.get_block_timestamp_estimate 1700000000 1 1000 = 1500000000
  /\ get_block_timestamp_estimate 1700000000 1 1000 = Some 1448012000.
Proof.
  destruct (block_timestamp_estimates 1700000000 1 1000 20000000 ltac:(lia))
    as (t & t' & Ht & Ht' & _ & Hcg & _).
  split; [reflexivity|]. split; [|reflexivity].
  rewrite Hcg. vm_compute in Ht. injection Ht as <-. reflexivity.
Defined.

End CacheStateFacts.

(** ** Oracle: where a price comes from *)

Section OracleSourceFacts.
Import Oracle.

Variable clients : Clients.
Variable now : float.

(** What a client tier stamps on the price it returns. *)
Lemma tier_result_fields (call : M (option (float * float))) (src : string)
    (block : option Z) (sym : string) (cid : Z) (c c' : Cache.PriceCache)
    (r : PriceResult) :
  try_except (result <- call ;; ret (price_result_of now result src block sym cid))
             (fun _ => ret None) c = (Py.Ok (Some r), c') ->
  source r = src /\ timestamp r = Py.int_time now /\ block_number r = block
  /\ token_symbol r = sym /\ chain_id r = cid.
Proof.
  unfold try_except, bind, ret.
  destruct (call c) as [[[[p conf]|] | e] c1]; cbn [price_result_of];
    intros [= <- <-]. cbn. auto.
Qed.

(** A price of the static table: its fields, and the cache entry it
    leaves. *)
Lemma fallback_result_fields (ti : Tokens.TokenInfo) (cid : Z) (block : option Z)
    (c c' : Cache.PriceCache) (r : PriceResult) :
  _get_fallback_price now ti cid block c = (Py.Ok (Some r), c') ->
  exists p,
    Py.dict_get String.eqb (Tokens.symbol ti)
      (Py.get_or (Py.dict_get Z.eqb cid fallback_rates) []) = Some p
    /\ r = mkPrice p 0.3 "fallback" (Py.int_time now) block (Tokens.symbol ti) cid
    /\ c' = snd (Cache.set_price c now cid (Tokens.symbol ti) p "fallback" 0.3
                   block None).
Proof.
  unfold _get_fallback_price.
  destruct (Py.dict_get String.eqb _ _) as [p|]; cbn [Py.truthy_optfloat];
    [|cbv [ret]; discriminate].
  destruct (Py.truthy_float p); [|cbv [ret]; discriminate].
  cbv [bind on_cache ret]. unfold Cache.set_price. cbn [Py.get_or snd].
  intros [= <- <-]. exists p. auto.
Qed.

(** A price that comes out of the four tiers was stamped by one of the
    three client tiers, or it is the answer of the static table. *)
Lemma price_from_sources_inv (ti : Tokens.TokenInfo) (cid : Z) (block : option Z)
    (c c' : Cache.PriceCache) (r : PriceResult) :
  price_from_sources clients now ti cid block c = (Py.Ok (Some r), c') ->
  (timestamp r = Py.int_time now /\ block_number r = block
   /\ token_symbol r = Tokens.symbol ti /\ chain_id r = cid
   /\ (source r = "chainlink" /\ Py.truthy_optstr (Tokens.chainlink_feed ti) = true
       \/ source r = "dex" /\ Py.truthy_optint block = true
       \/ source r = "coingecko" /\ Py.truthy_optstr (Tokens.coingecko_id ti) = true))
  \/ exists c3, _get_fallback_price now ti cid block c3 = (Py.Ok (Some r), c').
Proof.
  unfold price_from_sources. intros H.
  apply bind_Ok_inv in H as (r1 & c1 & H1 & H).
  destruct r1 as [r1|].
  { cbv [ret] in H. injection H as <- <-. left.
    destruct (Py.truthy_optstr (Tokens.chainlink_feed ti)) eqn:Hfeed;
      [|cbv [ret] in H1; discriminate].
    unfold _get_chainlink_price in H1. rewrite Hfeed in H1. cbn [negb] in H1.
    apply tier_result_fields in H1. intuition auto. }
  apply bind_Ok_inv in H as (r2 & c2 & H2 & H).
  destruct r2 as [r2|].
  { cbv [ret] in H. injection H as <- <-. left.
    destruct (Py.truthy_optint block) eqn:Hblock;
      [|cbv [ret] in H2; discriminate].
    unfold _get_dex_price in H2. apply tier_result_fields in H2.
    destruct block as [n|]; [|discriminate]. cbn [Py.get_or] in H2.
    intuition auto. }
  apply bind_Ok_inv in H as (r3 & c3 & H3 & H).
  destruct r3 as [r3|].
  { cbv [ret] in H. injection H as <- <-. left.
    destruct (Py.truthy_optstr (Tokens.coingecko_id ti)) eqn:Hid;
      [|cbv [ret] in H3; discriminate].
    unfold _get_coingecko_price in H3. rewrite Hid in H3. cbn [negb] in H3.
    apply tier_result_fields in H3. intuition auto. }
  right. eauto.
Qed.

(** A price that [get_token_price] did not take from the cache carries
    the query it answers: the clock reading of the call, the block
    asked for, the symbol of the token and the chain.  Its source is one
    of the four tiers; ["dex"] only when a block was asked for,
    ["chainlink"] and ["coingecko"] only for a token with a feed or an
    id, and a ["fallback"] price has confidence 0.3 and is the rate of
    the static table. *)
Theorem sourced_price_is_stamped (addr : string) (cid : Z) (block : option Z)
    (ti : Tokens.TokenInfo) (c c1 c' : Cache.PriceCache) (r : PriceResult) :
  lookup_token_info addr cid = Some (Some ti) ->
  Cache.get_price c now cid (Tokens.symbol ti) block = (None, c1) ->
  get_token_price clients now addr cid block c = (Py.Ok (Some r), c') ->
  timestamp r = Py.int_time now /\ block_number r = block
  /\ token_symbol r = Tokens.symbol ti /\ chain_id r = cid
  /\ (source r = "chainlink" /\ Py.truthy_optstr (Tokens.chainlink_feed ti) = true
      \/ source r = "dex" /\ Py.truthy_optint block = true
      \/ source r = "coingecko" /\ Py.truthy_optstr (Tokens.coingecko_id ti) = true
      \/ source r = "fallback" /\ confidence r = 0.3%float
         /\ Py.dict_get String.eqb (Tokens.symbol ti)
              (Py.get_or (Py.dict_get Z.eqb cid fallback_rates) [])
            = Some (price_usd r)).
Proof.
  intros Htok Hmiss. unfold get_token_price. rewrite Htok.
  unfold bind at 1, on_cache. rewrite Hmiss. intros H.
  apply price_from_sources_inv in H as [H | [c3 H]].
  - intuition auto.
  - apply fallback_result_fields in H as (p & Hp & -> & _). cbn.
    repeat split; auto. right. right. right. auto.
Qed.

(** The static table shadows the live sources: once [get_token_price]
    has answered from the fallback tier, the answer sits in the cache,
    and until it expires the same query returns the very same result,
    source ["fallback"] and the old timestamp included, whatever the
    clients would answer by then. *)
Theorem fallback_price_is_sticky (addr : string) (cid : Z) (block : option Z)
    (ti : Tokens.TokenInfo) (c c1 c' : Cache.PriceCache) (r : PriceResult)
    (clients' : Clients) (now' : float) :
  lookup_token_info addr cid = Some (Some ti) ->
  Cache.get_price c now cid (Tokens.symbol ti) block = (None, c1) ->
  get_token_price clients now addr cid block c = (Py.Ok (Some r), c') ->
  source r = "fallback" ->
  PrimFloat.ltb (PrimFloat.sub now' now) (Cache.max_age_seconds c') = true ->
  get_token_price clients' now' addr cid block c' = (Py.Ok (Some r), c').
Proof.
  intros Htok Hmiss Hget Hsrc Hfresh.
  unfold get_token_price in Hget |- *. rewrite Htok in *.
  unfold bind at 1, on_cache in Hget. rewrite Hmiss in Hget.
  apply price_from_sources_inv in Hget as [H | [c3 H]].
  { rewrite Hsrc in H. destruct H as (_ & _ & _ & _ & [[H _]|[[H _]|[H _]]]);
      discriminate H. }
  apply fallback_result_fields in H as (p & Hp & -> & ->).
  unfold Cache.set_price in Hfresh.
  cbn [snd Cache.max_age_seconds Cache._save_disk_cache Cache.set_memory] in Hfresh.
  unfold bind at 1, on_cache.
  unfold Cache.get_price, Cache.set_price.
  cbn [snd Cache.memory_cache Cache._save_disk_cache Cache.set_memory].
  rewrite lookup_insert_eq. unfold Cache.is_fresh.
  cbn [Cache.cached_at Cache.max_age_seconds Cache._save_disk_cache Cache.set_memory].
  rewrite Hfresh. reflexivity.
Qed.

(** The two placeholder addresses of the native token resolve to the
    base currency of the chain. *)
Lemma native_token_lookup (addr : string) (cid : Z) :
  Tokens.is_native_token cid addr = true ->
  lookup_token_info addr cid = Some (Tokens.get_native_token_info cid).
Proof.
  unfold lookup_token_info, Tokens.is_native_token, Tokens.get_token_by_address.
  intros Hnat. rewrite Hnat.
  destruct (find _ _) as [ti|] eqn:Hfind; [|reflexivity].
  f_equal. revert Hfind. apply orb_prop in Hnat as [Ha | Ha];
    apply String.eqb_eq in Ha; rewrite Ha;
    unfold Tokens.get_native_token_info, Tokens.get_token_info,
      Tokens.get_base_currency, Tokens.chain_tokens, Tokens.TOKENS;
    cbn [Py.dict_get];
    (destruct (cid =? 1); [vm_compute; congruence|]);
    (destruct (cid =? 56); vm_compute; congruence).
Qed.

(** Pricing the native token by one of its placeholder addresses (the
    zero address or 0xEeee...): on chains 1 and 56 it is the base
    currency price; on any other chain the registry has no base
    currency, [token_info] stays [None], and [get_token_price] ends in
    an [AttributeError] instead of answering [None]. *)
Theorem native_token_price (addr : string) (cid : Z) (block : option Z)
    (c : Cache.PriceCache) :
  Tokens.is_native_token cid addr = true ->
  (cid = 1 \/ cid = 56 ->
   get_token_price clients now addr cid block c
   = get_base_currency_price clients now cid block c)
  /\ (cid <> 1 -> cid <> 56 ->
      get_token_price clients now addr cid block c
      = (Py.Raise (Py.Exn Py.AttributeError
                     "'NoneType' object has no attribute 'symbol'"), c)).
Proof.
  intros Hnat. split.
  - intros Hcid. unfold get_base_currency_price, get_token_price_by_symbol.
    unfold get_token_price at 1. rewrite (native_token_lookup addr cid Hnat).
    unfold Tokens.get_native_token_info.
    destruct Hcid as [-> | ->]; reflexivity.
  - intros H1 H56. unfold get_token_price.
    rewrite (native_token_lookup addr cid Hnat).
    unfold Tokens.get_native_token_info, Tokens.get_token_info,
      Tokens.chain_tokens, Tokens.TOKENS. cbn [Py.dict_get].
    apply Z.eqb_neq in H1, H56. rewrite H1, H56. reflexivity.
Qed.

(** For a token the registry resolves, [get_token_price] returns a
    price: it does not raise and does not answer [None]. *)
Lemma registered_token_priced (addr : string) (cid : Z) (block : option Z)
    (ti : Tokens.TokenInfo) (c : Cache.PriceCache) :
  lookup_token_info addr cid = Some (Some ti) ->
  exists r c', get_token_price clients now addr cid block c = (Py.Ok (Some r), c')
               /\ token_symbol r = Tokens.symbol ti /\ chain_id r = cid.
Proof.
  intros Htok.
  destruct (get_token_price clients now addr cid block c) as [[[r|]|e] c'] eqn:Hget.
  - exists r, c'. split; [reflexivity|].
    revert Hget. unfold get_token_price. rewrite Htok. unfold bind at 1, on_cache.
    destruct (Cache.get_price _ _ _ _ _) as [[e|] c1].
    + cbv [ret]. intros [= <- _]. split; reflexivity.
    + intros H. apply price_from_sources_inv in H as [H | [c3 H]]; [tauto|].
      apply fallback_result_fields in H as (p & _ & -> & _). split; reflexivity.
  - apply unpriced_is_unregistered in Hget as [Hget _]. congruence.
  - exfalso. revert Hget. unfold get_token_price. rewrite Htok.
    unfold bind at 1, on_cache.
    destruct (Cache.get_price _ _ _ _ _) as [[e0|] c1]; [cbv [ret]; discriminate|].
    destruct (price_from_sources_returns clients now ti cid block c1)
      as (r & c2 & ->). discriminate.
Qed.

(** Every symbol of the registry has a price: [get_token_price_by_symbol]
    returns one for it on every cache state and whatever the clients do
    (answer, stay silent or raise), labelled with the symbol and the
    chain. *)
Theorem registered_symbol_is_priced (sym : string) (cid : Z) (block : option Z)
    (ti : Tokens.TokenInfo) (c : Cache.PriceCache) :
  Tokens.get_token_info cid sym = Some ti ->
  exists r c',
    get_token_price_by_symbol clients now sym cid block c = (Py.Ok (Some r), c')
    /\ token_symbol r = Tokens.symbol ti /\ chain_id r = cid.
Proof.
  intros Hinfo. unfold get_token_price_by_symbol. rewrite Hinfo.
  apply registered_token_priced. unfold lookup_token_info.
  unfold Tokens.get_token_info in Hinfo. apply dict_get_In in Hinfo.
  now rewrite (registered_token_by_address cid (Tokens.address ti) ti Hinfo eq_refl).
Qed.

(** On chains 1 and 56 the base currency is in the registry. *)
Lemma base_currency_priced (cid : Z) (block : option Z) (c : Cache.PriceCache) :
  cid = 1 \/ cid = 56 ->
  exists r c', get_base_currency_price clients now cid block c = (Py.Ok (Some r), c')
               /\ token_symbol r = Tokens.get_base_currency cid /\ chain_id r = cid.
Proof.
  intros Hcid. unfold get_base_currency_price, get_token_price_by_symbol.
  destruct Hcid as [-> | ->]; cbn [Tokens.get_token_info];
    match goal with
    | |- context [Tokens.get_token_info ?cid ?sym] =>
        let ti := eval vm_compute in (Tokens.get_token_info cid sym) in
        change (Tokens.get_token_info cid sym) with ti
    end; cbv iota beta;
    match goal with
    | |- context [get_token_price _ _ (Tokens.address ?ti) ?cid _ _] =>
        exact (registered_token_priced (Tokens.address ti) cid block ti c eq_refl)
    end.
Qed.

Lemma base_currency_unpriced (cid : Z) (block : option Z) (c : Cache.PriceCache) :
  cid <> 1 -> cid <> 56 ->
  get_base_currency_price clients now cid block c = (Py.Ok None, c).
Proof.
  intros H1 H56. unfold get_base_currency_price, get_token_price_by_symbol,
    Tokens.get_token_info, Tokens.chain_tokens, Tokens.TOKENS. cbn [Py.dict_get].
  apply Z.eqb_neq in H1, H56. rewrite H1, H56. reflexivity.
Qed.

(** The base currency has a price on chains 1 and 56, always, whatever
    the clients and the cache hold; on any other chain
    [get_base_currency_price] answers [None] and leaves the cache
    alone. *)
Theorem base_currency_price_available (cid : Z) (block : option Z)
    (c : Cache.PriceCache) :
  (cid = 1 \/ cid = 56 ->
   exists r c', get_base_currency_price clients now cid block c = (Py.Ok (Some r), c')
                /\ token_symbol r = Tokens.get_base_currency cid /\ chain_id r = cid)
  /\ (cid <> 1 -> cid <> 56 ->
      get_base_currency_price clients now cid block c = (Py.Ok None, c)).
Proof.
  split; [apply base_currency_priced | apply base_currency_unpriced].
Qed.

End OracleSourceFacts.

(** WETH on chain 1 with an empty cache, in a world where every client
    answers: the price is Chainlink's latest and carries the query. *)
Lemma sourced_price_is_stamped_witness :
  exists r c',
    Oracle.get_token_price Oracle.eager_clients 1700000000
      "0xC02aaA39b223FE8D0A0e5C4F27eAD9083C756Cc2" 1 None Cache.empty_cache
    = (Py.Ok (Some r), c')
    /\ Oracle.timestamp r = 1700000000 /\ Oracle.block_number r = None
    /\ Oracle.token_symbol r = "WETH" /\ Oracle.chain_id r = 1.
Proof.
  pose (ti := Tokens.mkTokenInfo "0xC02aaA39b223FE8D0A0e5C4F27eAD9083C756Cc2"
                "WETH" 18 "Wrapped Ethereum" false true (Some "ethereum")
                (Some "0x5f4eC3Df9cbd43714FE2740f5E3616155c5b8419")).
  pose (r := Oracle.mkPrice 3001 0.98 "chainlink" 1700000000 None "WETH" 1).
  exists r, Cache.empty_cache.
  assert (Hget : Oracle.get_token_price Oracle.eager_clients 1700000000
                   "0xC02aaA39b223FE8D0A0e5C4F27eAD9083C756Cc2" 1 None
                   Cache.empty_cache = (Py.Ok (Some r), Cache.empty_cache))
    by reflexivity.
  split; [exact Hget|].
  destruct (sourced_price_is_stamped Oracle.eager_clients 1700000000
              "0xC02aaA39b223FE8D0A0e5C4F27eAD9083C756Cc2" 1 None ti
              Cache.empty_cache Cache.empty_cache Cache.empty_cache r
              eq_refl eq_refl Hget) as (Ht & Hb & Hs & Hc & _).
  auto.
Defined.

(** WETH on chain 1: no client answers at time 1,700,000,000, so the
    static table prices it at 3,200 USD; a hundred seconds later every
    client answers, and the result is still the fallback price. *)
Lemma fallback_price_is_sticky_witness :
  exists r c',
    Oracle.get_token_price Oracle.silent_clients 1700000000
      "0xC02aaA39b223FE8D0A0e5C4F27eAD9083C756Cc2" 1 None Cache.empty_cache
    = (Py.Ok (Some r), c')
    /\ Oracle.get_token_price Oracle.eager_clients 1700000100
         "0xC02aaA39b223FE8D0A0e5C4F27eAD9083C756Cc2" 1 None c'
       = (Py.Ok (Some r), c')
    /\ Oracle.price_usd r = 3200%float.
Proof.
  pose (ti := Tokens.mkTokenInfo "0xC02aaA39b223FE8D0A0e5C4F27eAD9083C756Cc2"
                "WETH" 18 "Wrapped Ethereum" false true (Some "ethereum")
                (Some "0x5f4eC3Df9cbd43714FE2740f5E3616155c5b8419")).
  pose (r := Oracle.mkPrice 3200 0.3 "fallback" 1700000000 None "WETH" 1).
  pose (c' := snd (Cache.set_price Cache.empty_cache 1700000000 1 "WETH" 3200
                     "fallback" 0.3 None None)).
  exists r, c'.
  assert (Hget : Oracle.get_token_price Oracle.silent_clients 1700000000
                   "0xC02aaA39b223FE8D0A0e5C4F27eAD9083C756Cc2" 1 None
                   Cache.empty_cache = (Py.Ok (Some r), c'))
    by reflexivity.
  split; [exact Hget|]. split; [|reflexivity].
  exact (fallback_price_is_sticky Oracle.silent_clients 1700000000
           "0xC02aaA39b223FE8D0A0e5C4F27eAD9083C756Cc2" 1 None ti
           Cache.empty_cache Cache.empty_cache c' r Oracle.eager_clients 1700000100
           eq_refl eq_refl Hget eq_refl eq_refl).
Defined.

(** The 0xEeee... placeholder on chain 137 (not in the registry) and on
    chain 1. *)
Lemma native_token_price_witness :
  Oracle.get_token_price Oracle.silent_clients 1700000000
    "0xEeeeeEeeeEeEeeEeEeEeeEEEeeeeEeeeeeeeEEeE" 137 None Cache.empty_cache
  = (Py.Raise (Py.Exn Py.AttributeError
                 "'NoneType' object has no attribute 'symbol'"), Cache.empty_cache)
  /\ Oracle.get_token_price Oracle.silent_clients 1700000000
       "0xEeeeeEeeeEeEeeEeEeEeeEEEeeeeEeeeeeeeEEeE" 1 None Cache.empty_cache
     = Oracle.get_base_currency_price Oracle.silent_clients 1700000000 1 None
         Cache.empty_cache.
Proof.
  split.
  - apply (native_token_price Oracle.silent_clients 1700000000
             "0xEeeeeEeeeEeEeeEeEeEeeEEEeeeeEeeeeeeeEEeE" 137 None Cache.empty_cache
             eq_refl); discriminate.
  - apply (native_token_price Oracle.silent_clients 1700000000
             "0xEeeeeEeeeEeEeeEeEeEeeEEEeeeeEeeeeeeeEEeE" 1 None Cache.empty_cache
             eq_refl). now left.
Defined.

(** USDC on chain 1, asked for in lower case, in the silent world. *)
Lemma registered_symbol_is_priced_witness :
  exists r c',
    Oracle.get_token_price_by_symbol Oracle.silent_clients 1700000000 "usdc" 1 None
      Cache.empty_cache = (Py.Ok (Some r), c')
    /\ Oracle.token_symbol r = "USDC" /\ Oracle.chain_id r = 1.
Proof.
  exact (registered_symbol_is_priced Oracle.silent_clients 1700000000 "usdc" 1 None
           (Tokens.mkTokenInfo "0xA0b86a33E6441d00C9dab2B1DC7Be85c39Ad" "USDC" 6
              "USD Coin" true false (Some "usd-coin")
              (Some "0x8fFfFfd4AfB6115b954Bd326cbe7B4BA576818f6"))
           Cache.empty_cache eq_refl).
Defined.

(* ===================================================================== *)
(** * Part IV: further properties of the accounting layer                *)
(* ===================================================================== *)

(** ** Order on floats *)

Section FloatOrderFacts.

Lemma SFcompare_Lt_trans (x y z : spec_float) :
  SFcompare x y = Some Lt -> SFcompare y z = Some Lt -> SFcompare x z = Some Lt.
Proof.
  destruct x as [sx|sx| |sx mx ex], y as [sy|sy| |sy my ey], z as [sz|sz| |sz mz ez];
    cbn; try discriminate; try reflexivity;
    try (destruct sx; cbn; congruence);
    try (destruct sy; cbn; congruence);
    try (destruct sz; cbn; congruence);
    try (destruct sx, sy; cbn; congruence);
    try (destruct sy, sz; cbn; congruence);
    try (destruct sx, sz; cbn; congruence);
    try (destruct sx, sy, sz; cbn; congruence).
  change (PosDef.Pos.compare_cont Eq mx my) with (mx ?= my)%positive.
  change (PosDef.Pos.compare_cont Eq my mz) with (my ?= mz)%positive.
  change (PosDef.Pos.compare_cont Eq mx mz) with (mx ?= mz)%positive.
  destruct sx, sy, sz; try congruence;
    destruct (Z.compare_spec ex ey), (Z.compare_spec ey ez); try congruence;
    destruct (Pos.compare_spec mx my), (Pos.compare_spec my mz); cbn; try congruence;
    intros _ _; subst;
    repeat match goal with
    | |- context [(?a ?= ?b)%Z] => destruct (Z.compare_spec a b); try lia
    | |- context [(?a ?= ?b)%positive] => destruct (Pos.compare_spec a b); try lia
    end; cbn; try reflexivity; try lia.
Qed.

(** [x < y] and [y < z] give [x < z] on floats. *)
Lemma float_ltb_trans (x y z : float) :
  PrimFloat.ltb x y = true -> PrimFloat.ltb y z = true -> PrimFloat.ltb x z = true.
Proof.
  rewrite !ltb_spec. unfold SFltb.
  destruct (SFcompare (Prim2SF x) (Prim2SF y)) as [[]|] eqn:H1; try discriminate.
  destruct (SFcompare (Prim2SF y) (Prim2SF z)) as [[]|] eqn:H2; try discriminate.
  intros _ _. now rewrite (SFcompare_Lt_trans _ _ _ H1 H2).
Qed.

(** [x < 0] and [0 <= y] give [x < y]. *)
Lemma float_neg_lt_nonneg (x y : float) :
  PrimFloat.ltb x 0 = true -> PrimFloat.leb 0 y = true -> PrimFloat.ltb x y = true.
Proof.
  rewrite !ltb_spec, leb_spec. unfold SFltb, SFleb.
  change (Prim2SF 0) with (S754_zero false).
  destruct (Prim2SF x) as [sx|sx| |sx mx ex], (Prim2SF y) as [sy|sy| |sy my ey];
    cbn; try discriminate; try reflexivity;
    try (destruct sx; cbn; congruence);
    try (destruct sy; cbn; congruence);
    try (destruct sx, sy; cbn; congruence).
Qed.

(** A float whose absolute value exceeds the dust threshold is itself
    above or below zero: it is no NaN and no zero. *)
Lemma float_abs_above_sign (x : float) :
  PrimFloat.ltb 1e-12 (PrimFloat.abs x) = true ->
  PrimFloat.ltb 0 x = true /\ PrimFloat.ltb x 0 = false
  \/ PrimFloat.ltb 0 x = false /\ PrimFloat.ltb x 0 = true.
Proof.
  rewrite !ltb_spec, abs_spec. unfold SFltb.
  change (Prim2SF 0) with (S754_zero false).
  destruct (Prim2SF x) as [sx|sx| |sx mx ex]; cbn [SFabs].
  - intros H. vm_compute in H. discriminate H.
  - intros _. destruct sx; cbn; auto.
  - intros H. vm_compute in H. discriminate H.
  - intros _. destruct sx; cbn; auto.
Qed.

End FloatOrderFacts.

(** ** Balance validator: the report *)

Section ValidatorReportFacts.
Import BalanceValidator.

Lemma flat_map_nil_iff {A B} (f : A -> list B) (l : list A) :
  flat_map f l = [] <-> forall a, In a l -> f a = [].
Proof.
  induction l as [|a l IH]; cbn.
  - split; [intros _ a []|reflexivity].
  - split.
    + intros H. apply app_eq_nil in H as [Ha Hl]. intros b [<- | Hb]; [exact Ha|].
      now apply IH.
    + intros H. rewrite (H a (or_introl eq_refl)).
      cbn. apply IH. intros b Hb. apply H. now right.
Qed.

Lemma length_zero_nil {A} (l : list A) : Nat.eqb (length l) 0 = true <-> l = [].
Proof. destruct l; cbn; split; congruence. Qed.

(** What the flags of the compliance report say.  The balance
    invariant counts as enforced exactly when no balance ends below
    where it started and none ends below zero (a missing [initial] or
    [final] reads as 0.0); each flag is true exactly when its list of
    violations is empty; and [total_violations] counts both lists. *)
Theorem invariant_enforced_iff (changes : list balance_change_dict) (cid : Z) :
  let report := generate_compliance_report changes cid in
  (balance_invariant_enforced report = true
   <-> forall change, In change changes ->
         PrimFloat.ltb (Py.get_or (final change) 0%float)
                       (Py.get_or (initial change) 0%float) = false
         /\ PrimFloat.ltb (Py.get_or (final change) 0%float) 0 = false)
  /\ (balance_invariant_enforced report = true <-> invariant_violations report = [])
  /\ (paper_methodology_compliant report = true
      <-> paper_compliance_violations report = [])
  /\ total_violations report
     = (length (invariant_violations report)
        + length (paper_compliance_violations report))%nat.
Proof.
  unfold generate_compliance_report, validate_balance_invariant,
    validate_paper_compliance.
  cbn [balance_invariant_enforced invariant_violations paper_methodology_compliant
       paper_compliance_violations total_violations].
  rewrite !length_zero_nil, length_app.
  split; [|split; [reflexivity|split; reflexivity]].
  rewrite flat_map_nil_iff. unfold invariant_violations_of.
  split; intros H change Hin; specialize (H change Hin).
  - apply app_eq_nil in H as [H1 H2]. split.
    + destruct (PrimFloat.ltb _ _); [discriminate H1 | reflexivity].
    + destruct (PrimFloat.ltb (Py.get_or (final change) 0%float) 0);
        [discriminate H2 | reflexivity].
  - destruct H as [H1 H2]. now rewrite H1, H2.
Qed.

(** A balance that ends below zero after starting at zero or above is
    reported twice by the invariant pass, as a depletion and as a
    negative balance, and so counts twice in [total_violations]. *)
Theorem negative_balance_reported_twice (cid : Z) (change : balance_change_dict) :
  PrimFloat.ltb (Py.get_or (final change) 0%float) 0 = true ->
  PrimFloat.leb 0 (Py.get_or (initial change) 0%float) = true ->
  map violation_type (invariant_violations_of cid change)
  = ["depletion"; "negative_balance"]
  /\ (2 <= total_violations (generate_compliance_report [change] cid))%nat.
Proof.
  intros Hneg Hinit.
  pose proof (float_neg_lt_nonneg _ _ Hneg Hinit) as Hlt.
  assert (Hv : map violation_type (invariant_violations_of cid change)
               = ["depletion"; "negative_balance"]).
  { unfold invariant_violations_of. now rewrite Hlt, Hneg. }
  split; [exact Hv|].
  unfold generate_compliance_report, validate_balance_invariant,
    validate_paper_compliance. cbn [total_violations flat_map].
  rewrite !length_app.
  rewrite <- (length_map violation_type (invariant_violations_of cid change)), Hv.
  cbn [length]. lia.
Qed.

(** DAI going from 5 to -2 on chain 1. *)
Lemma negative_balance_reported_twice_witness :
  map violation_type
    (invariant_violations_of 1
       (mkChangeDict (Some "DAI") (Some 5%float) (Some (-2)%float) None))
  = ["depletion"; "negative_balance"].
Proof.
  apply (negative_balance_reported_twice 1
           (mkChangeDict (Some "DAI") (Some 5%float) (Some (-2)%float) None));
    reflexivity.
Defined.

(** The scope of the paper-compliance pass: off chains 1 and 56 it
    finds nothing, whatever the balances; and every violation it
    reports is for a token of the paper's table, carries the table's
    amount as its [initial_balance] (not the balance the run started
    with) and a final balance below that amount. *)
Theorem paper_compliance_scope (changes : list balance_change_dict) (cid : Z) :
  (cid <> 1 -> cid <> 56 -> validate_paper_compliance changes cid = (true, []))
  /\ forall v, In v (snd (validate_paper_compliance changes cid)) ->
       Py.dict_get String.eqb (token_symbol v)
         (Py.get_or (Py.dict_get Z.eqb cid PAPER_INITIAL_BALANCES) [])
       = Some (initial_balance v)
       /\ PrimFloat.ltb (final_balance v) (initial_balance v) = true
       /\ violation_amount v = PrimFloat.sub (initial_balance v) (final_balance v)
       /\ chain_id v = cid.
Proof.
  split.
  - intros H1 H56. unfold validate_paper_compliance, PAPER_INITIAL_BALANCES.
    cbn [Py.dict_get]. apply Z.eqb_neq in H1, H56. rewrite H1, H56. cbn [Py.get_or].
    assert (E : flat_map (paper_violations_of cid []) changes = []).
    { apply flat_map_nil_iff. reflexivity. }
    now rewrite E.
  - intros v Hin. cbn [snd validate_paper_compliance] in Hin.
    apply in_flat_map in Hin as (change & _ & Hin).
    unfold paper_violations_of in Hin.
    destruct (Py.dict_get String.eqb _ _) as [expected|] eqn:Hexp; [|contradiction].
    destruct (PrimFloat.ltb _ _) eqn:Hlt; [|contradiction].
    destruct Hin as [<- | []]. cbn. auto.
Qed.

Lemma minimum_balances_snoc (changes : list balance_change_dict) (cid : Z)
    (change : balance_change_dict) :
  calculate_minimum_required_balances (changes ++ [change]) cid
  = if is_spent change
    then <[Py.get_or (token change) "UNKNOWN" :=
             PrimFloat.mul (PrimFloat.abs (net_change_of change)) 1.1]>
           (calculate_minimum_required_balances changes cid)
    else calculate_minimum_required_balances changes cid.
Proof.
  unfold calculate_minimum_required_balances. now rewrite fold_left_app.
Qed.

(** [calculate_minimum_required_balances], entry by entry: the minimum
    for a symbol is 1.1 times the amount of the last change that spends
    the token, not the sum and not the largest of its spending changes;
    a symbol no change spends has no entry. *)
Theorem minimum_balance_is_last_spend (changes : list balance_change_dict) (cid : Z)
    (sym : string) :
  calculate_minimum_required_balances changes cid !! sym
  = option_map
      (fun change => PrimFloat.mul (PrimFloat.abs (net_change_of change)) 1.1)
      (List.find
         (fun change =>
            is_spent change && String.eqb (Py.get_or (token change) "UNKNOWN") sym)
         (rev changes)).
Proof.
  induction changes as [|change changes IH] using rev_ind; [reflexivity|].
  rewrite minimum_balances_snoc, rev_app_distr. cbn [rev app find].
  destruct (is_spent change); cbn [andb]; [|exact IH].
  destruct (String.eqb_spec (Py.get_or (token change) "UNKNOWN") sym) as [-> | Hne].
  - now rewrite lookup_insert_eq.
  - now rewrite lookup_insert_ne.
Qed.

End ValidatorReportFacts.

(** ** Revenue normaliser: classification and thresholds *)

Section RevenueFurtherFacts.
Import Oracle Revenue.

Variable clients : Clients.
Variable now : float.

(** What the structured extraction puts into a balance change. *)
Lemma extracted_change_fields (d : execution_data) (cid : Z) (change : BalanceChange) :
  In change (_extract_balance_changes d cid) ->
  net_change change = PrimFloat.sub (final_balance change) (initial_balance change)
  /\ above_dust (net_change change) = true
  /\ is_surplus change = PrimFloat.ltb 0 (net_change change).
Proof.
  unfold _extract_balance_changes.
  destruct (balance_analysis d) as [token_balances|]; [|contradiction].
  intros Hin. apply in_flat_map in Hin as (td & _ & Hin).
  destruct (td_before td) as [initial|]; [|contradiction].
  destruct (td_after td) as [final|]; [|contradiction].
  destruct (above_dust _) eqn:Hdust; [|contradiction].
  destruct Hin as [<- | []]. cbn. auto.
Qed.

(** No extracted change falls through the loop of [execute]: a change
    of a token other than the base currency is strictly positive or
    strictly negative (it passed the dust test, so it is no NaN), and an
    iteration that returns has recorded it, as one surplus conversion of
    the full net change or as one deficit resolution of its absolute
    value; the direct base-currency delta is not touched, and a deficit
    leaves the surplus total as it was. *)
Theorem extracted_change_is_settled (d : execution_data) (cid : Z) (block : option Z)
    (change : BalanceChange) (st st' : loop_state) (c c' : Cache.PriceCache) :
  In change (_extract_balance_changes d cid) ->
  String.eqb (token_symbol change) (Tokens.get_base_currency cid) = false ->
  loop_body clients now (Tokens.get_base_currency cid) cid block st change c
  = (Py.Ok st', c') ->
  base_currency_change st' = base_currency_change st
  /\ ((PrimFloat.ltb 0 (net_change change) = true
       /\ exists conversion,
            ls_surplus_conversions st'
            = (ls_surplus_conversions st ++ [conversion])%list
            /\ sc_amount conversion = net_change change
            /\ ls_deficit_resolutions st' = ls_deficit_resolutions st)
      \/ (PrimFloat.ltb (net_change change) 0 = true
          /\ exists deficit,
               ls_deficit_resolutions st'
               = (ls_deficit_resolutions st ++ [deficit])%list
               /\ deficit_amount deficit = PrimFloat.abs (net_change change)
               /\ ls_surplus_conversions st' = ls_surplus_conversions st
               /\ ls_total_surplus_value st' = ls_total_surplus_value st)).
Proof.
  intros Hin Hbase. apply extracted_change_fields in Hin as (_ & Hdust & Hsur).
  unfold loop_body. rewrite Hbase, Hsur.
  destruct (float_abs_above_sign _ Hdust) as [[Hpos Hneg] | [Hpos Hneg]];
    rewrite Hpos, ?Hneg; cbn [andb negb].
  - intros H. apply bind_Ok_inv in H as (conv & c1 & Hconv & H).
    cbv [ret] in H. injection H as <- <-. cbn. split; [reflexivity|]. left.
    split; [reflexivity|]. exists conv. split; [reflexivity|].
    split; [|reflexivity].
    unfold _convert_surplus_token in Hconv.
    apply bind_Ok_inv in Hconv as (bv & c2 & _ & Hconv).
    cbv [ret] in Hconv. injection Hconv as <- _. reflexivity.
  - intros H. apply bind_Ok_inv in H as (def & c1 & Hdef & H).
    cbv [ret] in H. injection H as <- <-. cbn. split; [reflexivity|]. right.
    split; [reflexivity|]. exists def. split; [reflexivity|].
    split; [|split; reflexivity].
    unfold _resolve_deficit_token in Hdef.
    apply bind_Ok_inv in Hdef as (cost & c2 & _ & Hdef).
    cbv [ret] in Hdef. injection Hdef as <- _. reflexivity.
Qed.

(** The two profit flags are consistent: a run that meets the 100 USD
    threshold is profitable.  The threshold is tested on [revenue_usd],
    the base-currency revenue times the USD rate of the base
    currency. *)
Theorem threshold_implies_profitable (changes : list BalanceChange) (cid : Z)
    (block : option Z) (c c' : Cache.PriceCache) (d : revenue_data) :
  reconcile clients now changes cid block c = (Py.Ok d, c') ->
  (profit_threshold_met d = true -> is_profitable d = true)
  /\ profit_threshold_met d = PrimFloat.ltb 100 (revenue_usd d)
  /\ revenue_usd d = PrimFloat.mul (revenue_base_currency d) (base_currency_usd_rate d)
  /\ base_currency d = Tokens.get_base_currency cid.
Proof.
  unfold reconcile. intros H.
  apply bind_Ok_inv in H as (st & c1 & _ & H).
  apply bind_Ok_inv in H as (bp & c2 & _ & H).
  cbv [ret] in H. injection H as <- _.
  cbn [profit_threshold_met is_profitable revenue_usd revenue_base_currency
       base_currency_usd_rate base_currency].
  split; [|auto]. intros Hmet.
  rewrite (float_ltb_trans 1 100 _ eq_refl Hmet). reflexivity.
Qed.

(** Where the USD rate of the base currency comes from.  After the
    loop over the balance changes, which leaves the cache in some state,
    the oracle is asked once more for the base currency, on that state
    of the cache; the cache this leaves is the one the run leaves.  On
    chains 1 and 56 that call always returns a price for the base
    currency, and the rate reported is that price; on any other chain
    it returns none, the base currency is reported as ETH and the rate
    is the constant 3200. *)
Theorem usd_rate_by_chain (changes : list BalanceChange) (cid : Z)
    (block : option Z) (c c' : Cache.PriceCache) (d : revenue_data) :
  reconcile clients now changes cid block c = (Py.Ok d, c') ->
  exists st c1,
    reconcile_loop clients now (Tokens.get_base_currency cid) cid block changes
      loop_init c = (Py.Ok st, c1)
    /\ (cid = 1 \/ cid = 56 ->
        exists r,
          get_base_currency_price clients now cid block c1 = (Py.Ok (Some r), c')
          /\ base_currency_usd_rate d = price_usd r
          /\ Oracle.token_symbol r = base_currency d)
    /\ (cid <> 1 -> cid <> 56 ->
        get_base_currency_price clients now cid block c1 = (Py.Ok None, c')
        /\ base_currency d = "ETH" /\ base_currency_usd_rate d = 3200%float).
Proof.
  unfold reconcile. intros H.
  apply bind_Ok_inv in H as (st & c1 & Hloop & H).
  apply bind_Ok_inv in H as (bp & c2 & Hbp & H).
  cbv [ret] in H. injection H as <- <-.
  cbn [base_currency_usd_rate base_currency].
  exists st, c1. split; [exact Hloop|]. split.
  - intros Hcid.
    destruct (base_currency_priced clients now cid block c1 Hcid)
      as (r & c3 & Hr & Hsym & _).
    rewrite Hr in Hbp. injection Hbp as <- <-.
    exists r. auto.
  - intros H1 H56.
    rewrite (base_currency_unpriced clients now cid block c1 H1 H56) in Hbp.
    injection Hbp as <- <-. split; [|split; [|reflexivity]].
    + now apply base_currency_unpriced.
    + unfold Tokens.get_base_currency. apply Z.eqb_neq in H1, H56.
      now rewrite H1, H56.
Qed.


End RevenueFurtherFacts.

(** The USDC surplus of the 0.5 + 0.2 run, in the silent world. *)
Lemma extracted_change_is_settled_witness :
  exists st' c',
    Revenue.loop_body Oracle.silent_clients 1700000000 "ETH" 1 None Revenue.loop_init
      (Revenue.mkChange "0xA0b86a33E6441d00C9dab2B1DC7Be85c39Ad" "USDC"
         10000000 10000640 640 true 0 0) Cache.empty_cache = (Py.Ok st', c')
    /\ map Revenue.sc_amount (Revenue.ls_surplus_conversions st') = [640%float].
Proof.
  destruct (Revenue.loop_body Oracle.silent_clients 1700000000 "ETH" 1 None
              Revenue.loop_init
              (Revenue.mkChange "0xA0b86a33E6441d00C9dab2B1DC7Be85c39Ad" "USDC"
                 10000000 10000640 640 true 0 0) Cache.empty_cache)
    as [[st' | e] c'] eqn:Hrun.
  - exists st', c'. split; [reflexivity|].
    destruct (extracted_change_is_settled Oracle.silent_clients 1700000000
                Revenue.scenario_data 1 None _ _ _ _ _
                ltac:(right; left; reflexivity) eq_refl Hrun)
      as [_ [(_ & conv & -> & Hamt & _) | (Hneg & _)]].
    + cbn. now rewrite Hamt.
    + vm_compute in Hneg. discriminate Hneg.
  - vm_compute in Hrun. discriminate Hrun.
Defined.

(** The 0.5 + 0.2 run: 0.7 ETH at 3,200 USD meet the threshold. *)
Lemma threshold_implies_profitable_witness :
  exists d c',
    Revenue.reconcile Oracle.silent_clients 1700000000
      (Revenue._extract_balance_changes Revenue.scenario_data 1) 1 None
      Cache.empty_cache = (Py.Ok d, c')
    /\ Revenue.profit_threshold_met d = true
    /\ Revenue.is_profitable d = true.
Proof.
  destruct (Revenue.reconcile Oracle.silent_clients 1700000000
              (Revenue._extract_balance_changes Revenue.scenario_data 1) 1 None
              Cache.empty_cache) as [[d | e] c'] eqn:Hrun.
  - exists d, c'. split; [reflexivity|].
    assert (Hmet : Revenue.profit_threshold_met d = true).
    { vm_compute in Hrun. injection Hrun as <- _. reflexivity. }
    split; [exact Hmet|].
    exact (proj1 (threshold_implies_profitable Oracle.silent_clients 1700000000
                    _ _ _ _ _ _ Hrun) Hmet).
  - vm_compute in Hrun. discriminate Hrun.
Defined.

(** The 0.5 + 0.2 run on chain 1, in the world in which every client
    answers: the rate is the 3001 USD the Chainlink feed gives for ETH. *)
Lemma usd_rate_by_chain_witness :
  exists d c',
    Revenue.reconcile Oracle.eager_clients 1700000000
      (Revenue._extract_balance_changes Revenue.scenario_data 1) 1 None
      Cache.empty_cache = (Py.Ok d, c')
    /\ Revenue.base_currency d = "ETH"
    /\ Revenue.base_currency_usd_rate d = 3001%float.
Proof.
  destruct (Revenue.reconcile Oracle.eager_clients 1700000000
              (Revenue._extract_balance_changes Revenue.scenario_data 1) 1 None
              Cache.empty_cache) as [[d | e] c'] eqn:Hrun.
  - exists d, c'. split; [reflexivity|].
    destruct (usd_rate_by_chain Oracle.eager_clients 1700000000 _ _ _ _ _ _ Hrun)
      as (st & c1 & Hloop & Hpriced & _).
    destruct (Hpriced ltac:(left; reflexivity)) as (r & Hr & -> & <-).
    vm_compute in Hloop. injection Hloop as <- <-.
    vm_compute in Hr. injection Hr as <- _.
    split; reflexivity.
  - vm_compute in Hrun. discriminate Hrun.
Defined.

(* ===================================================================== *)
(** * Part V: further properties of tool calls and of the execution tool *)
(* ===================================================================== *)

(** ** Tool calls and the registry *)

Section ToolCallingFurtherFacts.
Import ToolCalling.

Variables Params Data : Type.
Variable repr_float : float -> string.

(** How [execute_tool_call] leaves the record it was given. *)
Lemma execute_tool_call_cases (ex : ToolCallExecutor Params Data)
    (tc : ToolCall Params Data) :
  let tc' := fst (execute_tool_call repr_float ex tc) in
  let raised := snd (execute_tool_call repr_float ex tc) in
  id tc' = id tc /\ name tc' = name tc /\ parameters tc' = parameters tc
  /\ ((status tc' = COMPLETED /\ error tc' = error tc /\ raised = None
       /\ exists t r, registry ex !! name tc = Some t
                      /\ ending (t (parameters tc)) = Returns r
                      /\ result tc' = Some r)
      \/ ((status tc' = FAILED \/ status tc' = TIMEOUT)
          /\ result tc' = result tc /\ raised = None
          /\ exists msg, error tc' = Some msg)
      \/ (status tc' = RUNNING /\ result tc' = result tc /\ error tc' = error tc
          /\ exists t b, registry ex !! name tc = Some t
                         /\ ending (t (parameters tc)) = RaisesBase b
                         /\ raised = Some b)).
Proof.
  cbv zeta. unfold execute_tool_call, try_block, wait_for.
  destruct (registry ex !! name tc) as [t|]; cbn [is_timeout_error Py.exn_cls].
  - destruct (_ || _); cbn [is_timeout_error Py.exn_cls].
    + destruct (ending (t (parameters tc))) as [r|e|b] eqn:Hend.
      * cbn. repeat split; auto. left. repeat split; auto. eauto.
      * destruct (is_timeout_error e); cbn; repeat split; auto;
          right; left; eauto 6.
      * cbn. repeat split; auto. right; right. repeat split; auto. eauto.
    + cbn. repeat split; auto. right; left. eauto 6.
  - cbn. repeat split; auto. right; left. eauto 6.
Qed.


(** Registry updates as the executor sees them.  A call to an
    unregistered tool fails with the message "Tool '...' not found in
    registry" and keeps its old result; registering a tool under a name
    replaces what was registered under it, so unregistering afterwards
    does not bring the older tool back; and calls to tools of other
    names run as before. *)
Theorem registry_updates (tools : gmap string (tool Params Data)) (limit : float)
    (tc : ToolCall Params Data) (tool_name : string) (t : tool Params Data) :
  (name tc = tool_name ->
   execute_tool_call repr_float (mkExecutor (unregister_tool tools tool_name) limit) tc
   = (mkToolCall (id tc) (name tc) (parameters tc) FAILED (result tc)
        (Some ("Tool '" ++ tool_name ++ "' not found in registry")), None))
  /\ (name tc = tool_name ->
      execute_tool_call repr_float
        (mkExecutor (unregister_tool (register_tool tools tool_name t) tool_name) limit)
        tc
      = execute_tool_call repr_float
          (mkExecutor (unregister_tool tools tool_name) limit) tc)
  /\ (name tc = tool_name ->
      get_tool (register_tool tools tool_name t) (name tc) = Some t)
  /\ (name tc <> tool_name ->
      execute_tool_call repr_float
        (mkExecutor (unregister_tool tools tool_name) limit) tc
      = execute_tool_call repr_float (mkExecutor tools limit) tc
      /\ execute_tool_call repr_float
           (mkExecutor (register_tool tools tool_name t) limit) tc
         = execute_tool_call repr_float (mkExecutor tools limit) tc).
Proof.
  assert (Hgone : forall m : gmap string (tool Params Data),
             unregister_tool m tool_name !! tool_name = None).
  { intros m. unfold unregister_tool. case_bool_decide as Hin.
    - apply lookup_delete_eq.
    - destruct (m !! tool_name) eqn:E; [|reflexivity]. exfalso. apply Hin. eauto. }
  assert (Hkeep : forall (m : gmap string (tool Params Data)) k,
             k <> tool_name -> unregister_tool m tool_name !! k = m !! k).
  { intros m k Hk. unfold unregister_tool. case_bool_decide; [|reflexivity].
    now apply lookup_delete_ne. }
  repeat split.
  - intros <-. unfold execute_tool_call, try_block. cbn [registry].
    now rewrite Hgone.
  - intros <-. unfold execute_tool_call, try_block. cbn [registry].
    now rewrite !Hgone.
  - intros ->. unfold get_tool, register_tool. apply lookup_insert_eq.
  - unfold execute_tool_call, try_block. cbn [registry timeout].
    now rewrite Hkeep.
  - unfold execute_tool_call, try_block, register_tool. cbn [registry timeout].
    now rewrite lookup_insert_ne by congruence.
Qed.

End ToolCallingFurtherFacts.


(** ** Execution tool: checksumming the candidate's code *)

Section ChecksumAllFacts.
Import Execution.

Lemma lower_app (a b : string) : Py.lower (a ++ b) = Py.lower a ++ Py.lower b.
Proof.
  induction a as [|c a IH]; [reflexivity|].
  change (Py.lower (String c (a ++ b)) = String (Py.lower_ascii c) (Py.lower a ++ Py.lower b)).
  change (Py.lower (String c (a ++ b)))
    with (String (Py.lower_ascii c) (Py.lower (a ++ b))).
  now rewrite IH.
Qed.

Lemma length_app_string (a b : string) :
  String.length (a ++ b) = (String.length a + String.length b)%nat.
Proof.
  induction a as [|c a IH]; [reflexivity|].
  change (S (String.length (a ++ b)) = S (String.length a + String.length b)).
  now rewrite IH.
Qed.

Lemma take_drop (n : nat) (s : string) : Py.take n s ++ Py.drop n s = s.
Proof.
  revert s. induction n as [|n IH]; intros [|c s]; try reflexivity.
  change (String c (Py.take n s ++ Py.drop n s) = String c s). now rewrite IH.
Qed.

Lemma length_take (n : nat) (s : string) :
  String.length (Py.take n s) = Nat.min n (String.length s).
Proof.
  revert s. induction n as [|n IH]; intros [|c s]; try reflexivity.
  cbn. now rewrite IH.
Qed.

Lemma length_drop (n : nat) (s : string) :
  String.length (Py.drop n s) = (String.length s - n)%nat.
Proof.
  revert s. induction n as [|n IH]; intros [|c s]; try reflexivity.
  cbn. now rewrite IH.
Qed.

Lemma take_app_exact (a b : string) (n : nat) :
  String.length a = n -> Py.take n (a ++ b) = a /\ Py.drop n (a ++ b) = b.
Proof.
  revert n. induction a as [|c a IH]; intros n Hlen.
  - cbn in Hlen. subst n. change ("" ++ b) with b. destruct b; split; reflexivity.
  - cbn [String.length] in Hlen. subst n.
    change (String c a ++ b) with (String c (a ++ b)). cbn [Py.take Py.drop].
    destruct (IH _ eq_refl) as [-> ->]. split; reflexivity.
Qed.

(** An address literal is ["0x"] and 40 hex digits, and its normal form
    is those digits in lower case. *)
Lemma address_literal_inv (a : string) :
  is_address_literal a = true ->
  exists h, a = String "0" (String "x" h) /\ String.length h = 40%nat
            /\ Py.all_in "abcdefABCDEF0123456789" h = true
            /\ normalise a = Py.lower h.
Proof.
  unfold is_address_literal. intros H.
  apply andb_prop in H as [H Hall]. apply andb_prop in H as [Hpre Hlen].
  destruct a as [|c0 a]; [discriminate Hpre|].
  cbn [Py.startswith] in Hpre.
  destruct (Ascii.eqb_spec "0" c0) as [<-|]; [|discriminate].
  destruct a as [|c1 h]; [discriminate Hpre|].
  destruct (Ascii.eqb_spec "x" c1) as [<-|]; [|discriminate].
  cbn [Py.drop] in Hall. cbn [String.length] in Hlen.
  apply Nat.eqb_eq in Hlen. injection Hlen as Hlen.
  exists h. repeat split; auto.
  pose proof (lower_mixed_hex h Hall) as Hlow.
  unfold normalise, Py.replace.
  change (Py.lower (String "0" (String "x" h)))
    with (String "0" (String "x" (Py.lower h))).
  cbn [Py.replace_from Py.startswith Ascii.eqb Bool.eqb String.length Nat.sub].
  change ("" ++ ?s) with s.
  now rewrite (replace_0x_hex _ Hlow).
Qed.

(** Checksumming an address literal changes the case of letters only:
    the result is an address literal again and reads the same in lower
    case. *)
Lemma checksum_of_literal (a : string) :
  is_address_literal a = true ->
  String.length (_to_checksum_address a) = 42%nat
  /\ Py.lower (_to_checksum_address a) = Py.lower a
  /\ is_address_literal (_to_checksum_address a) = true.
Proof.
  intros Hlit. pose proof (address_literal_is_valid a Hlit) as Hvalid.
  destruct (address_literal_inv a Hlit) as (h & -> & Hlen & Hall & Hnorm).
  unfold _to_checksum_address. rewrite Hvalid. cbn [negb].
  set (n := normalise (String "0" (String "x" h))) in *.
  set (cs := apply_checksum n (Keccak.hexdigest n)).
  change ("0x" ++ cs) with (String "0" (String "x" cs)).
  assert (Hn : Py.all_in "0123456789abcdef" n = true).
  { unfold is_valid_hex_address in Hvalid. now apply andb_prop in Hvalid as [_ ?]. }
  assert (Hlcs : Py.lower cs = n) by (apply lower_apply_checksum; exact Hn).
  assert (Hlencs : String.length cs = 40%nat).
  { unfold cs. rewrite length_apply_checksum. subst n. rewrite Hnorm, length_lower.
    exact Hlen. }
  split; [cbn [String.length]; now rewrite Hlencs|]. split.
  - change (Py.lower (String "0" (String "x" ?t)))
      with (String "0" (String "x" (Py.lower t))).
    now rewrite Hlcs, Hnorm.
  - unfold is_address_literal. cbn [Py.startswith Ascii.eqb Bool.eqb String.length Py.drop].
    rewrite Hlencs. cbn [Nat.eqb andb].
    clear - Hn. unfold cs. generalize (Keccak.hexdigest n) as d.
    induction n as [|c n IH]; intros d; [reflexivity|].
    cbn [Py.all_in] in Hn. apply andb_prop in Hn as [Hc Hn].
    destruct d as [|x d]; cbn [apply_checksum Py.all_in].
    + apply contains_char in Hc. cbn in Hc.
      assert (Hrest : Py.all_in "abcdefABCDEF0123456789" n = true).
      { specialize (IH Hn EmptyString). destruct n; [reflexivity|exact IH]. }
      rewrite Hrest, andb_true_r.
      repeat (destruct Hc as [<- | Hc]; [reflexivity|]). contradiction.
    + rewrite (IH Hn d), andb_true_r.
      apply contains_char in Hc. cbn in Hc.
      destruct (8 <=? hex_value x)%Z;
        repeat (destruct Hc as [<- | Hc]; [reflexivity|]); contradiction.
Qed.

Lemma checksum_from_skip (k : nat) (s : string) :
  checksum_from k s = checksum_from 0 (Py.drop k s).
Proof.
  revert k. induction s as [|c s IH]; intros [|k]; try reflexivity.
  cbn [checksum_from Py.drop]. apply IH.
Qed.

(** [_checksum_all_addresses], one match or one character at a time. *)
Lemma checksum_all_step (code : string) :
  _checksum_all_addresses code
  = if is_address_literal (Py.take 42 code)
    then _to_checksum_address (Py.take 42 code)
         ++ _checksum_all_addresses (Py.drop 42 code)
    else match code with
         | EmptyString => EmptyString
         | String c rest => String c (_checksum_all_addresses rest)
         end.
Proof.
  unfold _checksum_all_addresses. destruct code as [|c rest]; [reflexivity|].
  cbn [checksum_from].
  destruct (is_address_literal (Py.take 42 (String c rest))); [|reflexivity].
  now rewrite checksum_from_skip.
Qed.

Lemma literal_prefix_length (code : string) :
  is_address_literal (Py.take 42 code) = true ->
  String.length (Py.take 42 code) = 42%nat /\ (42 <= String.length code)%nat.
Proof.
  intros Hlit. unfold is_address_literal in Hlit.
  apply andb_prop in Hlit as [Hlit _]. apply andb_prop in Hlit as [_ Hlen].
  apply Nat.eqb_eq in Hlen. split; [exact Hlen|].
  rewrite length_take in Hlen. lia.
Qed.

Lemma length_checksum_all (code : string) :
  String.length (_checksum_all_addresses code) = String.length code.
Proof.
  remember (String.length code) as n eqn:Hn. revert code Hn.
  induction n as [n IH] using lt_wf_ind. intros code Hn.
  rewrite checksum_all_step.
  destruct (is_address_literal (Py.take 42 code)) eqn:Hlit.
  - destruct (literal_prefix_length code Hlit) as [Htake Hlong].
    destruct (checksum_of_literal _ Hlit) as (Hlen & _ & _).
    rewrite length_app_string, Hlen.
    rewrite (IH (String.length (Py.drop 42 code))
               ltac:(rewrite length_drop; lia) (Py.drop 42 code) eq_refl).
    rewrite length_drop. lia.
  - destruct code as [|c rest]; [now subst n|].
    cbn [String.length] in Hn. cbn [String.length].
    rewrite (IH (String.length rest) ltac:(lia) rest eq_refl). now subst n.
Qed.

(** Checksumming every address of a piece of code changes the case of
    letters and nothing else: the result has the length of the code and
    reads the same in lower case. *)
Theorem checksum_all_changes_case_only (code : string) :
  String.length (_checksum_all_addresses code) = String.length code
  /\ Py.lower (_checksum_all_addresses code) = Py.lower code.
Proof.
  split; [apply length_checksum_all|].
  remember (String.length code) as n eqn:Hn. revert code Hn.
  induction n as [n IH] using lt_wf_ind. intros code Hn.
  rewrite checksum_all_step.
  destruct (is_address_literal (Py.take 42 code)) eqn:Hlit.
  - destruct (literal_prefix_length code Hlit) as [Htake Hlong].
    destruct (checksum_of_literal _ Hlit) as (_ & Hlow & _).
    rewrite lower_app, Hlow.
    rewrite (IH (String.length (Py.drop 42 code))
               ltac:(rewrite length_drop; lia) (Py.drop 42 code) eq_refl).
    now rewrite <- lower_app, take_drop.
  - destruct code as [|c rest]; [reflexivity|].
    cbn [String.length] in Hn.
    change (Py.lower (String c ?t)) with (String (Py.lower_ascii c) (Py.lower t)).
    now rewrite (IH (String.length rest) ltac:(lia) rest eq_refl).
Qed.

Lemma fold_hex_case_cons (c : ascii) (s : string) :
  fold_hex_case (String c s) = String (fold_hex_case_ascii c) (fold_hex_case s).
Proof. reflexivity. Qed.

Lemma fold_hex_case_app (a b : string) :
  fold_hex_case (a ++ b) = fold_hex_case a ++ fold_hex_case b.
Proof.
  induction a as [|c a IH]; [reflexivity|].
  change (fold_hex_case (String c (a ++ b))
          = String (fold_hex_case_ascii c) (fold_hex_case a ++ fold_hex_case b)).
  now rewrite fold_hex_case_cons, IH.
Qed.

Lemma fold_hex_case_take (n : nat) (s : string) :
  fold_hex_case (Py.take n s) = Py.take n (fold_hex_case s).
Proof.
  revert s. induction n as [|n IH]; intros [|c s]; try reflexivity.
  cbn [Py.take]. rewrite !fold_hex_case_cons. cbn [Py.take]. now rewrite IH.
Qed.

Lemma fold_hex_case_drop (n : nat) (s : string) :
  fold_hex_case (Py.drop n s) = Py.drop n (fold_hex_case s).
Proof.
  revert s. induction n as [|n IH]; intros [|c s]; try reflexivity.
  cbn [Py.drop]. rewrite fold_hex_case_cons. cbn [Py.drop]. apply IH.
Qed.

Lemma length_fold_hex_case (s : string) :
  String.length (fold_hex_case s) = String.length s.
Proof.
  induction s as [|c s IH]; [reflexivity|].
  rewrite fold_hex_case_cons. cbn [String.length]. now rewrite IH.
Qed.

Lemma fold_hex_case_ascii_facts (c : ascii) :
  Ascii.eqb "0" (fold_hex_case_ascii c) = Ascii.eqb "0" c
  /\ Ascii.eqb "x" (fold_hex_case_ascii c) = Ascii.eqb "x" c
  /\ Py.contains (String (fold_hex_case_ascii c) EmptyString) "abcdefABCDEF0123456789"
     = Py.contains (String c EmptyString) "abcdefABCDEF0123456789".
Proof. destruct c as [[] [] [] [] [] [] [] []]; repeat split; reflexivity. Qed.

Lemma all_in_fold_hex_case (s : string) :
  Py.all_in "abcdefABCDEF0123456789" (fold_hex_case s)
  = Py.all_in "abcdefABCDEF0123456789" s.
Proof.
  induction s as [|c s IH]; [reflexivity|].
  rewrite fold_hex_case_cons. cbn [Py.all_in].
  destruct (fold_hex_case_ascii_facts c) as (_ & _ & ->). now rewrite IH.
Qed.

(** The pattern matches a string exactly when it matches its fold. *)
Lemma is_address_literal_fold (a : string) :
  is_address_literal (fold_hex_case a) = is_address_literal a.
Proof.
  unfold is_address_literal.
  rewrite length_fold_hex_case, <- fold_hex_case_drop, all_in_fold_hex_case.
  f_equal. f_equal.
  destruct a as [|c0 a]; [reflexivity|]. rewrite fold_hex_case_cons.
  cbn [Py.startswith]. destruct (fold_hex_case_ascii_facts c0) as (-> & _ & _).
  destruct (Ascii.eqb "0" c0); [|reflexivity].
  destruct a as [|c1 a]; [reflexivity|]. rewrite fold_hex_case_cons.
  cbn [Py.startswith]. destruct (fold_hex_case_ascii_facts c1) as (_ & -> & _).
  reflexivity.
Qed.

Lemma fold_lower_hex_char (c : ascii) :
  Py.contains (String c EmptyString) "0123456789abcdef" = true ->
  fold_hex_case_ascii c = c /\ fold_hex_case_ascii (Py.upper_ascii c) = c.
Proof.
  intros H. apply contains_char in H. cbn in H.
  repeat (destruct H as [<- | H]; [split; reflexivity|]).
  contradiction.
Qed.

Lemma fold_apply_checksum (s : string) :
  Py.all_in "0123456789abcdef" s = true ->
  forall h, fold_hex_case (apply_checksum s h) = s.
Proof.
  induction s as [|c s IH]; intros Hall h; [reflexivity|].
  cbn [Py.all_in] in Hall. apply andb_prop in Hall as [Hc Hs].
  destruct (fold_lower_hex_char c Hc) as (Hf & Hfu).
  destruct h as [|x h]; cbn [apply_checksum]; rewrite fold_hex_case_cons.
  - rewrite Hf. f_equal.
    specialize (IH Hs EmptyString). destruct s; [reflexivity|exact IH].
  - rewrite (IH Hs h). f_equal.
    destruct (Py.contains _ "0123456789"); [exact Hf|].
    destruct (8 <=? hex_value x)%Z; [exact Hfu | exact Hf].
Qed.

Lemma fold_mixed_hex (h : string) :
  Py.all_in "abcdefABCDEF0123456789" h = true ->
  fold_hex_case h = Py.lower h.
Proof.
  induction h as [|c h IH]; intros Hall; [reflexivity|].
  cbn [Py.all_in] in Hall. apply andb_prop in Hall as [Hc Hh].
  rewrite fold_hex_case_cons.
  change (Py.lower (String c h)) with (String (Py.lower_ascii c) (Py.lower h)).
  rewrite (IH Hh). f_equal.
  apply contains_char in Hc. cbn in Hc.
  repeat (destruct Hc as [<- | Hc]; [reflexivity|]). contradiction.
Qed.

Lemma fold_checksum_of_literal (a : string) :
  is_address_literal a = true ->
  fold_hex_case (_to_checksum_address a) = fold_hex_case a
  /\ _to_checksum_address (_to_checksum_address a) = _to_checksum_address a.
Proof.
  intros Hlit. pose proof (address_literal_is_valid a Hlit) as Hvalid.
  split.
  - destruct (address_literal_inv a Hlit) as (h & -> & Hlen & Hall & Hnorm).
    unfold _to_checksum_address. rewrite Hvalid. cbn [negb].
    set (n := normalise (String "0" (String "x" h))) in *.
    change ("0x" ++ ?cs) with (String "0" (String "x" cs)).
    rewrite !fold_hex_case_cons.
    assert (Hn : Py.all_in "0123456789abcdef" n = true).
    { unfold is_valid_hex_address in Hvalid. now apply andb_prop in Hvalid as [_ ?]. }
    rewrite (fold_apply_checksum n Hn), (fold_mixed_hex h Hall). now rewrite Hnorm.
  - unfold _to_checksum_address at 2. rewrite Hvalid. cbn [negb].
    unfold _to_checksum_address.
    now rewrite (normalise_checksummed _ Hvalid), Hvalid.
Qed.

(** Checksumming moves no match of the pattern. *)
Lemma fold_checksum_all (code : string) :
  fold_hex_case (_checksum_all_addresses code) = fold_hex_case code.
Proof.
  remember (String.length code) as n eqn:Hn. revert code Hn.
  induction n as [n IH] using lt_wf_ind. intros code Hn.
  rewrite checksum_all_step.
  destruct (is_address_literal (Py.take 42 code)) eqn:Hlit.
  - destruct (literal_prefix_length code Hlit) as [Htake Hlong].
    destruct (fold_checksum_of_literal _ Hlit) as [Hfold _].
    rewrite fold_hex_case_app, Hfold.
    rewrite (IH (String.length (Py.drop 42 code))
               ltac:(rewrite length_drop; lia) (Py.drop 42 code) eq_refl).
    now rewrite <- fold_hex_case_app, take_drop.
  - destruct code as [|c rest]; [reflexivity|].
    cbn [String.length] in Hn. rewrite !fold_hex_case_cons.
    now rewrite (IH (String.length rest) ltac:(lia) rest eq_refl).
Qed.

(** [_checksum_all_addresses] is idempotent on every string: a second
    pass finds the same matches, each already checksummed. *)
Theorem checksum_all_idempotent (code : string) :
  _checksum_all_addresses (_checksum_all_addresses code)
  = _checksum_all_addresses code.
Proof.
  remember (String.length code) as n eqn:Hn. revert code Hn.
  induction n as [n IH] using lt_wf_ind. intros code Hn.
  rewrite (checksum_all_step code).
  destruct (is_address_literal (Py.take 42 code)) eqn:Hlit.
  - destruct (literal_prefix_length code Hlit) as [Htake Hlong].
    destruct (checksum_of_literal _ Hlit) as (Hlen & _ & Hlit').
    destruct (fold_checksum_of_literal _ Hlit) as [_ Hidem].
    rewrite checksum_all_step.
    destruct (take_app_exact _ (_checksum_all_addresses (Py.drop 42 code)) 42 Hlen)
      as [-> ->].
    rewrite Hlit', Hidem.
    now rewrite (IH (String.length (Py.drop 42 code))
                   ltac:(rewrite length_drop; lia) (Py.drop 42 code) eq_refl).
  - destruct code as [|c rest]; [reflexivity|].
    cbn [String.length] in Hn.
    rewrite checksum_all_step.
    assert (Hno : is_address_literal
                    (Py.take 42 (String c (_checksum_all_addresses rest))) = false).
    { rewrite <- is_address_literal_fold, fold_hex_case_take, fold_hex_case_cons,
        fold_checksum_all, <- fold_hex_case_cons, <- fold_hex_case_take,
        is_address_literal_fold. exact Hlit. }
    rewrite Hno.
    now rewrite (IH (String.length rest) ltac:(lia) rest eq_refl).
Qed.

End ChecksumAllFacts.

(** ** Execution tool: guards, the file system and the analysis *)

Section ExecutionGuardFacts.
Import Execution.

Lemma length_zero_empty (s : string) : String.length s = 0%nat <-> s = "".
Proof. destruct s; cbn; split; congruence. Qed.

Lemma replace_nonempty (old new s : string) :
  new <> "" -> Py.replace old new s = "" -> s = "".
Proof.
  intros Hnew. destruct s as [|c s]; [reflexivity|].
  unfold Py.replace. cbn [Py.replace_from].
  destruct (Py.startswith old (String c s)); [|discriminate].
  destruct new as [|n new]; [contradiction|]. discriminate.
Qed.

(** The code [execute] tests at its guard is the candidate's code after
    the placeholder and every address have been rewritten; it is empty
    exactly when the candidate's code is. *)
Lemma prepared_code_empty_iff (exploit_code target_address : string) :
  prepare_exploit_code exploit_code target_address = "" <-> exploit_code = "".
Proof.
  unfold prepare_exploit_code. split.
  - intros H. apply length_zero_empty in H.
    rewrite length_checksum_all in H.
    apply length_zero_empty in H.
    apply replace_nonempty in H; [exact H|].
    intros E. pose proof (checksum_address_not_empty target_address) as Hne.
    rewrite E in Hne. discriminate Hne.
  - intros ->. reflexivity.
Qed.

(** The guard of [execute] rejects an empty candidate and nothing else.
    The target address has been checksummed by then, which puts "0x" in
    front of whatever it was given, so the test [not target_address]
    never fires: a call without a target address goes on to run.  The
    failure "Missing exploit_code or target_address" is returned exactly
    when the candidate's code is empty, and then no directory is
    created. *)
Theorem missing_input_guard (cfg : Config) (w : world) (p : params)
    (fs : gset string) :
  (prepare_exploit_code (exploit_code p) (target_address p) = ""
   <-> exploit_code p = "")
  /\ (fst (execute cfg w p fs) = failure "Missing exploit_code or target_address"
      <-> exploit_code p = "")
  /\ (exploit_code p = "" -> snd (execute cfg w p fs) = fs).
Proof.
  split; [apply prepared_code_empty_iff|].
  unfold execute. rewrite checksum_address_not_empty, orb_false_r.
  destruct (String.eqb_spec (exploit_code p) "") as [Hcode | Hcode].
  { split; [split; auto|reflexivity]. }
  split; [|contradiction]. split; [|contradiction].
  destruct (negb (foundry_found w)); [discriminate|].
  unfold fs_bind at 1.
  destruct (_create_foundry_project cfg w p fs) as [[[dir|]|e] fs1].
  - unfold try_finally, run_and_analyse, fs_bind, fs_lift, fs_ret,
      _cleanup_temp_dir, _save_artifacts.
    destruct (run_foundry_test w) as [er|e];
      [destruct (_analyze_execution_result er);
       [destruct (iteration_dir p); [destruct (mkdir_works w)|]|]|];
      destruct (rmtree_works w); cbn [fst]; unfold failure; intros H;
      now inversion H.
  - cbv [fs_ret]. cbn [fst]. discriminate.
  - cbn [fst]. unfold failure. intros H. now inversion H.
Qed.



(** The chains [get_chain_config] knows are 1, 43114 and 56; for any
    other the endpoint reads as the empty string. *)
Lemma unsupported_chain_has_no_endpoint (cfg : Config) (cid : Z) :
  cid <> 1 -> cid <> 43114 -> cid <> 56 ->
  Py.truthy_optstr (rpc_url_of cfg cid) = false.
Proof.
  intros H1 H2 H3. unfold rpc_url_of.
  apply Z.eqb_neq in H1, H2, H3. now rewrite H1, H2, H3.
Qed.

(** Without an RPC endpoint for the chain (the setting is absent or
    empty, or the chain is none of 1, 43114 and 56) no project is
    created: [_create_foundry_config] raises [ValueError],
    [_create_foundry_project] answers [None] whatever else happens
    during it, and [execute], given a candidate and a working forge,
    returns "Failed to create Foundry project". *)
Theorem no_endpoint_no_project (cfg : Config) (w : world) (p : params)
    (fs : gset string) :
  Py.truthy_optstr (rpc_url_of cfg (chain_id p)) = false ->
  _create_foundry_config cfg (chain_id p) (block_number p)
  = Py.Raise (Py.Exn Py.ValueError
                ("No RPC URL configured for chain " ++ Py.str_of_int (chain_id p)))
  /\ fst (_create_foundry_project cfg w p fs) = Py.Ok None
  /\ (exploit_code p <> "" -> foundry_found w = true ->
      fst (execute cfg w p fs) = failure "Failed to create Foundry project").
Proof.
  intros Hrpc.
  assert (Hcfg : _create_foundry_config cfg (chain_id p) (block_number p)
                 = Py.Raise (Py.Exn Py.ValueError
                     ("No RPC URL configured for chain "
                      ++ Py.str_of_int (chain_id p)))).
  { unfold _create_foundry_config. now rewrite Hrpc. }
  assert (Hproj : fst (_create_foundry_project cfg w p fs) = Py.Ok None).
  { unfold _create_foundry_project, create_project_steps, fs_bind, do_mkdtemp,
      fs_lift, fs_ret. rewrite Hcfg.
    destruct (mkdtemp w); [|reflexivity].
    destruct (forge_init w) as [code|e]; [|reflexivity].
    now destruct (negb (code =? 0)). }
  split; [exact Hcfg|]. split; [exact Hproj|].
  intros Hcode Hforge. unfold execute.
  apply String.eqb_neq in Hcode.
  rewrite Hcode, checksum_address_not_empty, Hforge. cbn [orb negb].
  unfold fs_bind.
  destruct (_create_foundry_project cfg w p fs) as [r fs1]. cbn [fst] in Hproj.
  subst r. reflexivity.
Qed.

(** Chain 137 with an Ethereum endpoint only. *)
Lemma no_endpoint_no_project_witness :
  fst (execute demo_config good_world no_rpc_params ∅)
  = failure "Failed to create Foundry project".
Proof.
  apply (no_endpoint_no_project demo_config good_world no_rpc_params ∅
           (unsupported_chain_has_no_endpoint demo_config 137
              ltac:(discriminate) ltac:(discriminate) ltac:(discriminate))).
  - discriminate.
  - reflexivity.
Defined.

Lemma float_max_zero (q : float) :
  (float_max 0 q = 0%float \/ PrimFloat.ltb 0 (float_max 0 q) = true)
  /\ PrimFloat.ltb 0 (float_max 0 q) = PrimFloat.ltb 0 q.
Proof.
  unfold float_max. destruct (PrimFloat.ltb 0 q) eqn:Hq; auto.
Qed.

(** What the analysis reports about profit.  A run whose process
    failed is reported as all-negative.  Otherwise [profitable] holds
    exactly when the output carries the marker "EXPLOIT_PROFITABLE:
    true" or the reported ETH gain is positive; the gain is 0.0 or
    positive, never negative and never a NaN; at most one token entry
    is reported; and a positive gain makes the run both profitable and
    successfully executed. *)
Theorem analysis_profitability (er : execution_result) (a : analysis) :
  _analyze_execution_result er = Py.Ok a ->
  (success er = false -> a = mkAnalysis false false 0 [])
  /\ profitable a
     = success er
       && (Py.contains "EXPLOIT_PROFITABLE: true" (output er)
           || PrimFloat.ltb 0 (eth_gained a))
  /\ (eth_gained a = 0%float \/ PrimFloat.ltb 0 (eth_gained a) = true)
  /\ (length (tokens_extracted a) <= 1)%nat
  /\ (PrimFloat.ltb 0 (eth_gained a) = true ->
      profitable a = true /\ exploit_executed_successfully a = true).
Proof.
  unfold _analyze_execution_result.
  destruct (success er); cbn [negb andb].
  2:{ intros [= <-]. cbn. repeat split; auto; discriminate. }
  destruct (first_match eth_gained_patterns (output er)) as [wei|].
  - destruct (Py.int_truediv wei (10 ^ 18)) as [q|e]; cbn [Py.bind]; [|discriminate].
    intros [= <-]. cbn [profitable eth_gained tokens_extracted
                        exploit_executed_successfully].
    destruct (float_max_zero q) as [Hsign Hpos]. rewrite Hpos in *.
    split; [discriminate|]. split; [reflexivity|]. split; [exact Hsign|].
    split; [match goal with |- context [length (match ?x with _ => _ end)] =>
               destruct x end; cbn [length]; lia|].
    intros ->. split; [apply orb_true_r|]. now rewrite orb_true_r.
  - cbn [Py.bind]. intros [= <-].
    cbn [profitable eth_gained tokens_extracted exploit_executed_successfully].
    split; [discriminate|]. split; [now rewrite orb_false_r|]. split; [now left|].
    split; [match goal with |- context [length (match ?x with _ => _ end)] =>
               destruct x end; cbn [length]; lia|].
    intros H. discriminate H.
Qed.

(** The run that gained one wei. *)
Lemma analysis_profitability_witness :
  exists a,
    _analyze_execution_result run_with_one_wei = Py.Ok a
    /\ profitable a = true /\ exploit_executed_successfully a = true.
Proof.
  destruct (_analyze_execution_result run_with_one_wei) as [a|e] eqn:Hrun;
    [|vm_compute in Hrun; discriminate Hrun].
  exists a. split; [reflexivity|].
  assert (Heth : PrimFloat.ltb 0%float (eth_gained a) = true).
  { vm_compute in Hrun. injection Hrun as <-. reflexivity. }
  exact (proj2 (proj2 (proj2 (proj2
           (analysis_profitability run_with_one_wei a Hrun)))) Heth).
Defined.

End ExecutionGuardFacts.
